(** * Startup analyst platform: extraction, scoring and orchestration

    A shallow embedding of the numeric core of the platform:

    - [src/src/ml/pdf_financial_extractor.py]: the value parser, the regex
      metric extraction with its median, the combination of the sources
      into [ExtractedFinancialData] and the two quality scores;
    - [src/src/ml/production_ensemble_predictor.py]: the feature record,
      the six sub-scores, the confidence interval and the threshold policy;
    - [src/src/ml/production_pipeline.py]: the orchestrator, with the
      feature dict kept in a store so that aliasing with the caller's
      [manual_data] is visible.

    Conventions.  A Python [float] is an exact rational ([Q]): rounding and
    overflow are not modelled, and equalities between computed floats are
    stated with [==].  A Python [str] is a [string] of ASCII characters.
    A [dict] with string keys is a [gmap string _].  What the code obtains
    from libraries outside the repository (the PDF readers, the text
    generation model, scikit-learn, [numpy.std]) is a field of an
    environment record, constrained by hypotheses where a proof needs it. *)

From Stdlib Require Import QArith Qminmax Lqa Lia ZArith.
From Stdlib Require Import String Ascii List Permutation.
From stdpp Require Import gmap strings list fin_maps.

Local Open Scope string_scope.
Local Open Scope list_scope.

(** ** Python strings *)

Module PyStr.

Definition code (c : ascii) : nat := nat_of_ascii c.

(** [str.isspace] on ASCII: blank, TAB..CR and the separators FS..US. *)
Definition is_space (c : ascii) : bool :=
  let n := code c in
  (n =? 32)%nat || ((9 <=? n)%nat && (n <=? 13)%nat)
  || ((28 <=? n)%nat && (n <=? 31)%nat).

Definition is_digit (c : ascii) : bool :=
  let n := code c in (48 <=? n)%nat && (n <=? 57)%nat.

Definition digit_val (c : ascii) : Z := (Z.of_nat (code c) - 48)%Z.

Definition is_lower (c : ascii) : bool :=
  let n := code c in (97 <=? n)%nat && (n <=? 122)%nat.

Definition is_upper (c : ascii) : bool :=
  let n := code c in (65 <=? n)%nat && (n <=? 90)%nat.

Definition to_upper (c : ascii) : ascii :=
  if is_lower c then ascii_of_nat (code c - 32) else c.

Definition to_lower (c : ascii) : ascii :=
  if is_upper c then ascii_of_nat (code c + 32) else c.

Definition chars (s : string) : list ascii := list_ascii_of_string s.
Definition str (l : list ascii) : string := string_of_list_ascii l.

(** [s.upper()] and [s.lower()] *)
Definition upper (l : list ascii) : list ascii := map to_upper l.
Definition lower (l : list ascii) : list ascii := map to_lower l.

(** [s.replace(c, '')] for a one-character [c] *)
Definition remove_char (c : ascii) (l : list ascii) : list ascii :=
  List.filter (fun x => negb (Ascii.eqb x c)) l.

(** The C locale's [isspace], which [float] uses on an ASCII string:
    blank and TAB..CR only. *)
Definition is_c_space (c : ascii) : bool :=
  let n := code c in
  (n =? 32)%nat || ((9 <=? n)%nat && (n <=? 13)%nat).

Fixpoint lstrip_by (p : ascii -> bool) (l : list ascii) : list ascii :=
  match l with
  | c :: l' => if p c then lstrip_by p l' else l
  | [] => []
  end.

Definition strip_by (p : ascii -> bool) (l : list ascii) : list ascii :=
  rev (lstrip_by p (rev (lstrip_by p l))).

(** [s.strip()] *)
Definition strip (l : list ascii) : list ascii := strip_by is_space l.

(** [s.endswith(c)] for a one-character [c] *)
Definition endswith (c : ascii) (l : list ascii) : bool :=
  match rev l with
  | x :: _ => Ascii.eqb x c
  | [] => false
  end.

(** [s[:-1]] *)
Definition drop_last (l : list ascii) : list ascii := removelast l.

(** [s[-1]] when there is one *)
Definition last_error_char (l : list ascii) : option ascii := head (rev l).

Fixpoint list_eqb (a b : list ascii) : bool :=
  match a, b with
  | [], [] => true
  | x :: a', y :: b' => Ascii.eqb x y && list_eqb a' b'
  | _, _ => false
  end.

(** [span p l]: the longest prefix of [l] satisfying [p], and the rest. *)
Fixpoint span (p : ascii -> bool) (l : list ascii) : list ascii * list ascii :=
  match l with
  | c :: l' =>
      if p c then let '(a, b) := span p l' in (c :: a, b) else ([], l)
  | [] => ([], [])
  end.

End PyStr.

(** ** Python floats *)

Module PyFloat.
Import PyStr.

(** The value of [float(s)] when it does not raise: a rational, or one of
    the three values that are not numbers of [Q]. *)
Inductive pyfloat : Type :=
| Fin (q : Q)
| PosInf
| NegInf
| NaN.

(** [x * m] for a positive finite [m] *)
Definition scale (m : Q) (x : pyfloat) : pyfloat :=
  match x with
  | Fin q => Fin (q * m)%Q
  | other => other
  end.

(** [bool(x)]: only zero is falsy *)
Definition truthy (x : pyfloat) : bool :=
  match x with
  | Fin q => negb (Qeq_bool q 0%Q)
  | _ => true
  end.


(** [x] is no value or a finite one *)
Definition finite_or_none (x : option pyfloat) : Prop :=
  match x with
  | Some (Fin _) | None => True
  | Some _ => False
  end.

Definition pow10 (e : Z) : Q :=
  if (0 <=? e)%Z then inject_Z (10 ^ e) else (1 # Z.to_pos (10 ^ (- e)))%Q.

Fixpoint digits_val (acc : Z) (l : list ascii) : Z :=
  match l with
  | c :: l' => digits_val (10 * acc + digit_val c)%Z l'
  | [] => acc
  end.

(** Underscores, allowed since Python 3.6, must each stand between two
    digits; they are then dropped.  [prev] is the previous character. *)
Fixpoint drop_underscores (prev : option ascii) (l : list ascii)
  : option (list ascii) :=
  match l with
  | [] =>
      match prev with
      | Some "_"%char => None
      | _ => Some []
      end
  | c :: l' =>
      if Ascii.eqb c "_" then
        match prev with
        | Some p => if is_digit p then drop_underscores (Some c) l' else None
        | None => None
        end
      else
        match prev with
        | Some "_"%char =>
            if is_digit c
            then option_map (cons c) (drop_underscores (Some c) l')
            else None
        | _ => option_map (cons c) (drop_underscores (Some c) l')
        end
  end.

(** An optional sign: [true] for a minus. *)
Definition read_sign (l : list ascii) : bool * list ascii :=
  match l with
  | "-"%char :: l' => (true, l')
  | "+"%char :: l' => (false, l')
  | _ => (false, l)
  end.

(** The exponent part: empty, or [e]/[E], an optional sign and at least
    one digit, up to the end of the string. *)
Definition read_exponent (l : list ascii) : option Z :=
  match l with
  | [] => Some 0%Z
  | c :: l' =>
      if Ascii.eqb (to_lower c) "e" then
        let '(neg, l1) := read_sign l' in
        let '(ds, rest) := span is_digit l1 in
        match ds, rest with
        | _ :: _, [] =>
            Some (if neg then (- digits_val 0 ds)%Z else digits_val 0 ds)
        | _, _ => None
        end
      else None
  end.

(** Decimal literal without sign: digits, optional point and digits (at
    least one digit in all), optional exponent. *)
Definition read_decimal (l : list ascii) : option Q :=
  let '(ip, r1) := span is_digit l in
  let '(fp, r2) :=
    match r1 with
    | "."%char :: r => span is_digit r
    | _ => ([], r1)
    end in
  match ip ++ fp with
  | [] => None
  | _ :: _ =>
      match read_exponent r2 with
      | Some e =>
          Some (inject_Z (digits_val 0 (ip ++ fp))
                * pow10 (e - Z.of_nat (List.length fp)))%Q
      | None => None
      end
  end.

Definition is_word (w : string) (l : list ascii) : bool :=
  list_eqb (lower l) (chars w).

(** [float(s)] for a string [s]; [None] stands for [ValueError]. *)
Definition py_float (s : list ascii) : option pyfloat :=
  match drop_underscores None (strip_by is_c_space s) with
  | None => None
  | Some l =>
      let '(neg, body) := read_sign l in
      if is_word "inf" body || is_word "infinity" body
      then Some (if neg then NegInf else PosInf)
      else if is_word "nan" body then Some NaN
      else
        match read_decimal body with
        | Some q => Some (Fin (if neg then (- q)%Q else q))
        | None => None
        end
  end.

End PyFloat.

(** ** Regular expressions

    The fragment of Python's [re] that the extractor's patterns use, with
    its backtracking semantics: the alternatives of a repetition are tried
    in priority order (longest first when greedy, shortest first when lazy)
    and the first way to match the whole pattern wins.  Every repetition in
    the source's patterns ranges over a single character class. *)

Module Regex.
Import PyStr.

Inductive re : Type :=
| Chr (p : ascii -> bool)
| Rep (greedy : bool) (lo : nat) (hi : option nat) (p : ascii -> bool)
| Seq (r1 r2 : re)
| Grp (r : re).

Definition more (hi : option nat) : bool :=
  match hi with
  | Some O => false
  | _ => true
  end.

Definition dec (hi : option nat) : option nat := option_map Nat.pred hi.

Section Matcher.
Context {A : Type}.

(** [p{lo,hi}]: take as many characters as allowed, give them back one
    at a time while the continuation fails. *)
Fixpoint rep_greedy (p : ascii -> bool) (lo : nat) (hi : option nat)
    (s : list ascii) (k : list ascii -> option A) : option A :=
  let stop := match lo with O => k s | S _ => None end in
  match s with
  | c :: s' =>
      if p c && more hi then
        match rep_greedy p (Nat.pred lo) (dec hi) s' k with
        | Some r => Some r
        | None => stop
        end
      else stop
  | [] => stop
  end.

(** [p{lo,hi}?]: take the fewest characters allowed, one more each
    time the continuation fails. *)
Fixpoint rep_lazy (p : ascii -> bool) (lo : nat) (hi : option nat)
    (s : list ascii) (k : list ascii -> option A) : option A :=
  let step :=
    match s with
    | c :: s' =>
        if p c && more hi then rep_lazy p (Nat.pred lo) (dec hi) s' k
        else None
    | [] => None
    end in
  match lo with
  | O =>
      match k s with
      | Some r => Some r
      | None => step
      end
  | S _ => step
  end.

(** [k] receives the text captured by the group so far and the rest of
    the input. *)
Fixpoint rmatch (r : re) (cap : option (list ascii)) (s : list ascii)
    (k : option (list ascii) -> list ascii -> option A) : option A :=
  match r with
  | Chr p =>
      match s with
      | c :: s' => if p c then k cap s' else None
      | [] => None
      end
  | Rep true lo hi p => rep_greedy p lo hi s (k cap)
  | Rep false lo hi p => rep_lazy p lo hi s (k cap)
  | Seq r1 r2 => rmatch r1 cap s (fun cap1 s1 => rmatch r2 cap1 s1 k)
  | Grp r1 =>
      rmatch r1 cap s
        (fun _ s1 => k (Some (firstn (List.length s - List.length s1) s)) s1)
  end.
End Matcher.

(** A match at the start of [s]: what [findall] reports for it (the
    group when the pattern has one, the whole match otherwise) and the
    number of characters matched. *)
Definition match_here (r : re) (s : list ascii) : option (list ascii * nat) :=
  rmatch r None s
    (fun cap rest =>
       let n := (List.length s - List.length rest)%nat in
       Some (match cap with Some g => g | None => firstn n s end, n)).

(** [re.findall]: leftmost matches, not overlapping.  [skip] counts the
    characters of the previous match still to be passed.  (An empty
    match moves on by one character; no pattern of the source matches
    the empty string.) *)
Fixpoint scan (r : re) (skip : nat) (s : list ascii) : list (list ascii) :=
  match s with
  | [] => []
  | _ :: s' =>
      match skip with
      | S n => scan r n s'
      | O =>
          match match_here r s with
          | Some (g, n) => g :: scan r (Nat.pred n) s'
          | None => scan r 0 s'
          end
      end
  end.

Definition findall (r : re) (text : string) : list string :=
  map str (scan r 0 (chars text)).

(** *** Which characters a group can capture *)

Definition all_ascii : list ascii := map ascii_of_nat (seq 0 256).

(** Every character of class [p] is a character of [P]. *)
Definition within (P p : ascii -> bool) : bool :=
  forallb (fun c => implb (p c) (P c)) all_ascii.

Fixpoint group_free (r : re) : bool :=
  match r with
  | Chr _ | Rep _ _ _ _ => true
  | Seq r1 r2 => group_free r1 && group_free r2
  | Grp _ => false
  end.

Fixpoint has_group (r : re) : bool :=
  match r with
  | Chr _ | Rep _ _ _ _ => false
  | Seq r1 r2 => has_group r1 || has_group r2
  | Grp _ => true
  end.

Fixpoint classes_within (P : ascii -> bool) (r : re) : bool :=
  match r with
  | Chr p | Rep _ _ _ p => within P p
  | Seq r1 r2 => classes_within P r1 && classes_within P r2
  | Grp r1 => classes_within P r1
  end.

(** Every group of [r] has no inner group and matches characters of [P]
    only. *)
Fixpoint groups_within (P : ascii -> bool) (r : re) : bool :=
  match r with
  | Chr _ | Rep _ _ _ _ => true
  | Seq r1 r2 => groups_within P r1 && groups_within P r2
  | Grp r1 => group_free r1 && classes_within P r1
  end.

(** A capture that is absent or made of characters of [P] *)
Definition good (P : ascii -> bool) (cap : option (list ascii)) : Prop :=
  match cap with
  | Some g => Forall (fun c => P c = true) g
  | None => True
  end.

(** What [findall] reports for [r] consists of characters of [P]: the
    pattern has a group, on every way through it, and its groups stay
    within [P]; or it has none and stays within [P] as a whole. *)
Definition reports_within (P : ascii -> bool) (r : re) : bool :=
  groups_within P r && (has_group r || classes_within P r).

(** *** Pattern syntax *)

(** A literal character under [re.IGNORECASE] *)
Definition ci (c : ascii) : ascii -> bool :=
  fun x => Ascii.eqb (to_lower x) (to_lower c).

Definition one_of (cs : string) : ascii -> bool :=
  fun x => existsb (Ascii.eqb x) (chars cs).

(** [.] without [re.DOTALL] *)
Definition dot : ascii -> bool :=
  fun x => negb (Ascii.eqb x "010").

(** The items of a pattern in sequence; the empty pattern matches the
    empty string. *)
Fixpoint seq (rs : list re) : re :=
  match rs with
  | [] => Rep true 0 (Some 0%nat) dot
  | [r] => r
  | r :: rs' => Seq r (seq rs')
  end.

End Regex.

(** ** Pattern strings

    The patterns are kept as the strings of the source and compiled by a
    reader of the syntax they use: literals, [\d], [\s], escaped
    punctuation, [.], classes [[...]] and [[^...]], the quantifiers [?],
    [*], [+], [*?] and [{m,n}] on a character or class, and groups. *)

Module Pattern.
Import PyStr Regex.

Definition cls : Type := ascii -> bool.

(** A literal character, under [re.IGNORECASE] when [icase]. *)
Definition lit (icase : bool) (c : ascii) : cls :=
  if icase then ci c else fun x => Ascii.eqb x c.

(** [\d], [\s], or an escaped literal *)
Definition escape (c : ascii) : cls :=
  if Ascii.eqb c "d" then is_digit
  else if Ascii.eqb c "s" then is_space
  else fun x => Ascii.eqb x c.

Definition union (p q : cls) : cls := fun x => p x || q x.

(** The members of a class, up to the closing bracket. *)
Fixpoint class_items (icase : bool) (acc : cls) (s : list ascii)
  : option (cls * list ascii) :=
  match s with
  | [] => None
  | "]"%char :: rest => Some (acc, rest)
  | "\"%char :: c :: rest => class_items icase (union acc (escape c)) rest
  | c :: rest => class_items icase (union acc (lit icase c)) rest
  end.

Definition class (icase : bool) (s : list ascii) : option (cls * list ascii) :=
  match s with
  | "^"%char :: rest =>
      match class_items icase (fun _ => false) rest with
      | Some (p, r) => Some ((fun x => negb (p x)) : cls, r)
      | None => None
      end
  | _ => class_items icase (fun _ => false) s
  end.

Definition number (s : list ascii) : option (nat * list ascii) :=
  match span is_digit s with
  | ([], _) => None
  | (ds, rest) => Some (Z.to_nat (PyFloat.digits_val 0 ds), rest)
  end.

(** The quantifier that follows a character or class, if any. *)
Definition quantified (p : cls) (s : list ascii) : option (re * list ascii) :=
  match s with
  | "*"%char :: "?"%char :: rest => Some (Rep false 0 None p, rest)
  | "*"%char :: rest => Some (Rep true 0 None p, rest)
  | "+"%char :: rest => Some (Rep true 1 None p, rest)
  | "?"%char :: rest => Some (Rep true 0 (Some 1%nat) p, rest)
  | "{"%char :: rest =>
      match number rest with
      | Some (lo, ","%char :: r1) =>
          match number r1 with
          | Some (hi, "}"%char :: r2) => Some (Rep true lo (Some hi) p, r2)
          | _ => None
          end
      | _ => None
      end
  | _ => Some (Chr p, s)
  end.

Definition meta (c : ascii) : bool := existsb (Ascii.eqb c) (chars "$^|?*+{}]").

(** The items of a sequence, up to the end or to a closing parenthesis. *)
Fixpoint items (fuel : nat) (icase : bool) (s : list ascii)
  : option (list re * list ascii) :=
  match fuel with
  | O => None
  | S fuel' =>
      let continue (x : option (re * list ascii)) :=
        match x with
        | Some (r, rest) =>
            match items fuel' icase rest with
            | Some (rs, rest') => Some (r :: rs, rest')
            | None => None
            end
        | None => None
        end in
      match s with
      | [] => Some ([], [])
      | ")"%char :: _ => Some ([], s)
      | "("%char :: rest =>
          match items fuel' icase rest with
          | Some (body, ")"%char :: rest') => continue (Some (Grp (seq body), rest'))
          | _ => None
          end
      | "["%char :: rest =>
          match class icase rest with
          | Some (p, rest') => continue (quantified p rest')
          | None => None
          end
      | "\"%char :: c :: rest => continue (quantified (escape c) rest)
      | "."%char :: rest => continue (quantified dot rest)
      | c :: rest =>
          if meta c then None else continue (quantified (lit icase c) rest)
      end
  end.

(** [re.compile(pat, re.IGNORECASE if icase else 0)] *)
Definition compile (icase : bool) (pat : string) : option re :=
  match items (S (String.length pat)) icase (chars pat) with
  | Some (rs, []) => Some (seq rs)
  | _ => None
  end.

(** [re.findall(pat, text, flags)].  A pattern outside the syntax read
    here has no model and is given no matches; every pattern of the source
    is inside it ([ExtractorFacts.source_patterns_compile] below). *)
Definition re_findall (icase : bool) (pat text : string) : list string :=
  match compile icase pat with
  | Some r => findall r text
  | None => []
  end.

End Pattern.

(** ** [pdf_financial_extractor.py] *)

Module Extractor.
Import PyStr PyFloat Pattern.

(** [ProductionPDFExtractor._initialize_patterns] *)
Definition financial_patterns : list (string * list string) :=
  [ ("revenue",
     [ "revenue.*?(\$?[\d,]+\.?\d*[KMB]?)";
       "sales.*?(\$?[\d,]+\.?\d*[KMB]?)";
       "income.*?(\$?[\d,]+\.?\d*[KMB]?)";
       "(\$?[\d,]+\.?\d*[KMB]?)\s*revenue";
       "annual\s+revenue.*?(\$?[\d,]+\.?\d*[KMB]?)" ]);
    ("funding",
     [ "raising.*?(\$?[\d,]+\.?\d*[KMB]?)";
       "funding.*?(\$?[\d,]+\.?\d*[KMB]?)";
       "investment.*?(\$?[\d,]+\.?\d*[KMB]?)";
       "(\$?[\d,]+\.?\d*[KMB]?)\s*raise";
       "seeking.*?(\$?[\d,]+\.?\d*[KMB]?)" ]);
    ("valuation",
     [ "valuation.*?(\$?[\d,]+\.?\d*[KMB]?)";
       "valued\s+at.*?(\$?[\d,]+\.?\d*[KMB]?)";
       "worth.*?(\$?[\d,]+\.?\d*[KMB]?)";
       "(\$?[\d,]+\.?\d*[KMB]?)\s*valuation" ]);
    ("market_size",
     [ "market\s+size.*?(\$?[\d,]+\.?\d*[KMB]?)";
       "TAM.*?(\$?[\d,]+\.?\d*[KMB]?)";
       "SAM.*?(\$?[\d,]+\.?\d*[KMB]?)";
       "SOM.*?(\$?[\d,]+\.?\d*[KMB]?)";
       "total\s+addressable\s+market.*?(\$?[\d,]+\.?\d*[KMB]?)" ]);
    ("customers",
     [ "(\d+[,\d]*)\s*customers";
       "(\d+[,\d]*)\s*users";
       "(\d+[,\d]*)\s*clients";
       "user\s+base.*?(\d+[,\d]*)" ]);
    ("team_size",
     [ "team.*?(\d+)\s*people";
       "(\d+)\s*employees";
       "(\d+)\s*team\s+members";
       "founded\s+by.*?(\d+)" ]);
    ("growth_rate",
     [ "(\d+\.?\d*)%\s*growth";
       "growing.*?(\d+\.?\d*)%";
       "(\d+\.?\d*)%\s*increase";
       "growth\s+rate.*?(\d+\.?\d*)%" ]) ].

(** The suffix table of [parse_financial_value], in the dict's order. *)
Definition multipliers : list (ascii * Q) :=
  [ ("K"%char, 1000%Q); ("M"%char, 1000000%Q); ("B"%char, 1000000000%Q) ].

(** The loop over [multipliers.items()]: the first suffix that ends the
    upper-cased string and whose prefix [float] accepts decides; a prefix
    that [float] refuses moves on to the next suffix. *)
Fixpoint try_suffixes (ms : list (ascii * Q)) (v : list ascii) : option pyfloat :=
  match ms with
  | [] => None
  | (suffix, multiplier) :: ms' =>
      if endswith suffix (upper v) then
        match py_float (drop_last v) with
        | Some number => Some (scale multiplier number)
        | None => try_suffixes ms' v
        end
      else try_suffixes ms' v
  end.

(** The cleaning step: [value_str.replace('$', '').replace(',', '').strip()] *)
Definition clean (value_str : string) : list ascii :=
  strip (remove_char "," (remove_char "$" (chars value_str))).

(** [parse_financial_value]; the result [None] is Python's [None]. *)
Definition parse_financial_value (value_str : string) : option pyfloat :=
  if String.eqb value_str "" then None
  else
    let v := clean value_str in
    match try_suffixes multipliers v with
    | Some x => Some x
    | None => py_float v
    end.

(** *** The median *)

Fixpoint insert_sorted (x : Q) (l : list Q) : list Q :=
  match l with
  | [] => [x]
  | h :: t => if Qle_bool x h then x :: l else h :: insert_sorted x t
  end.

Definition sort (l : list Q) : list Q := fold_right insert_sorted [] l.

(** [np.median] of a non-empty list: the middle element of the sorted
    values, or the mean of the two middle ones.  (On the empty list
    numpy answers nan; the extractor never asks.) *)
Definition np_median (l : list Q) : Q :=
  let s := sort l in
  let n := List.length s in
  if Nat.even n
  then ((nth (n / 2 - 1) s 0 + nth (n / 2) s 0) / 2)%Q
  else nth (n / 2) s 0%Q.

(** *** [extract_financial_metrics] *)

(** What one match adds to [values]: its parsed value when that is
    truthy.  The captures of the patterns hold only [$], digits, commas,
    points and K/M/B, so [float] never answers inf or nan on them (this
    is [ExtractorFacts.captured_values_are_finite] below). *)
Definition kept (m : string) : list Q :=
  match parse_financial_value m with
  | Some (Fin q) => if truthy (Fin q) then [q] else []
  | _ => []
  end.

(** The characters that the groups of the financial patterns, and the
    money pattern of [_parse_ai_financial_value], can match. *)
Definition value_chars : ascii -> bool := Regex.one_of "$,.0123456789KMBkmb".

(** The pattern compiles and reports only such characters. *)
Definition reports_value_chars (icase : bool) (pattern : string) : bool :=
  match compile icase pattern with
  | Some r => Regex.reports_within value_chars r
  | None => false
  end.

(** The inner loops: every pattern of a metric, every match of a pattern. *)
Definition values_of (patterns : list string) (text : string) : list Q :=
  flat_map (fun pattern => flat_map kept (re_findall true pattern text)) patterns.

(** The body of the outer loop, for any way [collect] of gathering the
    values of one metric type: the entry is written only when there are
    values. *)
Definition step (collect : list string -> list Q) (metrics : gmap string Q)
    (entry : string * list string) : gmap string Q :=
  let '(metric_type, patterns) := entry in
  match collect patterns with
  | [] => metrics
  | values => <[metric_type := np_median values]> metrics
  end.

Definition extract_financial_metrics (text : string) : gmap string Q :=
  fold_left (step (fun patterns => values_of patterns text)) financial_patterns ∅.

(** *** What the extractor reads from outside

    The PDF readers, the text-generation pipeline and the report
    analyzer are libraries; the extractor sees only what they answer. *)

Record pdf_file : Type := {
  (** the page texts [pdfplumber] delivered, joined as
      [extract_text_from_pdf] joins them; empty when it raised at once *)
  plumber_text : string;
  (** the same for the fallback reader [PyPDF2] *)
  pypdf_text : string;
  (** the list [analyze_financial_tables] stores under ['table_revenue'],
      empty when there is no such key *)
  table_revenue : list Q
}.

Record readers : Type := {
  (** the readable PDF files, by path; opening any other path raises *)
  files : gmap string pdf_file;
  (** [ai_financial_analysis(text)]: the kept answers by key, empty when
      the pipeline could not be initialised *)
  qa_answers : string -> gmap string string;
  (** [smart_analyzer_integration(pdf_path)], empty when the analyzer
      is not importable *)
  smart_answers : string -> gmap string string
}.

(** [extract_text_from_pdf]: both readers' failures are swallowed; the
    fallback runs only when the first reader produced no text. *)
Definition extract_text_from_pdf (R : readers) (pdf_path : string) : string :=
  match files R !! pdf_path with
  | None => ""
  | Some f => if String.eqb (plumber_text f) "" then pypdf_text f else plumber_text f
  end.

Definition tables_revenue (R : readers) (pdf_path : string) : list Q :=
  match files R !! pdf_path with
  | None => []
  | Some f => table_revenue f
  end.

(** *** [ExtractedFinancialData] *)

Record ExtractedFinancialData : Type := {
  current_revenue : option Q;
  projected_revenue_y1 : option Q;
  projected_revenue_y2 : option Q;
  projected_revenue_y3 : option Q;
  revenue_growth_rate : option Q;
  funding_requested : option Q;
  funding_to_date : option Q;
  valuation : option Q;
  use_of_funds : list string;
  gross_margin : option Q;
  burn_rate : option Q;
  runway_months : option Q;
  cac : option Q;
  ltv : option Q;
  market_size_tam : option Q;
  market_size_sam : option Q;
  market_size_som : option Q;
  market_growth_rate : option Q;
  team_size : option Z;
  customers : option Z;
  retention_rate : option Q;
  business_model : option string;
  competitive_advantages : list string;
  key_risks : list string;
  extraction_confidence : Q;
  completeness_score : Q
}.

(** [ExtractedFinancialData()]: the dataclass defaults *)
Definition empty_data : ExtractedFinancialData := {|
  current_revenue := None; projected_revenue_y1 := None;
  projected_revenue_y2 := None; projected_revenue_y3 := None;
  revenue_growth_rate := None; funding_requested := None;
  funding_to_date := None; valuation := None; use_of_funds := [];
  gross_margin := None; burn_rate := None; runway_months := None;
  cac := None; ltv := None; market_size_tam := None;
  market_size_sam := None; market_size_som := None;
  market_growth_rate := None; team_size := None; customers := None;
  retention_rate := None; business_model := None;
  competitive_advantages := []; key_risks := [];
  extraction_confidence := 0; completeness_score := 0
|}.

(** Truth values of optional numbers and strings *)
Definition truthy_q (x : option Q) : bool :=
  match x with
  | Some q => negb (Qeq_bool q 0)
  | None => false
  end.

Definition truthy_z (x : option Z) : bool :=
  match x with
  | Some z => negb (z =? 0)%Z
  | None => false
  end.

Definition truthy_s (x : option string) : bool :=
  match x with
  | Some s => negb (String.eqb s "")
  | None => false
  end.

(** [a or b] *)
Definition or_q (a b : option Q) : option Q := if truthy_q a then a else b.
Definition or_s (a b : option string) : option string := if truthy_s a then a else b.

(** [int(x)] of a float: truncation towards zero *)
Definition py_int (q : Q) : Z := (Qnum q ÷ Zpos (Qden q))%Z.

(** [_extract_from_table_data(table_metrics, 'revenue')] *)
Definition extract_from_table_data (values : list Q) : option Q :=
  match values with
  | [] => None
  | _ => Some (np_median values)
  end.

(** [_parse_ai_financial_value]: the first money-like match of the answer
    whose value is truthy.  The pattern is used without flags. *)
Definition parse_ai_financial_value (ai_response : option string) : option Q :=
  if truthy_s ai_response then
    match ai_response with
    | Some r => head (flat_map kept (re_findall false "\$?[\d,]+\.?\d*[KMB]?" r))
    | None => None
    end
  else None.

Definition business_model_patterns : list string :=
  [ "business\s+model[:\s]+([^.]{10,100})";
    "revenue\s+model[:\s]+([^.]{10,100})";
    "how\s+we\s+make\s+money[:\s]+([^.]{10,100})" ].

(** [_extract_business_model_from_text]: the first match of the first
    pattern that matches at all, stripped. *)
Fixpoint first_match (patterns : list string) (text : string) : option string :=
  match patterns with
  | [] => None
  | pattern :: rest =>
      match re_findall true pattern text with
      | m :: _ => Some (str (strip (chars m)))
      | [] => first_match rest text
      end
  end.

Definition extract_business_model_from_text (text : string) : option string :=
  first_match business_model_patterns text.

Definition is_some {A : Type} (x : option A) : bool :=
  match x with Some _ => true | None => false end.

Definition count_true (bs : list bool) : nat := List.length (List.filter id bs).

Definition q_sum (l : list Q) : Q := fold_right Qplus 0%Q l.

(** [np.mean] of a non-empty list *)
Definition np_mean (l : list Q) : Q := (q_sum l / inject_Z (Z.of_nat (List.length l)))%Q.

(** [calculate_confidence_scores]: (confidence, completeness) *)
Definition calculate_confidence_scores (d : ExtractedFinancialData) : Q * Q :=
  let key_fields :=
    [ is_some (current_revenue d); is_some (projected_revenue_y1 d);
      is_some (funding_requested d); is_some (market_size_tam d);
      is_some (team_size d); is_some (business_model d) ] in
  let completed_fields := count_true key_fields in
  let completeness_score :=
    (inject_Z (Z.of_nat completed_fields)
     / inject_Z (Z.of_nat (List.length key_fields)))%Q in
  let confidence_factors :=
    (if is_some (current_revenue d) then [0.9%Q] else [])
    ++ (if is_some (market_size_tam d) then [0.8%Q] else [])
    ++ (if is_some (funding_requested d) then [0.85%Q] else [])
    ++ (if truthy_s (business_model d) then [0.7%Q] else []) in
  let extraction_confidence :=
    match confidence_factors with
    | [] => 0.3%Q
    | _ => np_mean confidence_factors
    end in
  (extraction_confidence, completeness_score).

(** The two assignments that close [extract_financial_data] *)
Definition with_scores (d : ExtractedFinancialData) (confidence completeness : Q)
  : ExtractedFinancialData := {|
  current_revenue := current_revenue d;
  projected_revenue_y1 := projected_revenue_y1 d;
  projected_revenue_y2 := projected_revenue_y2 d;
  projected_revenue_y3 := projected_revenue_y3 d;
  revenue_growth_rate := revenue_growth_rate d;
  funding_requested := funding_requested d;
  funding_to_date := funding_to_date d;
  valuation := valuation d;
  use_of_funds := use_of_funds d;
  gross_margin := gross_margin d;
  burn_rate := burn_rate d;
  runway_months := runway_months d;
  cac := cac d;
  ltv := ltv d;
  market_size_tam := market_size_tam d;
  market_size_sam := market_size_sam d;
  market_size_som := market_size_som d;
  market_growth_rate := market_growth_rate d;
  team_size := team_size d;
  customers := customers d;
  retention_rate := retention_rate d;
  business_model := business_model d;
  competitive_advantages := competitive_advantages d;
  key_risks := key_risks d;
  extraction_confidence := confidence;
  completeness_score := completeness
|}.

(** [extract_financial_data] *)
Definition extract_financial_data (R : readers) (pdf_path : string)
  : ExtractedFinancialData :=
  let text := extract_text_from_pdf R pdf_path in
  if String.eqb text "" then empty_data
  else
    let regex_metrics := extract_financial_metrics text in
    let table_metrics := tables_revenue R pdf_path in
    let ai_metrics := qa_answers R text in
    let smart_metrics := smart_answers R pdf_path in
    let revenue :=
      or_q (regex_metrics !! "revenue")
        (or_q (extract_from_table_data table_metrics)
           (parse_ai_financial_value (ai_metrics !! "current_annual_revenue"))) in
    let funding :=
      or_q (regex_metrics !! "funding")
        (parse_ai_financial_value (ai_metrics !! "funding_is_the_company_seeking")) in
    let tam :=
      or_q (regex_metrics !! "market_size")
        (parse_ai_financial_value (ai_metrics !! "market_size")) in
    let team :=
      if truthy_q (regex_metrics !! "team_size")
      then option_map py_int (regex_metrics !! "team_size") else None in
    let custs :=
      if truthy_q (regex_metrics !! "customers")
      then option_map py_int (regex_metrics !! "customers") else None in
    let growth :=
      if truthy_q (regex_metrics !! "growth_rate")
      then option_map (fun g => (g / 100)%Q) (regex_metrics !! "growth_rate")
      else None in
    let model :=
      or_s (smart_metrics !! "business_model")
        (or_s (ai_metrics !! "business_model")
           (extract_business_model_from_text text)) in
    let derived :=
      match revenue, growth with
      | Some r, Some g =>
          if truthy_q revenue && truthy_q growth
          then Some ((r * (1 + g))%Q, (r * ((1 + g) * (1 + g) * (1 + g)))%Q)
          else None
      | _, _ => None
      end in
    let extracted_data := {|
      current_revenue := revenue;
      projected_revenue_y1 := option_map fst derived;
      projected_revenue_y2 := None;
      projected_revenue_y3 := option_map snd derived;
      revenue_growth_rate := growth;
      funding_requested := funding;
      funding_to_date := None;
      valuation := regex_metrics !! "valuation";
      use_of_funds := [];
      gross_margin := None; burn_rate := None; runway_months := None;
      cac := None; ltv := None;
      market_size_tam := tam;
      market_size_sam := None; market_size_som := None;
      market_growth_rate := None;
      team_size := team;
      customers := custs;
      retention_rate := None;
      business_model := model;
      competitive_advantages := []; key_risks := [];
      extraction_confidence := 0; completeness_score := 0
    |} in
    let '(confidence, completeness) := calculate_confidence_scores extracted_data in
    with_scores extracted_data confidence completeness.

End Extractor.

(** ** Feature dicts *)

Module PyDict.

(** The values the pipeline stores in a feature dict: numbers ([int] and
    [float] alike) and strings. *)
Inductive pyval : Type :=
| VNum (q : Q)
| VStr (s : string).

(** [d.get(key, default)] where the code goes on to compute with a
    number.  [manual_data] is a numeric map and the pipeline itself puts
    numbers under the keys read this way
    ([PipelineFacts.gathered_features_numeric] below), so the branch for a
    string is not taken on the dicts that [analyze_startup] predicts on. *)
Definition get_num (d : gmap string pyval) (key : string) (default : Q) : Q :=
  match d !! key with
  | Some (VNum q) => q
  | _ => default
  end.

(** [d.get(key, default)] for a field that is only carried along. *)
Definition get_val (d : gmap string pyval) (key : string) (default : pyval) : pyval :=
  match d !! key with
  | Some v => v
  | None => default
  end.

(** [d.update(other)]: the entries of [other] replace those of [d]. *)
Definition update (d other : gmap string pyval) : gmap string pyval := other ∪ d.

(** The keys under which the pipeline stores text. *)
Definition text_keys : list string :=
  [ "company_name"; "industry"; "description"; "business_model" ].

(** [d] holds numbers under every key that is not one of [text_keys]. *)
Definition numeric_outside_text_keys (d : gmap string pyval) : Prop :=
  forall k s, d !! k = Some (VStr s) -> In k text_keys.

End PyDict.

(** ** [production_ensemble_predictor.py] *)

Module Predictor.
Import PyDict.
Local Open Scope Q_scope.

Record ProductionStartupFeatures : Type := {
  company_name : pyval;
  industry : pyval;
  founded_year : Q;
  team_size : Q;
  location : pyval;
  business_stage : pyval;
  funding_total_usd : Q;
  funding_rounds : Q;
  current_revenue_usd : Q;
  projected_revenue_y1 : Q;
  projected_revenue_y3 : Q;
  burn_rate_monthly : Q;
  runway_months : Q;
  gross_margin_percent : Q;
  market_size_billions : Q;
  addressable_market_billions : Q;
  market_growth_rate : Q;
  competition_level : Q;
  competitive_advantage_score : Q;
  founder_experience_years : Q;
  team_technical_score : Q;
  team_business_score : Q;
  advisor_quality_score : Q;
  product_readiness_score : Q;
  tech_differentiation_score : Q;
  user_traction_score : Q;
  product_market_fit_score : Q;
  business_model_clarity : Q;
  revenue_model_strength : Q;
  scalability_score : Q;
  go_to_market_score : Q;
  market_risk_score : Q;
  technical_risk_score : Q;
  team_risk_score : Q;
  financial_risk_score : Q;
  regulatory_risk_score : Q;
  industry_trend_score : Q;
  economic_environment_score : Q;
  vc_funding_climate_score : Q;
  pitch_clarity_score : Q;
  financial_projections_realism : Q;
  presentation_quality_score : Q
}.

(** [extract_features_from_data] *)
Definition extract_features_from_data (startup_data : gmap string pyval)
  : ProductionStartupFeatures :=
  let revenue := get_num startup_data "revenue" 0.0 in
  let market_size := get_num startup_data "market_size" 1.0 in
  {| company_name := get_val startup_data "company_name" (VStr "");
     industry := get_val startup_data "industry" (VStr "Technology");
     founded_year := get_num startup_data "founded_year" 2020;
     team_size := get_num startup_data "team_size" 5;
     location := get_val startup_data "location" (VStr "Unknown");
     business_stage := get_val startup_data "business_stage" (VStr "Seed");
     funding_total_usd := get_num startup_data "funding_total" 0.0;
     funding_rounds := get_num startup_data "funding_rounds" 0;
     current_revenue_usd := revenue;
     projected_revenue_y1 := get_num startup_data "projected_revenue_y1" (revenue * 2);
     projected_revenue_y3 := get_num startup_data "projected_revenue_y3" (revenue * 5);
     burn_rate_monthly := get_num startup_data "burn_rate" 50000.0;
     runway_months := get_num startup_data "runway_months" 12.0;
     gross_margin_percent := get_num startup_data "gross_margin" 70.0;
     market_size_billions := market_size;
     addressable_market_billions := get_num startup_data "sam" (market_size * 0.1);
     market_growth_rate := get_num startup_data "market_growth_rate" 10.0;
     competition_level := get_num startup_data "competition_level" 3;
     competitive_advantage_score := get_num startup_data "competitive_advantage" 0.5;
     founder_experience_years := get_num startup_data "founder_experience" 5.0;
     team_technical_score := get_num startup_data "team_technical_score" 0.6;
     team_business_score := get_num startup_data "team_business_score" 0.6;
     advisor_quality_score := get_num startup_data "advisor_quality" 0.5;
     product_readiness_score := get_num startup_data "product_readiness" 0.6;
     tech_differentiation_score := get_num startup_data "tech_differentiation" 0.5;
     user_traction_score := get_num startup_data "user_traction" 0.3;
     product_market_fit_score := get_num startup_data "pmf_score" 0.4;
     business_model_clarity := get_num startup_data "business_model_clarity" 0.6;
     revenue_model_strength := get_num startup_data "revenue_model_strength" 0.6;
     scalability_score := get_num startup_data "scalability" 0.6;
     go_to_market_score := get_num startup_data "gtm_score" 0.5;
     market_risk_score := get_num startup_data "market_risk" 0.4;
     technical_risk_score := get_num startup_data "tech_risk" 0.4;
     team_risk_score := get_num startup_data "team_risk" 0.3;
     financial_risk_score := get_num startup_data "financial_risk" 0.5;
     regulatory_risk_score := get_num startup_data "regulatory_risk" 0.3;
     industry_trend_score := get_num startup_data "industry_trend" 0.6;
     economic_environment_score := get_num startup_data "economic_environment" 0.5;
     vc_funding_climate_score := get_num startup_data "vc_climate" 0.6;
     pitch_clarity_score := get_num startup_data "pitch_clarity" 0.6;
     financial_projections_realism := get_num startup_data "projections_realism" 0.6;
     presentation_quality_score := get_num startup_data "presentation_quality" 0.6 |}.

(** *** The six sub-scores *)

(** [_calculate_market_score] *)
Definition calculate_market_score (f : ProductionStartupFeatures) : Q :=
  let market_size_score := Qmin (market_size_billions f / 10) 1 * 30 in
  let growth_score := Qmin (market_growth_rate f / 20) 1 * 25 in
  let competition_score := (5 - competition_level f) / 4 * 20 in
  let advantage_score := competitive_advantage_score f * 25 in
  market_size_score + growth_score + competition_score + advantage_score.

(** [_calculate_team_score] *)
Definition calculate_team_score (f : ProductionStartupFeatures) : Q :=
  let experience_score := Qmin (founder_experience_years f / 10) 1 * 30 in
  let technical_score := team_technical_score f * 25 in
  let business_score := team_business_score f * 25 in
  let advisor_score := advisor_quality_score f * 20 in
  experience_score + technical_score + business_score + advisor_score.

(** [_calculate_product_score] *)
Definition calculate_product_score (f : ProductionStartupFeatures) : Q :=
  let readiness_score := product_readiness_score f * 30 in
  let differentiation_score := tech_differentiation_score f * 25 in
  let traction_score := user_traction_score f * 25 in
  let pmf_score := product_market_fit_score f * 20 in
  readiness_score + differentiation_score + traction_score + pmf_score.

(** [_calculate_business_model_score] *)
Definition calculate_business_model_score (f : ProductionStartupFeatures) : Q :=
  let clarity_score := business_model_clarity f * 25 in
  let revenue_score := revenue_model_strength f * 25 in
  let scalability := scalability_score f * 25 in
  let gtm_score := go_to_market_score f * 25 in
  clarity_score + revenue_score + scalability + gtm_score.

(** [_calculate_financial_score] *)
Definition calculate_financial_score (f : ProductionStartupFeatures) : Q :=
  let revenue_score := Qmin (current_revenue_usd f / 1000000) 1 * 25 in
  let growth_score :=
    Qmin ((projected_revenue_y1 f / Qmax (current_revenue_usd f) 1) / 3) 1 * 25 in
  let runway_score := Qmin (runway_months f / 24) 1 * 25 in
  let margin_score := gross_margin_percent f / 100 * 25 in
  revenue_score + growth_score + runway_score + margin_score.

(** [_calculate_risk_score] *)
Definition calculate_risk_score (f : ProductionStartupFeatures) : Q :=
  let market_risk := market_risk_score f * 20 in
  let tech_risk := technical_risk_score f * 20 in
  let team_risk := team_risk_score f * 20 in
  let financial_risk := financial_risk_score f * 20 in
  let regulatory_risk := regulatory_risk_score f * 20 in
  (market_risk + tech_risk + team_risk + financial_risk + regulatory_risk) * 100.

(** *** The factor lists *)

Definition when {A : Type} (b : bool) (x : A) : list A := if b then [x] else [].

(** [a > b] and [a >= b] on floats *)
Definition gtb (a b : Q) : bool := negb (Qle_bool a b).
Definition geb (a b : Q) : bool := Qle_bool b a.
Definition ltb (a b : Q) : bool := negb (Qle_bool b a).

(** [_get_key_strengths] *)
Definition get_key_strengths (f : ProductionStartupFeatures) : list (string * Q) :=
  firstn 3
    (when (gtb (market_size_billions f) 5)
       ("Large market opportunity"%string, market_size_billions f)
     ++ when (gtb (team_technical_score f) 0.7)
          ("Strong technical team"%string, team_technical_score f)
     ++ when (gtb (competitive_advantage_score f) 0.7)
          ("Clear competitive advantage"%string, competitive_advantage_score f)
     ++ when (gtb (user_traction_score f) 0.6)
          ("Strong user traction"%string, user_traction_score f)).

(** [_get_key_risks] *)
Definition get_key_risks (f : ProductionStartupFeatures) : list (string * Q) :=
  firstn 3
    (when (gtb (market_risk_score f) 0.6)
       ("High market risk"%string, market_risk_score f)
     ++ when (ltb (runway_months f) 6) ("Short runway"%string, runway_months f)
     ++ when (geb (competition_level f) 4)
          ("High competition"%string, competition_level f)
     ++ when (gtb (team_risk_score f) 0.6)
          ("Team execution risk"%string, team_risk_score f)).

(** [_get_improvement_areas] *)
Definition get_improvement_areas (f : ProductionStartupFeatures) : list string :=
  firstn 3
    (when (ltb (user_traction_score f) 0.4) "Increase user traction and engagement"%string
     ++ when (ltb (go_to_market_score f) 0.5) "Strengthen go-to-market strategy"%string
     ++ when (ltb (runway_months f) 12) "Extend financial runway"%string
     ++ when (ltb (team_business_score f) 0.6)
          "Strengthen business expertise on team"%string).

(** *** The prediction *)

Record ProductionPredictionResult : Type := {
  success_probability : Q;
  success_category : string;
  confidence_interval : Q * Q;
  investment_recommendation : string;
  market_score : Q;
  team_score : Q;
  product_score : Q;
  business_model_score : Q;
  financial_score : Q;
  risk_score : Q;
  key_strengths : list (string * Q);
  key_risks : list (string * Q);
  improvement_areas : list string;
  model_confidence : Q;
  prediction_timestamp : string;
  result_model_version : string;
  feature_count : nat
}.

(** A fitted classifier, seen through [predict_proba(X)[0, 1]] on one
    row; a fitted scaler, seen through [transform] on one row. *)
Definition classifier : Type := list Q -> Q.
Definition scaler : Type := list Q -> list Q.

(** [ProductionEnsemblePredictor]: the attributes that training, saving,
    loading and predicting touch.  [None] is an object not yet fitted. *)
Record predictor : Type := {
  model_version : string;
  models : list (string * classifier);
  ensemble_model : option classifier;
  feature_scaler : option scaler;
  feature_importance : list (string * Q);
  is_trained : bool;
  feature_columns : list string;
  model_performance : list (string * list (string * Q))
}.

(** [ProductionEnsemblePredictor()] *)
Definition new_predictor : predictor := {|
  model_version := "2.0.0";
  models := [];
  ensemble_model := None;
  feature_scaler := None;
  feature_importance := [];
  is_trained := false;
  feature_columns := [];
  model_performance := []
|}.

(** What scikit-learn and numpy contribute: the objects that fitting on
    the generated data set yields, the square root behind [np.std], and
    the clock. *)
Record library : Type := {
  fit_scaler : scaler;
  fit_random_forest : classifier;
  fit_gradient_boosting : classifier;
  fit_ada_boost : classifier;
  fit_voting : classifier;
  fit_importances : list Q;
  fit_scores : list (string * list (string * Q));
  np_sqrt : Q -> Q;
  now : string
}.

(** The columns of the generated data set, in the order of the sample
    dict of [create_enhanced_training_data], without the label. *)
Definition training_columns : list string :=
  [ "funding_total_usd"; "funding_rounds"; "team_size"; "founded_year";
    "current_revenue_usd"; "projected_revenue_y1"; "projected_revenue_y3";
    "burn_rate_monthly"; "runway_months"; "gross_margin_percent";
    "market_size_billions"; "addressable_market_billions";
    "market_growth_rate"; "competition_level"; "competitive_advantage_score";
    "founder_experience_years"; "team_technical_score"; "team_business_score";
    "advisor_quality_score";
    "product_readiness_score"; "tech_differentiation_score";
    "user_traction_score"; "product_market_fit_score";
    "business_model_clarity"; "revenue_model_strength"; "scalability_score";
    "go_to_market_score";
    "market_risk_score"; "technical_risk_score"; "team_risk_score";
    "financial_risk_score"; "regulatory_risk_score";
    "industry_trend_score"; "economic_environment_score";
    "vc_funding_climate_score";
    "pitch_clarity_score"; "financial_projections_realism";
    "presentation_quality_score" ]%string.

(** [train_ensemble_model]: the state it leaves behind. *)
Definition train_ensemble_model (L : library) (self : predictor) : predictor := {|
  model_version := model_version self;
  models :=
    [ ("random_forest"%string, fit_random_forest L);
      ("gradient_boosting"%string, fit_gradient_boosting L);
      ("ada_boost"%string, fit_ada_boost L) ];
  ensemble_model := Some (fit_voting L);
  feature_scaler := Some (fit_scaler L);
  feature_importance := combine training_columns (fit_importances L);
  is_trained := true;
  feature_columns := training_columns;
  model_performance := fit_scores L
|}.

(** [asdict(features)] *)
Definition asdict (f : ProductionStartupFeatures) : list (string * pyval) :=
  [ ("company_name", company_name f); ("industry", industry f);
    ("founded_year", VNum (founded_year f)); ("team_size", VNum (team_size f));
    ("location", location f); ("business_stage", business_stage f);
    ("funding_total_usd", VNum (funding_total_usd f));
    ("funding_rounds", VNum (funding_rounds f));
    ("current_revenue_usd", VNum (current_revenue_usd f));
    ("projected_revenue_y1", VNum (projected_revenue_y1 f));
    ("projected_revenue_y3", VNum (projected_revenue_y3 f));
    ("burn_rate_monthly", VNum (burn_rate_monthly f));
    ("runway_months", VNum (runway_months f));
    ("gross_margin_percent", VNum (gross_margin_percent f));
    ("market_size_billions", VNum (market_size_billions f));
    ("addressable_market_billions", VNum (addressable_market_billions f));
    ("market_growth_rate", VNum (market_growth_rate f));
    ("competition_level", VNum (competition_level f));
    ("competitive_advantage_score", VNum (competitive_advantage_score f));
    ("founder_experience_years", VNum (founder_experience_years f));
    ("team_technical_score", VNum (team_technical_score f));
    ("team_business_score", VNum (team_business_score f));
    ("advisor_quality_score", VNum (advisor_quality_score f));
    ("product_readiness_score", VNum (product_readiness_score f));
    ("tech_differentiation_score", VNum (tech_differentiation_score f));
    ("user_traction_score", VNum (user_traction_score f));
    ("product_market_fit_score", VNum (product_market_fit_score f));
    ("business_model_clarity", VNum (business_model_clarity f));
    ("revenue_model_strength", VNum (revenue_model_strength f));
    ("scalability_score", VNum (scalability_score f));
    ("go_to_market_score", VNum (go_to_market_score f));
    ("market_risk_score", VNum (market_risk_score f));
    ("technical_risk_score", VNum (technical_risk_score f));
    ("team_risk_score", VNum (team_risk_score f));
    ("financial_risk_score", VNum (financial_risk_score f));
    ("regulatory_risk_score", VNum (regulatory_risk_score f));
    ("industry_trend_score", VNum (industry_trend_score f));
    ("economic_environment_score", VNum (economic_environment_score f));
    ("vc_funding_climate_score", VNum (vc_funding_climate_score f));
    ("pitch_clarity_score", VNum (pitch_clarity_score f));
    ("financial_projections_realism", VNum (financial_projections_realism f));
    ("presentation_quality_score", VNum (presentation_quality_score f)) ]%string.

Definition mem (x : string) (l : list string) : bool := existsb (String.eqb x) l.

(** The dict comprehension of [predict_startup_success]: the numeric
    fields whose names are feature columns. *)
Definition numeric_features (columns : list string) (f : ProductionStartupFeatures)
  : gmap string Q :=
  list_to_map
    (flat_map
       (fun '(k, v) =>
          match v with
          | VNum q => if mem k columns then [(k, q)] else []
          | VStr _ => []
          end)
       (asdict f)).

(** The one-row frame, columns missing from it filled with [0.0], in the
    order of the feature columns. *)
Definition feature_row (columns : list string) (f : ProductionStartupFeatures) : list Q :=
  map (fun col => default 0.0 (numeric_features columns f !! col)) columns.

Definition q_sum (l : list Q) : Q := fold_right Qplus 0 l.

Definition q_len (l : list Q) : Q := inject_Z (Z.of_nat (List.length l)).

Definition variance (l : list Q) : Q :=
  let m := q_sum l / q_len l in
  q_sum (map (fun x => (x - m) * (x - m)) l) / q_len l.

(** [np.std]: the root of the mean squared deviation from the mean. *)
Definition np_std (L : library) (l : list Q) : Q := np_sqrt L (variance l).

(** The threshold policy *)
Definition categorise (success_probability : Q) : string * string :=
  if geb success_probability 0.7 then ("High Potential", "INVEST")%string
  else if geb success_probability 0.4 then ("Medium Potential", "WATCH")%string
  else ("Low Potential", "PASS")%string.

(** [predict_startup_success]: the predictor afterwards (training
    happens on first use) and the result; [None] when an attribute that
    is not fitted is used, which raises in Python. *)
Definition predict_startup_success (L : library) (self : predictor)
    (startup_data : gmap string pyval)
  : predictor * option ProductionPredictionResult :=
  let self := if is_trained self then self else train_ensemble_model L self in
  let features := extract_features_from_data startup_data in
  let X := feature_row (feature_columns self) features in
  match feature_scaler self, ensemble_model self with
  | Some transform, Some ensemble =>
      let X_scaled := transform X in
      let probability := ensemble X_scaled in
      let individual_predictions := map (fun '(_, model) => model X_scaled) (models self) in
      let pred_std := np_std L individual_predictions in
      let confidence_lower := Qmax 0 (probability - 1.96 * pred_std) in
      let confidence_upper := Qmin 1 (probability + 1.96 * pred_std) in
      let '(category, recommendation) := categorise probability in
      (self,
       Some {| success_probability := probability;
               success_category := category;
               confidence_interval := (confidence_lower, confidence_upper);
               investment_recommendation := recommendation;
               market_score := calculate_market_score features;
               team_score := calculate_team_score features;
               product_score := calculate_product_score features;
               business_model_score := calculate_business_model_score features;
               financial_score := calculate_financial_score features;
               risk_score := calculate_risk_score features;
               key_strengths := get_key_strengths features;
               key_risks := get_key_risks features;
               improvement_areas := get_improvement_areas features;
               model_confidence := 1 - pred_std;
               prediction_timestamp := now L;
               result_model_version := model_version self;
               feature_count := List.length (feature_columns self) |})
  | _, _ => (self, None)
  end.

(** *** Conditions on predictors and features *)

(** A classifier answers with a probability. *)
Definition probabilities (c : classifier) : Prop := forall row, 0 <= c row <= 1.

(** A predictor that claims to be trained has a fitted scaler and a
    fitted ensemble.  Training and loading what was saved after training
    both establish this. *)
Definition fitted (self : predictor) : Prop :=
  is_trained self = true ->
  exists transform ensemble,
    feature_scaler self = Some transform
    /\ ensemble_model self = Some ensemble
    /\ probabilities ensemble.

(** The ranges the feature record documents for the fields that enter
    the scores: scores between 0 and 1, the competition level between 1
    and 5, amounts and durations not negative, the gross margin a
    percentage. *)
Definition unit (x : Q) : Prop := 0 <= x <= 1.

Record in_range (f : ProductionStartupFeatures) : Prop := {
  range_market_size : 0 <= market_size_billions f;
  range_growth : 0 <= market_growth_rate f;
  range_competition : 1 <= competition_level f <= 5;
  range_advantage : unit (competitive_advantage_score f);
  range_experience : 0 <= founder_experience_years f;
  range_technical : unit (team_technical_score f);
  range_business : unit (team_business_score f);
  range_advisor : unit (advisor_quality_score f);
  range_readiness : unit (product_readiness_score f);
  range_differentiation : unit (tech_differentiation_score f);
  range_traction : unit (user_traction_score f);
  range_fit : unit (product_market_fit_score f);
  range_clarity : unit (business_model_clarity f);
  range_revenue_model : unit (revenue_model_strength f);
  range_scalability : unit (scalability_score f);
  range_gtm : unit (go_to_market_score f);
  range_revenue : 0 <= current_revenue_usd f;
  range_projection : 0 <= projected_revenue_y1 f;
  range_runway : 0 <= runway_months f;
  range_margin : 0 <= gross_margin_percent f <= 100;
  range_market_risk : unit (market_risk_score f);
  range_technical_risk : unit (technical_risk_score f);
  range_team_risk : unit (team_risk_score f);
  range_financial_risk : unit (financial_risk_score f);
  range_regulatory_risk : unit (regulatory_risk_score f)
}.

(** *** Saving and loading *)

(** The dict that [save_model] hands to [joblib.dump] *)
Record model_data : Type := {
  saved_ensemble_model : option classifier;
  saved_individual_models : list (string * classifier);
  saved_feature_scaler : option scaler;
  saved_feature_columns : list string;
  saved_feature_importance : list (string * Q);
  saved_model_performance : list (string * list (string * Q));
  saved_model_version : string
}.

(** [save_model]: the files afterwards; [None] is the [ValueError] of an
    untrained predictor.  [joblib] is taken to store the dict as it is. *)
Definition save_model (self : predictor) (filepath : string)
    (disk : gmap string model_data) : option (gmap string model_data) :=
  if is_trained self then
    Some (<[filepath := {|
      saved_ensemble_model := ensemble_model self;
      saved_individual_models := models self;
      saved_feature_scaler := feature_scaler self;
      saved_feature_columns := feature_columns self;
      saved_feature_importance := feature_importance self;
      saved_model_performance := model_performance self;
      saved_model_version := model_version self |}]> disk)
  else None.

(** [load_model]; [None] when [joblib.load] finds no file. *)
Definition load_model (self : predictor) (filepath : string)
    (disk : gmap string model_data) : option predictor :=
  match disk !! filepath with
  | None => None
  | Some d =>
      Some {| model_version := saved_model_version d;
              models := saved_individual_models d;
              ensemble_model := saved_ensemble_model d;
              feature_scaler := saved_feature_scaler d;
              feature_importance := saved_feature_importance d;
              is_trained := true;
              feature_columns := saved_feature_columns d;
              model_performance := saved_model_performance d |}
  end.

End Predictor.

(** ** [production_pipeline.py] *)

Module Pipeline.
Import PyDict.
Local Open Scope Q_scope.

Abbreviation ExtractedFinancialData := Extractor.ExtractedFinancialData.
Abbreviation ProductionPredictionResult := Predictor.ProductionPredictionResult.

(** Dict objects live in a store and are passed by reference, as in
    Python: [manual_data] of the input is a reference the caller keeps. *)
Abbreviation ref := nat.
Abbreviation store := (gmap nat (gmap string pyval)).

Definition deref (h : store) (r : ref) : gmap string pyval := default ∅ (h !! r).

(** A new empty dict: [{}] *)
Definition new_dict (h : store) : ref * store :=
  let r := fresh (dom h) in (r, <[r := ∅]> h).

(** [d.update(other)] on the object behind [r] *)
Definition update_at (h : store) (r : ref) (other : gmap string pyval) : store :=
  <[r := update (deref h r) other]> h.

(** [bool(d)] for a dict *)
Definition truthy_dict (d : gmap string pyval) : bool := negb (size d =? 0)%nat.

Record ProductionAnalysisInput : Type := {
  company_name : string;
  industry : option string;
  description : option string;
  pdf_path : option string;
  audio_path : option string;
  video_path : option string;
  manual_data : option ref;
  use_pdf_extraction : bool;
  use_ai_agents : bool;
  use_ml_prediction : bool;
  analysis_id : option string;
  timestamp : option string
}.

Record ProductionAnalysisResult : Type := {
  result_analysis_id : string;
  result_company_name : string;
  result_timestamp : string;
  ml_prediction : ProductionPredictionResult;
  pdf_data : option ExtractedFinancialData;
  agent_analysis : option (gmap string pyval);
  processing_time_seconds : Q;
  pipeline_version : string;
  components_used : list string;
  overall_confidence : Q;
  data_completeness : Q
}.

(** What the pipeline meets outside itself. *)
Record world : Type := {
  readers : Extractor.readers;
  library : Predictor.library;
  (** [AGENTS_AVAILABLE]: the import of the agent package succeeded *)
  agents_available : bool;
  (** the orchestrator's [analyze_startup] on name, industry and
      description, [None] when it raises; the outer [None] is an
      orchestrator that could not be built *)
  agent_orchestrator : option (string -> string -> string -> option string);
  (** [f"analysis_{int(time.time())}"], [datetime.now().isoformat()] and
      the seconds between two readings of the clock *)
  clock_id : string;
  clock_now : string;
  elapsed : Q
}.

(** [ProductionMLPipeline] *)
Record pipeline : Type := {
  version : string;
  ml_predictor : Predictor.predictor;
  analysis_count : nat;
  total_processing_time : Q
}.

Definition new_pipeline : pipeline := {|
  version := "2.0.0";
  ml_predictor := Predictor.new_predictor;
  analysis_count := 0;
  total_processing_time := 0
|}.

(** [s or default] for an optional string *)
Definition or_default (s : option string) (default : string) : string :=
  match s with
  | Some x => if String.eqb x "" then default else x
  | None => default
  end.

Definition set (key : string) (v : pyval) (d : gmap string pyval)
  : gmap string pyval := <[key := v]> d.

(** [if x: ...] on an optional number *)
Definition if_q (x : option Q) (f : Q -> gmap string pyval -> gmap string pyval)
    (d : gmap string pyval) : gmap string pyval :=
  match x with
  | Some q => if Extractor.truthy_q x then f q d else d
  | None => d
  end.

Definition if_z (x : option Z) (f : Z -> gmap string pyval -> gmap string pyval)
    (d : gmap string pyval) : gmap string pyval :=
  match x with
  | Some z => if Extractor.truthy_z x then f z d else d
  | None => d
  end.

Definition q_of_nat (n : nat) : Q := inject_Z (Z.of_nat n).

(** The [if]/[elif]/[else] that estimates product readiness *)
Definition readiness (d : ExtractedFinancialData) : Q :=
  let has_revenue :=
    match Extractor.current_revenue d with
    | Some r => Extractor.truthy_q (Some r) && Predictor.gtb r 0
    | None => false
    end in
  let has_customers :=
    match Extractor.customers d with
    | Some c => Extractor.truthy_z (Some c) && (0 <? c)%Z
    | None => false
    end in
  if has_revenue then 0.8 else if has_customers then 0.6 else 0.4.

(** [_convert_pdf_to_ml_features]: the assignments in source order. *)
Definition convert_pdf_to_ml_features (d : ExtractedFinancialData)
  : gmap string pyval :=
  let features : gmap string pyval := ∅ in
  let features :=
    if_q (Extractor.current_revenue d)
      (fun r f => set "current_revenue_usd" (VNum r) (set "revenue" (VNum r) f))
      features in
  let features :=
    if_q (Extractor.projected_revenue_y1 d)
      (fun y f => set "projected_revenue_y1" (VNum y) f) features in
  let features :=
    if_q (Extractor.projected_revenue_y3 d)
      (fun y f => set "projected_revenue_y3" (VNum y) f) features in
  let features :=
    if_q (Extractor.current_revenue d)
      (fun r f =>
         if_q (Extractor.projected_revenue_y1 d)
           (fun y f =>
              let growth_rate := y / r - 1 in
              set "revenue_growth_rate" (VNum growth_rate)
                (set "growth_rate" (VNum growth_rate) f)) f)
      features in
  let features :=
    if_q (Extractor.funding_requested d)
      (fun x f => set "funding_total_usd" (VNum x) (set "funding_total" (VNum x) f))
      features in
  let features :=
    if_q (Extractor.funding_to_date d)
      (fun _ f => set "funding_rounds" (VNum 1) f) features in
  let features :=
    if_q (Extractor.market_size_tam d)
      (fun x f =>
         set "market_size_billions" (VNum (x / 1000000000))
           (set "market_size" (VNum (x / 1000000000)) f))
      features in
  let features :=
    if_q (Extractor.market_size_sam d)
      (fun x f => set "addressable_market_billions" (VNum (x / 1000000000)) f)
      features in
  let features :=
    if_z (Extractor.team_size d)
      (fun n f => set "team_size" (VNum (inject_Z n)) f) features in
  let features :=
    if_z (Extractor.customers d)
      (fun n f =>
         set "user_traction_score" (VNum (Qmin (inject_Z n / 10000) 1.0))
           (set "customers" (VNum (inject_Z n)) f))
      features in
  let features :=
    if_q (Extractor.gross_margin d)
      (fun x f => set "gross_margin_percent" (VNum x) f) features in
  let features :=
    if_q (Extractor.burn_rate d)
      (fun x f => set "burn_rate_monthly" (VNum x) f) features in
  let features :=
    if_q (Extractor.runway_months d)
      (fun x f => set "runway_months" (VNum x) f) features in
  let features :=
    match Extractor.business_model d with
    | Some m =>
        if Extractor.truthy_s (Some m) then
          set "business_model_clarity"
            (VNum (Qmin (q_of_nat (String.length m) / 100) 1.0))
            (set "business_model" (VStr m) features)
        else features
    | None => features
    end in
  let features := set "product_readiness_score" (VNum (readiness d)) features in
  let features :=
    set "extraction_confidence" (VNum (Extractor.extraction_confidence d)) features in
  set "data_completeness" (VNum (Extractor.completeness_score d)) features.

(** [extract_features_from_pdf].  The extractor swallows the failures of
    its readers, so the call returns; the handler that would answer
    [(ExtractedFinancialData(), {})] has nothing to catch here. *)
Definition extract_features_from_pdf (W : world) (pdf_path : string)
  : ExtractedFinancialData * gmap string pyval :=
  let pdf_data := Extractor.extract_financial_data (readers W) pdf_path in
  (pdf_data, convert_pdf_to_ml_features pdf_data).

(** [run_agent_analysis] *)
Definition run_agent_analysis (W : world) (name industry description : string)
  : option (gmap string pyval) :=
  match agent_orchestrator W with
  | None => None
  | Some analyze =>
      match analyze name industry description with
      | Some agent_results =>
          Some (set "processing_time" (VNum (elapsed W))
                  (set "agent_results" (VStr agent_results) ∅))
      | None => None
      end
  end.

(** The result that [run_ml_prediction] substitutes when predicting raises *)
Definition failed_prediction (W : world) : ProductionPredictionResult := {|
  Predictor.success_probability := 0.5;
  Predictor.success_category := "Unknown";
  Predictor.confidence_interval := (0.3, 0.7);
  Predictor.investment_recommendation := "WATCH";
  Predictor.market_score := 50.0;
  Predictor.team_score := 50.0;
  Predictor.product_score := 50.0;
  Predictor.business_model_score := 50.0;
  Predictor.financial_score := 50.0;
  Predictor.risk_score := 50.0;
  Predictor.key_strengths := [];
  Predictor.key_risks := [];
  Predictor.improvement_areas := ["Unable to complete analysis"%string];
  Predictor.model_confidence := 0.3;
  Predictor.prediction_timestamp := clock_now W;
  Predictor.result_model_version := "error";
  Predictor.feature_count := 0
|}.

(** The result that [analyze_startup] builds when prediction is off *)
Definition skipped_prediction (P : pipeline) (stamp : string) (n : nat)
  : ProductionPredictionResult := {|
  Predictor.success_probability := 0.5;
  Predictor.success_category := "Analysis Skipped";
  Predictor.confidence_interval := (0.4, 0.6);
  Predictor.investment_recommendation := "WATCH";
  Predictor.market_score := 50.0;
  Predictor.team_score := 50.0;
  Predictor.product_score := 50.0;
  Predictor.business_model_score := 50.0;
  Predictor.financial_score := 50.0;
  Predictor.risk_score := 50.0;
  Predictor.key_strengths := [];
  Predictor.key_risks := [];
  Predictor.improvement_areas := [];
  Predictor.model_confidence := 0.5;
  Predictor.prediction_timestamp := stamp;
  Predictor.result_model_version := version P;
  Predictor.feature_count := n
|}.

(** [run_ml_prediction] *)
Definition run_ml_prediction (W : world) (P : pipeline) (features : gmap string pyval)
  : pipeline * ProductionPredictionResult :=
  let '(predictor, outcome) :=
    Predictor.predict_startup_success (library W) (ml_predictor P) features in
  let P' := {| version := version P; ml_predictor := predictor;
               analysis_count := analysis_count P;
               total_processing_time := total_processing_time P |} in
  match outcome with
  | Some prediction => (P', prediction)
  | None => (P', failed_prediction W)
  end.

(** [combine_analysis_results]: (overall confidence, data completeness).
    An [ExtractedFinancialData] object is truthy whatever it holds. *)
Definition combine_analysis_results (ml : ProductionPredictionResult)
    (pdf : option ExtractedFinancialData) (agent : option (gmap string pyval))
  : Q * Q :=
  let confidence_scores := [Predictor.model_confidence ml] in
  let completeness_scores : list Q := [] in
  let '(confidence_scores, completeness_scores) :=
    match pdf with
    | Some d =>
        (confidence_scores ++ [Extractor.extraction_confidence d],
         completeness_scores ++ [Extractor.completeness_score d])
    | None => (confidence_scores, completeness_scores)
    end in
  let confidence_scores :=
    match agent with
    | Some a =>
        if truthy_dict a then
          match a !! "confidence"%string with
          | Some (VNum c) => confidence_scores ++ [c]
          | _ => confidence_scores
          end
        else confidence_scores
    | None => confidence_scores
    end in
  let overall := Extractor.np_mean confidence_scores in
  let completeness :=
    match completeness_scores with
    | [] => 0.5
    | _ => Extractor.np_mean completeness_scores
    end in
  (overall, completeness).

(** [StartupData(company_name=..., industry=..., description=...)], the
    call that opens step 2; [None] is the [TypeError] it raises.  Step 2
    runs only when the import of [agents.startup_analyst_agents]
    succeeded, and [StartupData] is then the dataclass of that module,
    whose fields are [company_name], [founder_name],
    [business_description], [pitch_deck_url], [website_url], [industry],
    [funding_stage] and [team_size]: it has no field [description], and
    two fields without default are not given.  (The class of the same
    name that the pipeline defines itself, which has the three fields,
    exists only when the import failed, and step 2 is then skipped.) *)
Definition StartupData (company_name industry description : string)
  : option (string * string * string) := None.

(** [input_data.manual_data or {}]: the caller's own dict when there is
    one and it is not empty, a new dict otherwise. *)
Definition working_dict (h : store) (manual : option ref) : ref * store :=
  match manual with
  | Some r => if truthy_dict (deref h r) then (r, h) else new_dict h
  | None => new_dict h
  end.

(** The dict literal with the basic information *)
Definition basic_information (input_data : ProductionAnalysisInput)
  : gmap string pyval :=
  set "description" (VStr (or_default (description input_data) ""))
    (set "industry" (VStr (or_default (industry input_data) "Technology"))
       (set "company_name" (VStr (company_name input_data)) ∅)).

(** The guard of step 1, [use_pdf_extraction and pdf_path]: the path to
    read when the step runs. *)
Definition pdf_step (input_data : ProductionAnalysisInput) : option string :=
  match pdf_path input_data with
  | Some path =>
      if use_pdf_extraction input_data && negb (String.eqb path "")
      then Some path else None
  | None => None
  end.

(** The first part of [analyze_startup], up to the end of step 1: the
    reference of the working feature dict [ml_features], the store, the
    extracted data and the components recorded so far. *)
Definition gather_features (W : world) (h : store) (input_data : ProductionAnalysisInput)
  : ref * store * option ExtractedFinancialData * list string :=
  let components_used : list string := [] in
  let pdf_data : option ExtractedFinancialData := None in
  let '(ml_features, h) := working_dict h (manual_data input_data) in
  let h := update_at h ml_features (basic_information input_data) in
  match pdf_step input_data with
  | Some path =>
      let '(data, pdf_features) := extract_features_from_pdf W path in
      let h := update_at h ml_features pdf_features in
      (ml_features, h, Some data, components_used ++ ["PDF_EXTRACTION"%string])
  | None => (ml_features, h, pdf_data, components_used)
  end.

(** [analyze_startup]: the pipeline and the store afterwards, and the
    result.  The function returns on every input: what raises inside it
    is caught by the handler of its step. *)
Definition analyze_startup (W : world) (P : pipeline) (h : store)
    (input_data : ProductionAnalysisInput)
  : pipeline * store * ProductionAnalysisResult :=
  let id := or_default (analysis_id input_data) (clock_id W) in
  let stamp := clock_now W in
  let '(ml_features, h, pdf, components_used) := gather_features W h input_data in
  (* Step 2 *)
  let '(agent, components_used) :=
    if use_ai_agents input_data && agents_available W then
      match StartupData (company_name input_data)
              (or_default (industry input_data) "Technology")
              (or_default (description input_data) "") with
      | Some (name, industry, description) =>
          (run_agent_analysis W name industry description,
           components_used ++ ["AI_AGENTS"%string])
      | None => (None, components_used)
      end
    else (None, components_used) in
  (* Step 3 *)
  let '(P, ml, components_used) :=
    if use_ml_prediction input_data then
      let '(P', ml) := run_ml_prediction W P (deref h ml_features) in
      (P', ml, components_used ++ ["ML_PREDICTION"%string])
    else
      (P, skipped_prediction P stamp (size (deref h ml_features)), components_used) in
  (* Step 4 *)
  let '(overall, completeness) := combine_analysis_results ml pdf agent in
  let result := {|
    result_analysis_id := id;
    result_company_name := company_name input_data;
    result_timestamp := stamp;
    ml_prediction := ml;
    pdf_data := pdf;
    agent_analysis := agent;
    processing_time_seconds := elapsed W;
    pipeline_version := version P;
    components_used := components_used;
    overall_confidence := overall;
    data_completeness := completeness |} in
  ({| version := version P;
      ml_predictor := ml_predictor P;
      analysis_count := S (analysis_count P);
      total_processing_time := total_processing_time P + elapsed W |},
   h, result).

End Pipeline.

(** ** The spec's wording of two operations, for comparison *)

Module Wording.
Import PyStr PyFloat Pattern Extractor.

(** The multiplier that a final character stands for, either case. *)
Definition suffix_multiplier (c : ascii) : option Q :=
  if Ascii.eqb (to_upper c) "K" then Some 1000%Q
  else if Ascii.eqb (to_upper c) "M" then Some 1000000%Q
  else if Ascii.eqb (to_upper c) "B" then Some 1000000000%Q
  else None.








(** What one match contributes when every successfully parsed match
    counts, zero included. *)
Definition parsed (m : string) : list Q :=
  match parse_financial_value m with
  | Some (Fin q) => [q]
  | _ => []
  end.

(** The metric extraction as the spec words it: the median of all the
    matches that parsed. *)
Definition extract_metrics_spec (text : string) : gmap string Q :=
  fold_left
    (step (fun patterns =>
             flat_map (fun pattern => flat_map parsed (re_findall true pattern text))
               patterns))
    financial_patterns ∅.

(** The metric extraction, amended: the values that count and their
    median, written without the loops and the sorting of the code model. *)

(** What a match counts for: the number it parses to, when that is a
    finite number other than zero. *)
Definition counted (m : string) : option Q :=
  match parse_financial_value m with
  | Some (Fin q) => if Qeq_bool q 0 then None else Some q
  | _ => None
  end.

(** All the matches of all the patterns of a metric: pattern after
    pattern, the matches of a pattern in the order of the text.  A
    mention that several patterns capture is there once for each. *)
Definition all_matches (patterns : list string) (text : string) : list string :=
  concat (map (fun pattern => re_findall true pattern text) patterns).

Definition counted_values (patterns : list string) (text : string) : list Q :=
  omap counted (all_matches patterns text).

(** How many of the values are smaller than [q], and how many are not
    larger. *)
Definition below (q : Q) (l : list Q) : nat :=
  List.length (List.filter (fun x => negb (Qle_bool q x)) l).

Definition up_to (q : Q) (l : list Q) : nat :=
  List.length (List.filter (fun x => Qle_bool x q) l).

(** [q] stands at place [k], counted from 0, when the values are put in
    ascending order: at most [k] values are smaller, more than [k] are
    not larger. *)
Definition at_place (l : list Q) (k : nat) (q : Q) : Prop :=
  (below q l <= k)%nat /\ (k < up_to q l)%nat.

(** [q] is the median of the values: the middle one in ascending order,
    or the mean of the two middle ones when their number is even.  No
    number is the median of no values. *)
Definition median (l : list Q) (q : Q) : Prop :=
  let n := List.length l in
  if Nat.even n then
    exists a b, at_place l (n / 2 - 1) a /\ at_place l (n / 2) b /\ q == (a + b) / 2
  else at_place l (n / 2) q.

(** Each value is at most the next one. *)
Fixpoint ascending (l : list Q) : Prop :=
  match l with
  | a :: (b :: _) as rest => (a <= b)%Q /\ ascending rest
  | _ => True
  end.

(** Mentions of a metric, one per line *)
Definition lines (mentions : list string) : string :=
  String.concat (String "010" "") mentions.

(** A dict entry holding the number [q] *)
Definition holds (x : option Q) (q : Q) : Prop :=
  match x with
  | Some q' => (q' == q)%Q
  | None => False
  end.

(** A feature dict entry holding the number [q] *)
Definition holds_number (x : option PyDict.pyval) (q : Q) : Prop :=
  match x with
  | Some (PyDict.VNum q') => (q' == q)%Q
  | _ => False
  end.

(** The resilience property as the spec words it, on the result of a
    request whose PDF cannot be read: the empty structure as extracted
    data, no record of the extraction step, and the confidence of the
    model alone as overall confidence. *)
Definition resilient (r : Pipeline.ProductionAnalysisResult) : Prop :=
  Pipeline.pdf_data r = Some Extractor.empty_data
  /\ ~ In "PDF_EXTRACTION" (Pipeline.components_used r)
  /\ (Pipeline.overall_confidence r
      == Predictor.model_confidence (Pipeline.ml_prediction r))%Q.

End Wording.

(** ** Concrete surroundings, for the examples *)

Module Sample.
Import PyDict.
Local Open Scope Q_scope.

(** A rational square root, rounded down to six decimals. *)
Definition sqrt6 (x : Q) : Q :=
  inject_Z (Z.sqrt (Qnum x * Zpos (Qden x) * 10 ^ 12))
  / inject_Z (Zpos (Qden x) * 10 ^ 6).

Definition clamp (x : Q) : Q := Qmax 0 (Qmin 1 x).

(** Three classifiers that each look at one column, and their average. *)
Definition forest : Predictor.classifier := fun row => clamp (nth 16 row 0).
Definition boosting : Predictor.classifier := fun row => clamp (nth 19 row 0).
Definition ada : Predictor.classifier := fun row => clamp (nth 14 row 0).
Definition voting : Predictor.classifier :=
  fun row => (forest row + boosting row + ada row) / 3.

Definition library : Predictor.library := {|
  Predictor.fit_scaler := fun row => row;
  Predictor.fit_random_forest := forest;
  Predictor.fit_gradient_boosting := boosting;
  Predictor.fit_ada_boost := ada;
  Predictor.fit_voting := voting;
  Predictor.fit_importances := [];
  Predictor.fit_scores := [];
  Predictor.np_sqrt := sqrt6;
  Predictor.now := "2025-01-01T00:00:00"
|}.

Definition deck : Extractor.pdf_file := {|
  Extractor.plumber_text := "Annual revenue: $2M. We are raising $5M.";
  Extractor.pypdf_text := "";
  Extractor.table_revenue := []
|}.

Definition world : Pipeline.world := {|
  Pipeline.readers := {|
    Extractor.files := {[ "deck.pdf"%string := deck ]};
    Extractor.qa_answers := fun _ => ∅;
    Extractor.smart_answers := fun _ => ∅ |};
  Pipeline.library := library;
  Pipeline.agents_available := false;
  Pipeline.agent_orchestrator := None;
  Pipeline.clock_id := "analysis_1735689600";
  Pipeline.clock_now := "2025-01-01T00:00:00";
  Pipeline.elapsed := 0.25
|}.

(** A request for [name], with the PDF at [path] and the caller's
    [manual_data] behind [manual]. *)
Definition request (name : string) (path : option string) (manual : option Pipeline.ref)
  : Pipeline.ProductionAnalysisInput := {|
  Pipeline.company_name := name;
  Pipeline.industry := None;
  Pipeline.description := None;
  Pipeline.pdf_path := path;
  Pipeline.audio_path := None;
  Pipeline.video_path := None;
  Pipeline.manual_data := manual;
  Pipeline.use_pdf_extraction := true;
  Pipeline.use_ai_agents := true;
  Pipeline.use_ml_prediction := true;
  Pipeline.analysis_id := None;
  Pipeline.timestamp := None
|}.

(** The caller's dict [{'revenue': 500000}] as object 0 *)
Definition manual_revenue : Pipeline.store :=
  {[ 0%nat := {[ "revenue"%string := VNum 500000 ]} ]}.

(** The caller's empty dict [{}] as object 0 *)
Definition manual_empty : Pipeline.store := {[ 0%nat := ∅ ]}.

End Sample.

(** ** Further notions, for the properties at the end *)

Module More.
Import PyDict.

(** The keys that [_convert_pdf_to_ml_features] writes and that
    [extract_features_from_data] never reads. *)
Definition unread_pdf_keys : list string :=
  [ "current_revenue_usd"; "revenue_growth_rate"; "growth_rate";
    "funding_total_usd"; "market_size_billions"; "addressable_market_billions";
    "customers"; "user_traction_score"; "gross_margin_percent";
    "burn_rate_monthly"; "business_model"; "product_readiness_score";
    "extraction_confidence"; "data_completeness" ].

(** The keys that [extract_features_from_data] reads. *)
Definition read_keys : list string :=
  [ "company_name"; "industry"; "founded_year"; "team_size"; "location";
    "business_stage"; "funding_total"; "funding_rounds"; "revenue";
    "projected_revenue_y1"; "projected_revenue_y3"; "burn_rate";
    "runway_months"; "gross_margin"; "market_size"; "sam";
    "market_growth_rate"; "competition_level"; "competitive_advantage";
    "founder_experience"; "team_technical_score"; "team_business_score";
    "advisor_quality"; "product_readiness"; "tech_differentiation";
    "user_traction"; "pmf_score"; "business_model_clarity";
    "revenue_model_strength"; "scalability"; "gtm_score"; "market_risk";
    "tech_risk"; "team_risk"; "financial_risk"; "regulatory_risk";
    "industry_trend"; "economic_environment"; "vc_climate"; "pitch_clarity";
    "projections_realism"; "presentation_quality" ].

(** The keys that [_convert_pdf_to_ml_features] writes and that
    [extract_features_from_data] reads. *)
Definition read_pdf_keys : list string :=
  [ "revenue"; "projected_revenue_y1"; "projected_revenue_y3"; "funding_total";
    "funding_rounds"; "market_size"; "team_size"; "runway_months";
    "business_model_clarity" ].

(** Every entry of the dict carries one of the keys [keys]. *)
Definition keys_within (keys : list string) (d : gmap string pyval) : Prop :=
  forall k v, d !! k = Some v -> In k keys.

(** The numeric fields of the feature record in the order of the training
    columns. *)
Definition training_row (f : Predictor.ProductionStartupFeatures) : list Q :=
  [ Predictor.funding_total_usd f; Predictor.funding_rounds f; Predictor.team_size f;
    Predictor.founded_year f; Predictor.current_revenue_usd f;
    Predictor.projected_revenue_y1 f; Predictor.projected_revenue_y3 f;
    Predictor.burn_rate_monthly f; Predictor.runway_months f;
    Predictor.gross_margin_percent f; Predictor.market_size_billions f;
    Predictor.addressable_market_billions f; Predictor.market_growth_rate f;
    Predictor.competition_level f; Predictor.competitive_advantage_score f;
    Predictor.founder_experience_years f; Predictor.team_technical_score f;
    Predictor.team_business_score f; Predictor.advisor_quality_score f;
    Predictor.product_readiness_score f; Predictor.tech_differentiation_score f;
    Predictor.user_traction_score f; Predictor.product_market_fit_score f;
    Predictor.business_model_clarity f; Predictor.revenue_model_strength f;
    Predictor.scalability_score f; Predictor.go_to_market_score f;
    Predictor.market_risk_score f; Predictor.technical_risk_score f;
    Predictor.team_risk_score f; Predictor.financial_risk_score f;
    Predictor.regulatory_risk_score f; Predictor.industry_trend_score f;
    Predictor.economic_environment_score f; Predictor.vc_funding_climate_score f;
    Predictor.pitch_clarity_score f; Predictor.financial_projections_realism f;
    Predictor.presentation_quality_score f ].

(** *** [production_pipeline.py]: statistics and the module-level entry *)

(** The dict that [get_pipeline_stats] returns *)
Record pipeline_stats : Type := {
  stats_version : string;
  total_analyses : nat;
  stats_total_processing_time : Q;
  average_processing_time : Q;
  pdf_extraction_available : bool;
  ml_prediction_available : bool;
  ai_agents_available : bool
}.

(** [get_pipeline_stats] *)
Definition get_pipeline_stats (W : Pipeline.world) (self : Pipeline.pipeline)
  : pipeline_stats :=
  let avg_processing_time :=
    if (0 <? Pipeline.analysis_count self)%nat
    then (Pipeline.total_processing_time self
          / Pipeline.q_of_nat (Pipeline.analysis_count self))%Q
    else 0%Q in
  {| stats_version := Pipeline.version self;
     total_analyses := Pipeline.analysis_count self;
     stats_total_processing_time := Pipeline.total_processing_time self;
     average_processing_time := avg_processing_time;
     pdf_extraction_available := true;
     ml_prediction_available := true;
     ai_agents_available := Pipeline.agents_available W |}.

(** [get_production_pipeline]: the global instance, created on first use.
    The global holds the returned object afterwards. *)
Definition get_production_pipeline (global_pipeline : option Pipeline.pipeline)
  : Pipeline.pipeline :=
  match global_pipeline with
  | Some p => p
  | None => Pipeline.new_pipeline
  end.

(** [analyze_startup_production]: the global instance and the store
    afterwards, and the result.  [prod_id] is the value of
    [f"prod_{int(time.time())}"]. *)
Definition analyze_startup_production (W : Pipeline.world) (prod_id : string)
    (global_pipeline : option Pipeline.pipeline) (h : Pipeline.store)
    (company_name : string) (pdf_path industry description : option string)
    (manual_data : option Pipeline.ref)
  : option Pipeline.pipeline * Pipeline.store * Pipeline.ProductionAnalysisResult :=
  let pipeline := get_production_pipeline global_pipeline in
  let input_data := {|
    Pipeline.company_name := company_name;
    Pipeline.industry := industry;
    Pipeline.description := description;
    Pipeline.pdf_path := pdf_path;
    Pipeline.audio_path := None;
    Pipeline.video_path := None;
    Pipeline.manual_data := manual_data;
    Pipeline.use_pdf_extraction := true;
    Pipeline.use_ai_agents := true;
    Pipeline.use_ml_prediction := true;
    Pipeline.analysis_id := Some prod_id;
    Pipeline.timestamp := None |} in
  let '(pipeline, h, result) := Pipeline.analyze_startup W pipeline h input_data in
  (Some pipeline, h, result).

(** One call of [analyze_startup_production] with what it meets *)
Record call : Type := {
  call_world : Pipeline.world;
  call_prod_id : string;
  call_company_name : string;
  call_pdf_path : option string;
  call_industry : option string;
  call_description : option string;
  call_manual_data : option Pipeline.ref
}.

(** A caller that makes the calls one after the other *)
Fixpoint analyze_all (calls : list call) (global_pipeline : option Pipeline.pipeline)
    (h : Pipeline.store) : option Pipeline.pipeline * Pipeline.store :=
  match calls with
  | [] => (global_pipeline, h)
  | c :: rest =>
      let '(global_pipeline, h, _) :=
        analyze_startup_production (call_world c) (call_prod_id c) global_pipeline h
          (call_company_name c) (call_pdf_path c) (call_industry c)
          (call_description c) (call_manual_data c) in
      analyze_all rest global_pipeline h
  end.

(** The feature dict that [analyze_startup] predicts on, as a value: the
    caller's dict, the basic information and the features of the PDF. *)
Definition merged_features (W : Pipeline.world) (h : Pipeline.store)
    (input_data : Pipeline.ProductionAnalysisInput) : gmap string pyval :=
  let manual :=
    match Pipeline.manual_data input_data with
    | Some r => Pipeline.deref h r
    | None => ∅
    end in
  let with_basic := update manual (Pipeline.basic_information input_data) in
  match Pipeline.pdf_step input_data with
  | Some path => update with_basic (snd (Pipeline.extract_features_from_pdf W path))
  | None => with_basic
  end.

(** The features with another name and another industry *)
Definition with_names (name industry : pyval) (f : Predictor.ProductionStartupFeatures)
  : Predictor.ProductionStartupFeatures := {|
  Predictor.company_name := name;
  Predictor.industry := industry;
  Predictor.founded_year := Predictor.founded_year f;
  Predictor.team_size := Predictor.team_size f;
  Predictor.location := Predictor.location f;
  Predictor.business_stage := Predictor.business_stage f;
  Predictor.funding_total_usd := Predictor.funding_total_usd f;
  Predictor.funding_rounds := Predictor.funding_rounds f;
  Predictor.current_revenue_usd := Predictor.current_revenue_usd f;
  Predictor.projected_revenue_y1 := Predictor.projected_revenue_y1 f;
  Predictor.projected_revenue_y3 := Predictor.projected_revenue_y3 f;
  Predictor.burn_rate_monthly := Predictor.burn_rate_monthly f;
  Predictor.runway_months := Predictor.runway_months f;
  Predictor.gross_margin_percent := Predictor.gross_margin_percent f;
  Predictor.market_size_billions := Predictor.market_size_billions f;
  Predictor.addressable_market_billions := Predictor.addressable_market_billions f;
  Predictor.market_growth_rate := Predictor.market_growth_rate f;
  Predictor.competition_level := Predictor.competition_level f;
  Predictor.competitive_advantage_score := Predictor.competitive_advantage_score f;
  Predictor.founder_experience_years := Predictor.founder_experience_years f;
  Predictor.team_technical_score := Predictor.team_technical_score f;
  Predictor.team_business_score := Predictor.team_business_score f;
  Predictor.advisor_quality_score := Predictor.advisor_quality_score f;
  Predictor.product_readiness_score := Predictor.product_readiness_score f;
  Predictor.tech_differentiation_score := Predictor.tech_differentiation_score f;
  Predictor.user_traction_score := Predictor.user_traction_score f;
  Predictor.product_market_fit_score := Predictor.product_market_fit_score f;
  Predictor.business_model_clarity := Predictor.business_model_clarity f;
  Predictor.revenue_model_strength := Predictor.revenue_model_strength f;
  Predictor.scalability_score := Predictor.scalability_score f;
  Predictor.go_to_market_score := Predictor.go_to_market_score f;
  Predictor.market_risk_score := Predictor.market_risk_score f;
  Predictor.technical_risk_score := Predictor.technical_risk_score f;
  Predictor.team_risk_score := Predictor.team_risk_score f;
  Predictor.financial_risk_score := Predictor.financial_risk_score f;
  Predictor.regulatory_risk_score := Predictor.regulatory_risk_score f;
  Predictor.industry_trend_score := Predictor.industry_trend_score f;
  Predictor.economic_environment_score := Predictor.economic_environment_score f;
  Predictor.vc_funding_climate_score := Predictor.vc_funding_climate_score f;
  Predictor.pitch_clarity_score := Predictor.pitch_clarity_score f;
  Predictor.financial_projections_realism := Predictor.financial_projections_realism f;
  Predictor.presentation_quality_score := Predictor.presentation_quality_score f |}.

(** The same request for another company name, industry and description *)
Definition with_identity (name : string) (industry description : option string)
    (input_data : Pipeline.ProductionAnalysisInput)
  : Pipeline.ProductionAnalysisInput := {|
  Pipeline.company_name := name;
  Pipeline.industry := industry;
  Pipeline.description := description;
  Pipeline.pdf_path := Pipeline.pdf_path input_data;
  Pipeline.audio_path := Pipeline.audio_path input_data;
  Pipeline.video_path := Pipeline.video_path input_data;
  Pipeline.manual_data := Pipeline.manual_data input_data;
  Pipeline.use_pdf_extraction := Pipeline.use_pdf_extraction input_data;
  Pipeline.use_ai_agents := Pipeline.use_ai_agents input_data;
  Pipeline.use_ml_prediction := Pipeline.use_ml_prediction input_data;
  Pipeline.analysis_id := Pipeline.analysis_id input_data;
  Pipeline.timestamp := Pipeline.timestamp input_data |}.

(** The same request with the agents switched off *)
Definition without_agents (input_data : Pipeline.ProductionAnalysisInput)
  : Pipeline.ProductionAnalysisInput := {|
  Pipeline.company_name := Pipeline.company_name input_data;
  Pipeline.industry := Pipeline.industry input_data;
  Pipeline.description := Pipeline.description input_data;
  Pipeline.pdf_path := Pipeline.pdf_path input_data;
  Pipeline.audio_path := Pipeline.audio_path input_data;
  Pipeline.video_path := Pipeline.video_path input_data;
  Pipeline.manual_data := Pipeline.manual_data input_data;
  Pipeline.use_pdf_extraction := Pipeline.use_pdf_extraction input_data;
  Pipeline.use_ai_agents := false;
  Pipeline.use_ml_prediction := Pipeline.use_ml_prediction input_data;
  Pipeline.analysis_id := Pipeline.analysis_id input_data;
  Pipeline.timestamp := Pipeline.timestamp input_data |}.

(** A deck that states a revenue and a growth rate *)
Definition growing : Extractor.readers := {|
  Extractor.files :=
    {[ "growth.pdf"%string :=
         {| Extractor.plumber_text := "Annual revenue: $2M. 50% growth last year.";
            Extractor.pypdf_text := "";
            Extractor.table_revenue := [] |} ]};
  Extractor.qa_answers := fun _ => ∅;
  Extractor.smart_answers := fun _ => ∅ |}.

End More.

(** ** [production_main.py]: the synchronous analysis endpoint *)

Module Backend.
Import PyDict.

(** [ProductionStartupInput] *)
Record ProductionStartupInput : Type := {
  company_name : string;
  industry : option string;
  description : option string;
  current_revenue : option Q;
  funding_requested : option Q;
  market_size : option Q;
  team_size : option Z;
  founded_year : option Z;
  use_pdf_extraction : bool;
  use_ai_agents : bool;
  use_ml_prediction : bool
}.

(** [ProductionAnalysisResponse] *)
Record ProductionAnalysisResponse : Type := {
  analysis_id : string;
  response_company_name : string;
  timestamp : string;
  success_probability : Q;
  success_category : string;
  investment_recommendation : string;
  confidence_interval : list Q;
  market_score : Q;
  team_score : Q;
  product_score : Q;
  business_model_score : Q;
  financial_score : Q;
  risk_score : Q;
  key_strengths : list (string * Q);
  key_risks : list (string * Q);
  improvement_areas : list string;
  processing_time_seconds : Q;
  components_used : list string;
  overall_confidence : Q;
  data_completeness : Q;
  model_version : string
}.

(** [convert_production_result_to_response] *)
Definition convert_production_result_to_response
    (result : Pipeline.ProductionAnalysisResult) : ProductionAnalysisResponse :=
  let ml := Pipeline.ml_prediction result in
  {| analysis_id := Pipeline.result_analysis_id result;
     response_company_name := Pipeline.result_company_name result;
     timestamp := Pipeline.result_timestamp result;
     success_probability := Predictor.success_probability ml;
     success_category := Predictor.success_category ml;
     investment_recommendation := Predictor.investment_recommendation ml;
     confidence_interval :=
       [fst (Predictor.confidence_interval ml); snd (Predictor.confidence_interval ml)];
     market_score := Predictor.market_score ml;
     team_score := Predictor.team_score ml;
     product_score := Predictor.product_score ml;
     business_model_score := Predictor.business_model_score ml;
     financial_score := Predictor.financial_score ml;
     risk_score := Predictor.risk_score ml;
     key_strengths := Predictor.key_strengths ml;
     key_risks := Predictor.key_risks ml;
     improvement_areas := Predictor.improvement_areas ml;
     processing_time_seconds := Pipeline.processing_time_seconds result;
     components_used := Pipeline.components_used result;
     overall_confidence := Pipeline.overall_confidence result;
     data_completeness := Pipeline.data_completeness result;
     model_version := Predictor.result_model_version ml |}.

(** One item of the dict comprehension: kept when it is not [None] *)
Definition item (key : string) (v : option pyval) (d : gmap string pyval)
  : gmap string pyval :=
  match v with
  | Some x => <[key := x]> d
  | None => d
  end.

Definition number (q : Q) : pyval := VNum q.
Definition integer (z : Z) : pyval := VNum (inject_Z z).

(** The [manual_data] dict that the endpoints build from the request *)
Definition manual_data (startup_input : ProductionStartupInput) : gmap string pyval :=
  item "founded_year" (option_map integer (founded_year startup_input))
    (item "team_size" (option_map integer (team_size startup_input))
       (item "market_size" (option_map number (market_size startup_input))
          (item "funding_requested" (option_map number (funding_requested startup_input))
             (item "current_revenue" (option_map number (current_revenue startup_input))
                ∅)))).

(** [analyze_sync]: the pipeline and the store afterwards and the
    response; [None] is the HTTP error of a pipeline that could not be
    built.  [pdf_path] is the uploaded file found for [file_id], if any. *)
Definition analyze_sync (W : Pipeline.world)
    (production_pipeline : option Pipeline.pipeline) (h : Pipeline.store)
    (startup_input : ProductionStartupInput) (pdf_path : option string)
  : option (Pipeline.pipeline * Pipeline.store * ProductionAnalysisResponse) :=
  match production_pipeline with
  | None => None
  | Some pipeline =>
      let manual := fresh (dom h) in
      let h := <[manual := manual_data startup_input]> h in
      let pipeline_input := {|
        Pipeline.company_name := company_name startup_input;
        Pipeline.industry := industry startup_input;
        Pipeline.description := description startup_input;
        Pipeline.pdf_path := pdf_path;
        Pipeline.audio_path := None;
        Pipeline.video_path := None;
        Pipeline.manual_data := Some manual;
        Pipeline.use_pdf_extraction := use_pdf_extraction startup_input;
        Pipeline.use_ai_agents := use_ai_agents startup_input;
        Pipeline.use_ml_prediction := use_ml_prediction startup_input;
        Pipeline.analysis_id := None;
        Pipeline.timestamp := None |} in
      let '(pipeline, h, result) := Pipeline.analyze_startup W pipeline h pipeline_input in
      Some (pipeline, h, convert_production_result_to_response result)
  end.

End Backend.

(** * Properties *)

(** ** The median *)

Module MedianFacts.
Import Extractor Wording.
Local Open Scope Q_scope.

Lemma leb_true x y : Qle_bool x y = true <-> x <= y.
Proof. apply Qle_bool_iff. Qed.

Lemma leb_false x y : Qle_bool x y = false <-> y < x.
Proof.
  split; intros H.
  - apply Qnot_le_lt. intros Hle. apply Qle_bool_iff in Hle. congruence.
  - destruct (Qle_bool x y) eqn:E; [|reflexivity].
    apply Qle_bool_iff in E. lra.
Qed.

Ltac order_cases :=
  repeat match goal with
    | |- context [Qle_bool ?a ?b] =>
        let E := fresh "E" in
        destruct (Qle_bool a b) eqn:E;
        [apply leb_true in E | apply leb_false in E]
    end.

Lemma Forall2_Qeq_refl (l : list Q) : Forall2 Qeq l l.
Proof. induction l; constructor; [reflexivity | assumption]. Qed.

Lemma Forall2_Qeq_trans (a b c : list Q) :
  Forall2 Qeq a b -> Forall2 Qeq b c -> Forall2 Qeq a c.
Proof.
  intros Hab. revert c. induction Hab; intros c Hbc; inversion Hbc; subst.
  - constructor.
  - constructor; [etransitivity; eassumption | auto].
Qed.

Lemma insert_sorted_Qeq x l l' :
  Forall2 Qeq l l' -> Forall2 Qeq (insert_sorted x l) (insert_sorted x l').
Proof.
  induction 1 as [|h h' t t' Hh Ht IH]; simpl.
  - apply Forall2_Qeq_refl.
  - order_cases; try lra;
      repeat constructor; try reflexivity; try assumption.
Qed.

Lemma insert_sorted_comm x y l :
  Forall2 Qeq (insert_sorted x (insert_sorted y l))
              (insert_sorted y (insert_sorted x l)).
Proof.
  induction l as [|h t IH]; simpl.
  - order_cases; try lra;
      repeat constructor; try reflexivity; lra.
  - order_cases; simpl; order_cases; try lra;
      repeat constructor; try reflexivity; try lra;
      try apply Forall2_Qeq_refl; try assumption.
Qed.

Lemma sort_Permutation l l' :
  Permutation l l' -> Forall2 Qeq (sort l) (sort l').
Proof.
  induction 1 as [| x l l' _ IH | x y l | l l' l'' _ IH1 _ IH2]; simpl.
  - constructor.
  - apply insert_sorted_Qeq, IH.
  - apply insert_sorted_comm.
  - eapply Forall2_Qeq_trans; eassumption.
Qed.

Lemma nth_Qeq l l' k : Forall2 Qeq l l' -> nth k l 0 == nth k l' 0.
Proof.
  intros H. revert k. induction H; intros [|k]; simpl; auto; reflexivity.
Qed.

Lemma length_Qeq (l l' : list Q) : Forall2 Qeq l l' -> List.length l = List.length l'.
Proof. induction 1; simpl; auto. Qed.

(** The median does not depend on the order of the values. *)
Lemma np_median_Permutation l l' :
  Permutation l l' -> np_median l == np_median l'.
Proof.
  intros H. apply sort_Permutation in H. unfold np_median.
  rewrite (length_Qeq _ _ H).
  destruct (Nat.even _).
  - rewrite (nth_Qeq _ _ (List.length (sort l') / 2 - 1) H).
    rewrite (nth_Qeq _ _ (List.length (sort l') / 2) H). reflexivity.
  - apply nth_Qeq, H.
Qed.

(** *** The sorted values *)

Lemma insert_sorted_Permutation x l : Permutation (insert_sorted x l) (x :: l).
Proof.
  induction l as [|h t IH]; simpl; [reflexivity|].
  destruct (Qle_bool x h); [reflexivity|].
  rewrite IH. apply perm_swap.
Qed.

Lemma sort_is_Permutation l : Permutation (sort l) l.
Proof.
  induction l as [|x l IH]; simpl; [reflexivity|].
  rewrite insert_sorted_Permutation. now constructor.
Qed.

Lemma insert_sorted_ascending x l : ascending l -> ascending (insert_sorted x l).
Proof.
  induction l as [|h t IH]; simpl; [trivial|]. intros Hl.
  destruct (Qle_bool x h) eqn:E.
  - apply leb_true in E. simpl. auto.
  - apply leb_false in E.
    destruct t as [|h' t']; simpl in *.
    + split; [lra | trivial].
    + destruct Hl as [Hh Ht]. specialize (IH Ht).
      destruct (Qle_bool x h') eqn:E'.
      * apply leb_true in E'. simpl. repeat split; auto; lra.
      * split; [assumption | exact IH].
Qed.

Lemma sort_ascending l : ascending (sort l).
Proof.
  induction l as [|x l IH]; simpl; [trivial|]. now apply insert_sorted_ascending.
Qed.

(** *** Places *)

Lemma below_Permutation q l l' : Permutation l l' -> below q l = below q l'.
Proof.
  intros H. unfold below. apply Permutation_length.
  induction H; simpl; try destruct (negb _); try destruct (negb _);
    eauto using Permutation.
Qed.

Lemma up_to_Permutation q l l' : Permutation l l' -> up_to q l = up_to q l'.
Proof.
  intros H. unfold up_to. apply Permutation_length.
  induction H; simpl; try destruct (Qle_bool _ _); try destruct (Qle_bool _ _);
    eauto using Permutation.
Qed.

Lemma ascending_head a l : ascending (a :: l) -> Forall (fun x => a <= x) l.
Proof.
  revert a. induction l as [|b l IH]; intros a H; constructor.
  - exact (proj1 H).
  - destruct H as [Hab Hl]. specialize (IH b Hl).
    eapply Forall_impl; [exact IH|]. intros x Hx. simpl in Hx. lra.
Qed.

Lemma ascending_tail a l : ascending (a :: l) -> ascending l.
Proof. destruct l; [trivial|]. intros [_ H]. exact H. Qed.

Lemma below_none q l : Forall (fun x => q <= x) l -> below q l = 0%nat.
Proof.
  unfold below. induction 1 as [|x l Hx _ IH]; [reflexivity|]. simpl.
  apply leb_true in Hx. now rewrite Hx.
Qed.

Lemma below_cons q x l :
  below q (x :: l) = ((if Qle_bool q x then 0 else 1) + below q l)%nat.
Proof. unfold below. simpl. destruct (Qle_bool q x); reflexivity. Qed.

Lemma up_to_cons q x l :
  up_to q (x :: l) = ((if Qle_bool x q then 1 else 0) + up_to q l)%nat.
Proof. unfold up_to. simpl. destruct (Qle_bool x q); reflexivity. Qed.

(** In an ascending list the value at index [k] stands at place [k]. *)
Lemma ascending_at_place l :
  ascending l -> forall k, (k < List.length l)%nat -> at_place l k (nth k l 0).
Proof.
  induction l as [|a l IH]; intros Hl k Hk; [simpl in Hk; lia|].
  pose proof (ascending_head a l Hl) as Hhead.
  destruct k as [|k]; simpl nth.
  - split.
    + rewrite below_cons, (below_none a l Hhead).
      assert (E : Qle_bool a a = true) by (apply leb_true; lra). now rewrite E.
    + rewrite up_to_cons.
      assert (E : Qle_bool a a = true) by (apply leb_true; lra). rewrite E. lia.
  - simpl in Hk. assert (Hk' : (k < List.length l)%nat) by lia.
    destruct (IH (ascending_tail a l Hl) k Hk') as [Hb Hu].
    assert (Ha : a <= nth k l 0).
    { rewrite Forall_forall in Hhead. apply Hhead, list_elem_of_In, nth_In, Hk'. }
    split.
    + rewrite below_cons. destruct (Qle_bool _ a); lia.
    + rewrite up_to_cons. apply leb_true in Ha. rewrite Ha. lia.
Qed.

Lemma up_to_below q q' l : q < q' -> (up_to q l <= below q' l)%nat.
Proof.
  intros Hlt. induction l as [|x l IH]; [reflexivity|].
  rewrite up_to_cons, below_cons.
  destruct (Qle_bool x q) eqn:E1, (Qle_bool q' x) eqn:E2;
    try apply leb_true in E1; try apply leb_true in E2; try lia; lra.
Qed.

(** A place holds one value. *)
Lemma at_place_unique l k q q' : at_place l k q -> at_place l k q' -> q == q'.
Proof.
  intros [Hb Hu] [Hb' Hu'].
  destruct (Q_dec q q') as [[Hlt|Hgt]|Heq]; [| |exact Heq]; exfalso.
  - pose proof (up_to_below q q' l Hlt). lia.
  - pose proof (up_to_below q' q l Hgt). lia.
Qed.

Lemma at_place_Permutation l l' k q : Permutation l l' -> at_place l k q -> at_place l' k q.
Proof.
  intros H [Hb Hu]. unfold at_place.
  now rewrite <- (below_Permutation q l l' H), <- (up_to_Permutation q l l' H).
Qed.

Lemma even_half n : Nat.even n = true -> (0 < n)%nat -> (n / 2 - 1 < n /\ n / 2 < n)%nat.
Proof.
  intros He Hn. apply Nat.even_spec in He as [m ->].
  rewrite (Nat.mul_comm 2 m), Nat.div_mul by lia. lia.
Qed.

(** [np.median] answers the median. *)
Lemma np_median_is_median l : l <> [] -> median l (np_median l).
Proof.
  intros Hne. unfold median, np_median. cbv zeta.
  pose proof (sort_is_Permutation l) as Hp.
  pose proof (sort_ascending l) as Hs.
  rewrite (Permutation_length Hp).
  assert (Hn : (0 < List.length l)%nat) by (destruct l; [congruence|simpl; lia]).
  rewrite <- (Permutation_length Hp) in Hn |- *.
  set (s := sort l) in *. 
  destruct (Nat.even (List.length s)) eqn:He.
  - destruct (even_half _ He Hn) as [H1 H2].
    exists (nth (List.length s / 2 - 1) s 0), (nth (List.length s / 2) s 0).
    split; [|split; [|reflexivity]];
      apply (at_place_Permutation s l _ _ Hp), ascending_at_place; assumption.
  - apply (at_place_Permutation s l _ _ Hp), ascending_at_place; [assumption|].
    apply Nat.div_lt; lia.
Qed.

Lemma median_unique l q q' : median l q -> median l q' -> q == q'.
Proof.
  unfold median. cbv zeta. destruct (Nat.even _).
  - intros (a & b & Ha & Hb & ->) (a' & b' & Ha' & Hb' & ->).
    rewrite (at_place_unique _ _ _ _ Ha Ha'), (at_place_unique _ _ _ _ Hb Hb').
    reflexivity.
  - apply at_place_unique.
Qed.

Lemma median_Permutation l l' q : Permutation l l' -> median l q -> median l' q.
Proof.
  intros H. unfold median. cbv zeta. rewrite (Permutation_length H).
  destruct (Nat.even _).
  - intros (a & b & Ha & Hb & Hq). exists a, b.
    split; [|split; [|exact Hq]]; eapply at_place_Permutation; eassumption.
  - now apply at_place_Permutation.
Qed.

End MedianFacts.

(** ** What a group captures *)

Module RegexFacts.
Import PyStr Regex.

Lemma all_ascii_complete c : In c all_ascii.
Proof.
  unfold all_ascii. rewrite <- (ascii_nat_embedding c).
  apply in_map, in_seq. pose proof (nat_ascii_bounded c). lia.
Qed.

Lemma within_spec P p c : within P p = true -> p c = true -> P c = true.
Proof.
  unfold within. rewrite forallb_forall. intros H Hp.
  specialize (H c (all_ascii_complete c)). now rewrite Hp in H.
Qed.

Section Consumed.
Context {A : Type}.

(** A successful repetition hands the rest of the input to its
    continuation after a prefix made of characters of the class. *)
Lemma rep_greedy_consumes p lo hi s (k : list ascii -> option A) res :
  rep_greedy p lo hi s k = Some res ->
  exists pre rest,
    s = pre ++ rest /\ Forall (fun c => p c = true) pre /\ k rest = Some res.
Proof.
  revert lo hi. induction s as [|c s IH]; intros lo hi H; simpl in H.
  - destruct lo; [|discriminate]. exists [], []. auto.
  - assert ((match lo with O => k (c :: s) | S _ => None end) = Some res ->
            exists pre rest,
              c :: s = pre ++ rest /\ Forall (fun c => p c = true) pre
              /\ k rest = Some res) as Hstop.
    { destruct lo; [|discriminate]. intros Hk. exists [], (c :: s). auto. }
    destruct (p c) eqn:Hp; simpl in H; [|auto].
    destruct (more hi); simpl in H; [|auto].
    destruct (rep_greedy p (Nat.pred lo) (dec hi) s k) as [r|] eqn:E; [|auto].
    injection H as ->. apply IH in E as (pre & rest & -> & Hpre & Hk).
    exists (c :: pre), rest. auto.
Qed.

Lemma rep_lazy_consumes p lo hi s (k : list ascii -> option A) res :
  rep_lazy p lo hi s k = Some res ->
  exists pre rest,
    s = pre ++ rest /\ Forall (fun c => p c = true) pre /\ k rest = Some res.
Proof.
  revert lo hi. induction s as [|c s IH]; intros lo hi H; simpl in H.
  - destruct lo; [|discriminate]. destruct (k []) eqn:E; [|discriminate].
    injection H as ->. exists [], []. auto.
  - assert ((if p c && more hi then rep_lazy p (Nat.pred lo) (dec hi) s k else None)
            = Some res ->
            exists pre rest,
              c :: s = pre ++ rest /\ Forall (fun c => p c = true) pre
              /\ k rest = Some res) as Hstep.
    { destruct (p c) eqn:Hp; simpl; [|discriminate].
      destruct (more hi); [|discriminate]. intros E.
      apply IH in E as (pre & rest & -> & Hpre & Hk).
      exists (c :: pre), rest. auto. }
    destruct lo; [|auto].
    destruct (k (c :: s)) eqn:E; [|auto].
    injection H as ->. exists [], (c :: s). auto.
Qed.

(** A pattern without groups whose classes stay within [P] consumes
    characters of [P] and leaves the capture as it was. *)
Lemma rmatch_consumes P r :
  group_free r = true -> classes_within P r = true ->
  forall cap s (k : option (list ascii) -> list ascii -> option A) res,
    rmatch r cap s k = Some res ->
    exists pre rest,
      s = pre ++ rest /\ Forall (fun c => P c = true) pre /\ k cap rest = Some res.
Proof.
  induction r as [p | greedy lo hi p | r1 IH1 r2 IH2 | r1 IH1]; simpl; intros Hg Hc cap s k res H.
  - destruct s as [|c s]; [discriminate|]. destruct (p c) eqn:Hp; [|discriminate].
    exists [c], s. repeat split; auto. constructor; [|constructor].
    eapply within_spec; eassumption.
  - assert (exists pre rest,
               s = pre ++ rest /\ Forall (fun c => p c = true) pre
               /\ k cap rest = Some res) as (pre & rest & -> & Hpre & Hk).
    { destruct greedy; [eapply rep_greedy_consumes | eapply rep_lazy_consumes]; exact H. }
    exists pre, rest. repeat split; auto.
    eapply Forall_impl; [exact Hpre|]. intros c. apply within_spec, Hc.
  - apply andb_prop in Hg as [Hg1 Hg2]. apply andb_prop in Hc as [Hc1 Hc2].
    apply (IH1 Hg1 Hc1) in H as (pre1 & rest1 & -> & Hpre1 & H).
    apply (IH2 Hg2 Hc2) in H as (pre2 & rest2 & -> & Hpre2 & H).
    exists (pre1 ++ pre2), rest2. rewrite <- app_assoc. repeat split; auto.
    apply Forall_app; auto.
  - discriminate.
Qed.

Lemma firstn_consumed (pre rest : list ascii) :
  firstn (List.length (pre ++ rest) - List.length rest) (pre ++ rest) = pre.
Proof.
  rewrite length_app. replace (_ + _ - _)%nat with (List.length pre) by lia.
  rewrite firstn_app, Nat.sub_diag, firstn_all. simpl. apply app_nil_r.
Qed.

Lemma rmatch_captures P r :
  groups_within P r = true ->
  forall cap s (k : option (list ascii) -> list ascii -> option A) res,
    good P cap ->
    rmatch r cap s k = Some res ->
    exists cap' rest,
      k cap' rest = Some res /\ good P cap'
      /\ (has_group r = true \/ cap <> None -> cap' <> None).
Proof.
  induction r as [p | greedy lo hi p | r1 IH1 r2 IH2 | r1 IH1]; simpl;
    intros Hg cap s k res Hcap H.
  - destruct s as [|c s]; [discriminate|]. destruct (p c); [|discriminate].
    exists cap, s. repeat split; auto. intros [?|?]; [discriminate | assumption].
  - assert (exists pre rest,
               s = pre ++ rest /\ Forall (fun c => p c = true) pre
               /\ k cap rest = Some res) as (pre & rest & _ & _ & Hk).
    { destruct greedy; [eapply rep_greedy_consumes | eapply rep_lazy_consumes]; exact H. }
    exists cap, rest. repeat split; auto. intros [?|?]; [discriminate | assumption].
  - apply andb_prop in Hg as [Hg1 Hg2].
    apply (IH1 Hg1 _ _ _ _ Hcap) in H as (cap1 & rest1 & H & Hcap1 & Hsome1).
    apply (IH2 Hg2 _ _ _ _ Hcap1) in H as (cap2 & rest2 & H & Hcap2 & Hsome2).
    exists cap2, rest2. repeat split; auto.
    intros [Hhas|Hsome]; apply Hsome2.
    + apply orb_prop in Hhas as [Hhas|Hhas]; [right; apply Hsome1|]; auto.
    + right. apply Hsome1. auto.
  - apply andb_prop in Hg as [Hfree Hwithin].
    apply (rmatch_consumes P r1 Hfree Hwithin) in H as (pre & rest & -> & Hpre & H).
    rewrite firstn_consumed in H.
    exists (Some pre), rest. split; [exact H|]. split; [exact Hpre|]. discriminate.
Qed.

End Consumed.

Lemma no_group_free r : has_group r = false -> group_free r = true.
Proof.
  induction r as [p | greedy lo hi p | r1 IH1 r2 IH2 | r1 IH1]; simpl; intros H.
  - reflexivity.
  - reflexivity.
  - apply orb_false_elim in H as [H1 H2]. now rewrite IH1, IH2.
  - discriminate.
Qed.

(** What [findall] reports for a pattern that [reports_within P] accepts
    is made of characters of [P]. *)
Lemma match_here_within P r s g n :
  reports_within P r = true ->
  match_here r s = Some (g, n) -> Forall (fun c => P c = true) g.
Proof.
  unfold reports_within, match_here. intros Hr H.
  apply andb_prop in Hr as [Hgroups Hr].
  destruct (has_group r) eqn:Hhas; simpl in Hr.
  - apply (rmatch_captures P r Hgroups) in H as (cap' & rest & H & Hgood & Hsome);
      [|exact I].
    destruct cap' as [g'|]; [|exfalso; apply Hsome; auto].
    injection H as <- _. exact Hgood.
  - pose proof (no_group_free r Hhas) as Hfree.
    apply (rmatch_consumes P r Hfree Hr) in H as (pre & rest & -> & Hpre & H).
    rewrite firstn_consumed in H. injection H as <- _. exact Hpre.
Qed.

Lemma scan_within P r skip s :
  reports_within P r = true ->
  Forall (Forall (fun c => P c = true)) (scan r skip s).
Proof.
  intros Hr. revert skip. induction s as [|c s IH]; intros skip; simpl.
  - constructor.
  - destruct skip; [|apply IH].
    destruct (match_here r (c :: s)) as [[g n]|] eqn:E; [|apply IH].
    constructor; [|apply IH]. eapply match_here_within; eassumption.
Qed.

Lemma chars_str l : chars (str l) = l.
Proof. apply list_ascii_of_string_of_list_ascii. Qed.

Lemma findall_within P r text m :
  reports_within P r = true ->
  In m (findall r text) -> Forall (fun c => P c = true) (chars m).
Proof.
  intros Hr Hm. unfold findall in Hm. apply in_map_iff in Hm as (l & <- & Hl).
  rewrite chars_str.
  pose proof (scan_within P r 0 (chars text) Hr) as Hall.
  rewrite Forall_forall in Hall. apply Hall. now apply list_elem_of_In.
Qed.

End RegexFacts.

(** ** The numeric parser and the metric extraction *)

Module ExtractorFacts.
Import PyStr PyFloat Pattern Extractor Wording.

(** [kept] in terms of the parser: a match counts exactly when it parses
    to a finite value other than zero. *)
Lemma kept_spec m q :
  In q (kept m) <-> parse_financial_value m = Some (Fin q) /\ ~ (q == 0)%Q.
Proof.
  unfold kept. destruct (parse_financial_value m) as [[q'| | |]|]; simpl;
    try (split; [tauto | intros [H _]; discriminate]).
  destruct (Qeq_bool q' 0) eqn:E; simpl.
  - apply Qeq_bool_iff in E. split; [tauto|].
    intros [H Hz]. injection H as ->. contradiction.
  - split.
    + intros [->|[]]. split; [reflexivity|].
      intros Hz. apply Qeq_bool_iff in Hz. congruence.
    + intros [H _]. injection H as ->. now left.
Qed.


Lemma kept_unparsed m : parse_financial_value m = None -> kept m = [].
Proof. intros H. unfold kept. now rewrite H. Qed.

(** *** Captured text never parses to inf or nan *)

Lemma Forall_remove_char (P : ascii -> Prop) c l :
  Forall P l -> Forall P (remove_char c l).
Proof.
  unfold remove_char. induction 1 as [|x l Hx Hl IH]; simpl; [constructor|].
  destruct (negb (Ascii.eqb x c)); [constructor|]; assumption.
Qed.

Lemma Forall_lstrip_by (P : ascii -> Prop) p l :
  Forall P l -> Forall P (lstrip_by p l).
Proof.
  induction 1 as [|x l Hx Hl IH]; simpl; [constructor|].
  destruct (p x); [assumption | now constructor].
Qed.

Lemma Forall_strip_by (P : ascii -> Prop) p l :
  Forall P l -> Forall P (strip_by p l).
Proof.
  intros H. unfold strip_by.
  apply Forall_rev, Forall_lstrip_by, Forall_rev, Forall_lstrip_by, H.
Qed.

Lemma Forall_drop_last (P : ascii -> Prop) l :
  Forall P l -> Forall P (drop_last l).
Proof.
  unfold drop_last. induction 1 as [|x l Hx Hl IH]; simpl; [constructor|].
  destruct l; [constructor | now constructor].
Qed.

Lemma Forall_drop_underscores (P : ascii -> Prop) prev l l' :
  drop_underscores prev l = Some l' -> Forall P l -> Forall P l'.
Proof.
  revert prev l'. induction l as [|c l IH]; intros prev l' H Hall; simpl in H.
  - destruct prev as [p|]; [destruct (Ascii.eqb p "_") eqn:E|].
    + apply Ascii.eqb_eq in E. subst p. discriminate.
    + assert (Some (@nil ascii) = Some l') as H'.
      { rewrite <- H. destruct p as [[] [] [] [] [] [] [] []]; try reflexivity.
        discriminate E. }
      injection H' as <-. constructor.
    + injection H as <-. constructor.
  - inversion Hall as [|? ? Hc Hl]; subst.
    assert (forall o, option_map (cons c) o = Some l' ->
                      (forall t, o = Some t -> Forall P t) -> Forall P l') as Hcons.
    { intros [t|] Ho Ht; [|discriminate]. injection Ho as <-.
      constructor; [assumption | now apply Ht]. }
    destruct (Ascii.eqb c "_").
    + destruct prev as [p|]; [|discriminate].
      destruct (is_digit p); [|discriminate]. eapply IH; eassumption.
    + assert (option_map (cons c) (drop_underscores (Some c) l) = Some l') as H'.
      { destruct prev as [p|]; [|exact H].
        destruct (Ascii.eqb p "_") eqn:E.
        - apply Ascii.eqb_eq in E. subst p. destruct (is_digit c); [exact H | discriminate].
        - destruct p as [[] [] [] [] [] [] [] []]; try exact H. discriminate E. }
      apply (Hcons _ H'). intros t Ht. eapply IH; eassumption.
Qed.

Lemma Forall_read_sign (P : ascii -> Prop) l :
  Forall P l -> Forall P (snd (read_sign l)).
Proof.
  intros H. unfold read_sign. destruct l as [|c l]; [exact H|].
  inversion H; subst.
  destruct c as [[] [] [] [] [] [] [] []]; simpl; assumption.
Qed.

(** No character of a value lower-cases to the first letter of inf or nan. *)
Lemma value_chars_not_letters c :
  value_chars c = true ->
  Ascii.eqb (to_lower c) "i" = false /\ Ascii.eqb (to_lower c) "n" = false.
Proof.
  assert (forallb
            (fun c => implb (value_chars c)
                        (negb (Ascii.eqb (to_lower c) "i")
                         && negb (Ascii.eqb (to_lower c) "n")))
            Regex.all_ascii = true) as H by (vm_compute; reflexivity).
  rewrite forallb_forall in H. intros Hc.
  specialize (H c (RegexFacts.all_ascii_complete c)). rewrite Hc in H. simpl in H.
  apply andb_prop in H as [H1 H2].
  split; [now destruct (Ascii.eqb (to_lower c) "i")
         | now destruct (Ascii.eqb (to_lower c) "n")].
Qed.

Lemma is_word_first w body :
  is_word w body = true ->
  match chars w, body with
  | x :: _, c :: _ => Ascii.eqb (to_lower c) x = true
  | [], [] => True
  | _, _ => False
  end.
Proof.
  unfold is_word, lower. destruct body as [|c body], (chars w) as [|x l]; simpl;
    try discriminate; [trivial|].
  intros H. now apply andb_prop in H as [H _].
Qed.

Lemma py_float_value_chars l :
  Forall (fun c => value_chars c = true) l -> finite_or_none (py_float l).
Proof.
  intros Hl. unfold py_float.
  destruct (drop_underscores None (strip_by is_c_space l)) as [l'|] eqn:E; [|exact I].
  apply (Forall_drop_underscores (fun c => value_chars c = true)) in E;
    [|now apply Forall_strip_by].
  pose proof (Forall_read_sign _ l' E) as Hbody.
  destruct (read_sign l') as [neg body]. simpl in Hbody.
  assert (forall w x rest, chars w = x :: rest ->
                           (x = "i" \/ x = "n")%char -> is_word w body = false) as Hno.
  { intros w x rest Hw Hx. destruct (is_word w body) eqn:Ew; [|reflexivity].
    apply is_word_first in Ew. rewrite Hw in Ew.
    destruct body as [|c body]; [contradiction|].
    inversion Hbody as [|? ? Hc _]; subst.
    apply value_chars_not_letters in Hc as [Hi Hn].
    destruct Hx as [->| ->]; congruence. }
  rewrite (Hno "inf"%string "i"%char (chars "nf")) by (auto; reflexivity).
  rewrite (Hno "infinity"%string "i"%char (chars "nfinity")) by (auto; reflexivity).
  rewrite (Hno "nan"%string "n"%char (chars "an")) by (auto; reflexivity).
  simpl. destruct (read_decimal body); exact I.
Qed.

Lemma finite_or_none_scale mult x :
  finite_or_none x -> finite_or_none (option_map (scale mult) x).
Proof. destruct x as [[]|]; simpl; auto. Qed.

Lemma try_suffixes_value_chars ms v :
  Forall (fun c => value_chars c = true) v -> finite_or_none (try_suffixes ms v).
Proof.
  intros Hv. induction ms as [|[suffix mult] ms IH]; simpl; [exact I|].
  destruct (endswith suffix (upper v)); [|exact IH].
  pose proof (py_float_value_chars _ (Forall_drop_last _ _ Hv)) as H.
  destruct (py_float (drop_last v)) as [x|]; [|exact IH].
  apply (finite_or_none_scale mult (Some x) H).
Qed.

(** A text made of value characters parses to a finite value or to none. *)
Lemma parse_value_chars m :
  Forall (fun c => value_chars c = true) (chars m) ->
  finite_or_none (parse_financial_value m).
Proof.
  intros Hm. unfold parse_financial_value. destruct (String.eqb m ""); [exact I|].
  assert (Forall (fun c => value_chars c = true) (clean m)) as Hv.
  { unfold clean, strip. now apply Forall_strip_by, Forall_remove_char, Forall_remove_char. }
  pose proof (try_suffixes_value_chars multipliers _ Hv) as H.
  destruct (try_suffixes multipliers (clean m)); [exact H|].
  now apply py_float_value_chars.
Qed.

Lemma re_findall_value_chars icase pattern text m :
  reports_value_chars icase pattern = true ->
  In m (re_findall icase pattern text) ->
  finite_or_none (parse_financial_value m).
Proof.
  unfold reports_value_chars, re_findall.
  destruct (compile icase pattern) as [r|]; [|discriminate].
  intros Hr Hm. apply parse_value_chars. eapply RegexFacts.findall_within; eassumption.
Qed.

Lemma source_patterns_compile :
  forallb (fun pattern => is_some (compile true pattern))
    (flat_map snd financial_patterns ++ business_model_patterns) = true
  /\ is_some (compile false "\$?[\d,]+\.?\d*[KMB]?") = true.
Proof. split; vm_compute; reflexivity. Qed.

Lemma financial_patterns_report_value_chars :
  forallb (fun '(_, patterns) => forallb (reports_value_chars true) patterns)
    financial_patterns = true
  /\ reports_value_chars false "\$?[\d,]+\.?\d*[KMB]?" = true.
Proof. split; vm_compute; reflexivity. Qed.

(** Every match of every financial pattern parses to a finite value or
    not at all: the branch of [kept] for inf and nan is never taken. *)
Lemma captured_values_are_finite metric_type patterns pattern text m :
  In (metric_type, patterns) financial_patterns ->
  In pattern patterns ->
  In m (re_findall true pattern text) ->
  finite_or_none (parse_financial_value m).
Proof.
  intros Hin Hp. destruct financial_patterns_report_value_chars as [Hall _].
  rewrite forallb_forall in Hall. specialize (Hall _ Hin). simpl in Hall.
  rewrite forallb_forall in Hall. apply re_findall_value_chars. now apply Hall.
Qed.

Lemma values_of_spec patterns text q :
  In q (values_of patterns text) <->
  exists pattern m,
    In pattern patterns /\ In m (re_findall true pattern text)
    /\ parse_financial_value m = Some (Fin q) /\ ~ (q == 0)%Q.
Proof.
  unfold values_of. rewrite in_flat_map. split.
  - intros (pattern & Hp & Hq). apply in_flat_map in Hq as (m & Hm & Hk).
    apply kept_spec in Hk. exists pattern, m. tauto.
  - intros (pattern & m & Hp & Hm & Hk). exists pattern. split; [assumption|].
    apply in_flat_map. exists m. split; [assumption|]. now apply kept_spec.
Qed.

Lemma fold_step_other f table acc k :
  ~ In k (map fst table) -> fold_left (step f) table acc !! k = acc !! k.
Proof.
  revert acc. induction table as [|[k' ps] table IH]; intros acc Hk; simpl in *.
  - reflexivity.
  - rewrite IH by tauto. destruct (f ps); [reflexivity|].
    apply lookup_insert_ne. intros ->. tauto.
Qed.

Lemma fold_step_lookup f table acc k ps :
  NoDup (map fst table) -> In (k, ps) table ->
  fold_left (step f) table acc !! k =
    match f ps with
    | [] => acc !! k
    | values => Some (np_median values)
    end.
Proof.
  revert acc. induction table as [|[k' ps'] table IH]; intros acc Hnd Hin; simpl in *.
  - contradiction.
  - inversion Hnd as [|? ? Hk' Hnd']; subst. rewrite list_elem_of_In in Hk'.
    destruct Hin as [Heq|Hin].
    + injection Heq as -> ->. rewrite fold_step_other by assumption.
      destruct (f ps); [reflexivity|]. apply lookup_insert_eq.
    + rewrite IH by assumption.
      assert (k <> k') as Hne.
      { intros ->. apply Hk'. apply (in_map fst) in Hin. exact Hin. }
      destruct (f ps); [|reflexivity].
      destruct (f ps'); [reflexivity|]. now apply lookup_insert_ne.
Qed.

Lemma metric_types_distinct : NoDup (map fst financial_patterns).
Proof.
  simpl. repeat (constructor; [rewrite list_elem_of_In; simpl; intuition discriminate|]).
  constructor.
Qed.

Lemma extract_financial_metrics_lookup text metric_type patterns :
  In (metric_type, patterns) financial_patterns ->
  extract_financial_metrics text !! metric_type =
    match values_of patterns text with
    | [] => None
    | values => Some (np_median values)
    end.
Proof.
  intros Hin. unfold extract_financial_metrics.
  rewrite (fold_step_lookup _ _ _ _ patterns metric_types_distinct Hin).
  destruct (values_of patterns text); [apply lookup_empty | reflexivity].
Qed.

(** ** C7 *)

















(** ** C6 *)

(** The three revenue mentions of the spec's example, one per line. *)
Lemma revenue_example mentions :
  Permutation ["revenue: $1M"; "revenue: $3M"; "revenue: $2M"] mentions ->
  holds (extract_financial_metrics (lines mentions) !! "revenue") 2000000.
Proof.
  intros H. apply permutations_Permutation in H.
  vm_compute permutations in H.
  repeat (apply elem_of_cons in H as [->|H]; [vm_compute; reflexivity|]).
  now apply elem_of_nil in H.
Qed.

(** C6, as stated, fails twice.  In ["revenue: $0; revenue: $4M"] both
    mentions parse, and the median of all parsed matches is 2000000.0,
    but the extractor answers 4000000.0.  And the order of the mentions
    counts: the four mentions of 1M, 2M, 5M and 9M, one per line, give
    2000000.0 in this order and 5000000.0 in the opposite order, because
    the pattern for an amount in front of the word captures a second
    time every amount that another mention follows. *)
Lemma median_of_all_parsed_matches_fails :
  (let text := "revenue: $0; revenue: $4M"%string in
   holds (extract_metrics_spec text !! "revenue"%string) 2000000
   /\ holds (extract_financial_metrics text !! "revenue"%string) 4000000
   /\ ~ holds (extract_financial_metrics text !! "revenue"%string) 2000000)
  /\ (let mentions :=
        ["revenue: $1M"; "revenue: $2M"; "revenue: $5M"; "revenue: $9M"]%string in
      holds (extract_financial_metrics (lines mentions) !! "revenue"%string) 2000000
      /\ holds (extract_financial_metrics (lines (rev mentions)) !! "revenue"%string)
           5000000).
Proof.
  split.
  - split; [vm_compute; reflexivity|].
    split; [vm_compute; reflexivity|].
    vm_compute. discriminate.
  - split; vm_compute; reflexivity.
Qed.

Lemma kept_counted ms : flat_map kept ms = omap counted ms.
Proof.
  induction ms as [|m ms IH]; [reflexivity|]. simpl. rewrite IH.
  unfold kept, counted.
  destruct (parse_financial_value m) as [[q| | |]|]; try reflexivity.
  unfold truthy. destruct (Qeq_bool q 0); reflexivity.
Qed.

(** The values that the loops of [extract_financial_metrics] collect are
    the counted values of all the matches, one for one. *)
Lemma values_of_counted patterns text :
  values_of patterns text = counted_values patterns text.
Proof.
  unfold values_of, counted_values, all_matches.
  induction patterns as [|pattern rest IH]; [reflexivity|]. simpl.
  rewrite omap_app, <- IH, kept_counted. reflexivity.
Qed.

(** C6, amended.  For every metric type of the pattern table and every
    text, the values that count are those of all the matches of all the
    patterns of the type, each match with the number it parses to when
    that is finite and not zero (a mention that several patterns capture
    counts once for each).  The metric is in the output exactly when
    there is such a value, and it is then their median, the one number
    that is.  For the text with the three mentions "revenue: $1M",
    "revenue: $3M", "revenue: $2M", in any order, revenue is 2000000.0. *)
Theorem median_of_nonzero_matches text metric_type patterns :
  In (metric_type, patterns) financial_patterns ->
  match extract_financial_metrics text !! metric_type with
  | Some q =>
      median (counted_values patterns text) q
      /\ forall q', median (counted_values patterns text) q' -> (q' == q)%Q
  | None => counted_values patterns text = []
  end
  /\ (forall mentions,
        Permutation ["revenue: $1M"; "revenue: $3M"; "revenue: $2M"]%string mentions ->
        holds (extract_financial_metrics (lines mentions) !! "revenue"%string) 2000000).
Proof.
  intros Hin. split; [|apply revenue_example].
  rewrite (extract_financial_metrics_lookup _ _ _ Hin), values_of_counted.
  destruct (counted_values patterns text) as [|v vs] eqn:E; [reflexivity|].
  assert (Hm : median (v :: vs) (np_median (v :: vs)))
    by (apply MedianFacts.np_median_is_median; discriminate).
  split; [exact Hm|]. intros q' Hq'. exact (MedianFacts.median_unique _ _ _ Hq' Hm).
Qed.

Lemma revenue_entry :
  In ("revenue",
      [ "revenue.*?(\$?[\d,]+\.?\d*[KMB]?)";
        "sales.*?(\$?[\d,]+\.?\d*[KMB]?)";
        "income.*?(\$?[\d,]+\.?\d*[KMB]?)";
        "(\$?[\d,]+\.?\d*[KMB]?)\s*revenue";
        "annual\s+revenue.*?(\$?[\d,]+\.?\d*[KMB]?)" ])
     financial_patterns.
Proof. left. reflexivity. Qed.

(** The amended C6 at the text "revenue: $0; revenue: $4M": the entry is
    the median of the one value that counts. *)
Lemma median_of_nonzero_matches_witness :
  median
    (counted_values
       [ "revenue.*?(\$?[\d,]+\.?\d*[KMB]?)";
         "sales.*?(\$?[\d,]+\.?\d*[KMB]?)";
         "income.*?(\$?[\d,]+\.?\d*[KMB]?)";
         "(\$?[\d,]+\.?\d*[KMB]?)\s*revenue";
         "annual\s+revenue.*?(\$?[\d,]+\.?\d*[KMB]?)" ]%string
       "revenue: $0; revenue: $4M")
    4000000%Q
  /\ extract_financial_metrics "revenue: $0; revenue: $4M" !! "revenue"%string
     = Some 4000000%Q.
Proof.
  assert (E : extract_financial_metrics "revenue: $0; revenue: $4M" !! "revenue"%string
              = Some 4000000%Q) by (vm_compute; reflexivity).
  split; [|exact E].
  pose proof (median_of_nonzero_matches "revenue: $0; revenue: $4M" "revenue"
                [ "revenue.*?(\$?[\d,]+\.?\d*[KMB]?)";
                  "sales.*?(\$?[\d,]+\.?\d*[KMB]?)";
                  "income.*?(\$?[\d,]+\.?\d*[KMB]?)";
                  "(\$?[\d,]+\.?\d*[KMB]?)\s*revenue";
                  "annual\s+revenue.*?(\$?[\d,]+\.?\d*[KMB]?)" ]%string
                revenue_entry) as [H _].
  rewrite E in H. exact (proj1 H).
Defined.

(** ** C9 *)



End ExtractorFacts.

(** ** The predictor *)

Module PredictorFacts.
Import PyDict Predictor.
Local Open Scope Q_scope.

Lemma new_predictor_fitted : fitted new_predictor.
Proof. intros H. discriminate. Qed.

Lemma train_fitted L self :
  probabilities (fit_voting L) -> fitted (train_ensemble_model L self).
Proof. intros H _. exists (fit_scaler L), (fit_voting L). auto. Qed.

Lemma predict_keeps_fitted L self data :
  probabilities (fit_voting L) -> fitted self ->
  fitted (fst (predict_startup_success L self data)).
Proof.
  intros HL Hself. unfold predict_startup_success.
  assert (fitted (if is_trained self then self else train_ensemble_model L self)) as Hf.
  { destruct (is_trained self); [assumption | now apply train_fitted]. }
  destruct (feature_scaler _); [|exact Hf].
  destruct (ensemble_model _); [|exact Hf].
  destruct (categorise _). exact Hf.
Qed.

Lemma load_fitted self path disk disk' loaded :
  fitted self ->
  save_model self path disk = Some disk' ->
  load_model new_predictor path disk' = Some loaded ->
  fitted loaded.
Proof.
  unfold save_model, load_model. intros Hself.
  destruct (is_trained self) eqn:E; [|discriminate].
  intros H. injection H as <-. rewrite lookup_insert_eq.
  intros H. injection H as <-. intros _. exact (Hself E).
Qed.

Lemma geb_true a b : geb a b = true <-> b <= a.
Proof. apply Qle_bool_iff. Qed.

Lemma geb_false a b : geb a b = false <-> a < b.
Proof. apply MedianFacts.leb_false. Qed.

(** The threshold policy, read off the probability. *)
Lemma categorise_spec p :
  (0.7 <= p -> categorise p = ("High Potential", "INVEST")%string)
  /\ (0.4 <= p -> p < 0.7 -> categorise p = ("Medium Potential", "WATCH")%string)
  /\ (p < 0.4 -> categorise p = ("Low Potential", "PASS")%string).
Proof.
  unfold categorise. repeat split.
  - intros H. apply geb_true in H. now rewrite H.
  - intros H1 H2. apply geb_true in H1. apply geb_false in H2. now rewrite H2, H1.
  - intros H. assert (p < 0.7) as H' by lra.
    apply geb_false in H, H'. now rewrite H', H.
Qed.

(** ** C5 *)

(** C5.  For every feature dict, a predictor whose ensemble answers with
    probabilities returns a result (training first when it has to) in
    which 0 <= lower <= probability <= upper <= 1, and whose category and
    recommendation follow the thresholds: at least 0.70 gives "High
    Potential"/INVEST, at least 0.40 gives "Medium Potential"/WATCH,
    anything lower "Low Potential"/PASS.  The only facts used about the
    libraries are that [predict_proba] is a probability and that the
    square root under [np.std] is not negative. *)
Theorem prediction_interval_and_policy L self startup_data :
  (forall x, 0 <= np_sqrt L x) ->
  probabilities (fit_voting L) ->
  fitted self ->
  exists r,
    snd (predict_startup_success L self startup_data) = Some r
    /\ 0 <= fst (confidence_interval r)
    /\ fst (confidence_interval r) <= success_probability r
    /\ success_probability r <= snd (confidence_interval r)
    /\ snd (confidence_interval r) <= 1
    /\ (0.7 <= success_probability r ->
        success_category r = "High Potential"%string
        /\ investment_recommendation r = "INVEST"%string)
    /\ (0.4 <= success_probability r -> success_probability r < 0.7 ->
        success_category r = "Medium Potential"%string
        /\ investment_recommendation r = "WATCH"%string)
    /\ (success_probability r < 0.4 ->
        success_category r = "Low Potential"%string
        /\ investment_recommendation r = "PASS"%string).
Proof.
  intros Hsqrt Hvote Hself.
  assert (fitted (if is_trained self then self else train_ensemble_model L self)
          /\ is_trained (if is_trained self then self else train_ensemble_model L self)
             = true) as [Hfit Htrained].
  { destruct (is_trained self) eqn:E; [auto|].
    split; [now apply train_fitted | reflexivity]. }
  unfold predict_startup_success.
  destruct (Hfit Htrained) as (transform & ensemble & -> & -> & Hp).
  set (X := transform _).
  set (sd := np_std L _).
  assert (0 <= sd) as Hsd by apply Hsqrt.
  pose proof (Hp X) as [Hp0 Hp1].
  pose proof (categorise_spec (ensemble X)) as (Hhigh & Hmid & Hlow).
  destruct (categorise (ensemble X)) as [category recommendation] eqn:Ecat.
  eexists. split; [reflexivity|]. simpl.
  pose proof (Q.le_max_l 0 (ensemble X - 1.96 * sd)).
  pose proof (Q.le_min_l 1 (ensemble X + 1.96 * sd)).
  assert (Qmax 0 (ensemble X - 1.96 * sd) <= ensemble X).
  { apply Q.max_lub; lra. }
  assert (ensemble X <= Qmin 1 (ensemble X + 1.96 * sd)).
  { apply Q.min_glb; lra. }
  repeat (split; [assumption|]).
  split; [|split].
  - intros H'. specialize (Hhigh H'). now injection Hhigh as -> ->.
  - intros H1' H2'. specialize (Hmid H1' H2'). now injection Hmid as -> ->.
  - intros H'. specialize (Hlow H'). now injection Hlow as -> ->.
Qed.

Lemma sqrt6_nonneg x : 0 <= Sample.sqrt6 x.
Proof.
  unfold Sample.sqrt6.
  pose proof (Z.sqrt_nonneg (Qnum x * Zpos (Qden x) * 10 ^ 12)) as Ha.
  assert (0 < Zpos (Qden x) * 10 ^ 6)%Z as Hb by lia.
  revert Ha Hb.
  generalize (Z.sqrt (Qnum x * Zpos (Qden x) * 10 ^ 12)) as a.
  generalize (Zpos (Qden x) * 10 ^ 6)%Z as b.
  intros b a Ha Hb. apply Qle_shift_div_l.
  - change 0 with (inject_Z 0). rewrite <- Zlt_Qlt. exact Hb.
  - rewrite Qmult_0_l. change 0 with (inject_Z 0). rewrite <- Zle_Qle. exact Ha.
Qed.

Lemma clamp_probability x : 0 <= Sample.clamp x <= 1.
Proof.
  unfold Sample.clamp. split.
  - apply Q.le_max_l.
  - apply Q.max_lub; [lra | apply Q.le_min_l].
Qed.

Lemma sample_voting_probabilities : probabilities Sample.voting.
Proof.
  intros row. unfold Sample.voting, Sample.forest, Sample.boosting, Sample.ada.
  pose proof (clamp_probability (nth 16 row 0)).
  pose proof (clamp_probability (nth 19 row 0)).
  pose proof (clamp_probability (nth 14 row 0)).
  split.
  - apply Qle_shift_div_l; lra.
  - apply Qle_shift_div_r; lra.
Qed.

(** C5 on the sample library, an untrained predictor and the dict
    [{'competitive_advantage': 0.9}]. *)
Lemma prediction_interval_and_policy_witness :
  exists r,
    snd (predict_startup_success Sample.library new_predictor
           {[ "competitive_advantage"%string := VNum 0.9 ]}) = Some r
    /\ 0 <= fst (confidence_interval r)
    /\ fst (confidence_interval r) <= success_probability r
    /\ success_probability r <= snd (confidence_interval r)
    /\ snd (confidence_interval r) <= 1
    /\ (0.7 <= success_probability r ->
        success_category r = "High Potential"%string
        /\ investment_recommendation r = "INVEST"%string)
    /\ (0.4 <= success_probability r -> success_probability r < 0.7 ->
        success_category r = "Medium Potential"%string
        /\ investment_recommendation r = "WATCH"%string)
    /\ (success_probability r < 0.4 ->
        success_category r = "Low Potential"%string
        /\ investment_recommendation r = "PASS"%string).
Proof.
  apply (prediction_interval_and_policy Sample.library new_predictor).
  - exact sqrt6_nonneg.
  - exact sample_voting_probabilities.
  - exact new_predictor_fitted.
Defined.

(** ** C1 *)



(** C1 fails on the code: on the empty feature dict, where every field
    takes its default, the predictor trains, returns a result, and the
    risk score in it is 3800, not a number up to 100.  The five risk
    fields (0.4, 0.4, 0.3, 0.5, 0.3) are each weighted by 20, which
    already gives 38 out of 100, and the sum is then multiplied by 100
    again. *)
Theorem risk_score_of_defaults L :
  exists r,
    snd (predict_startup_success L new_predictor ∅) = Some r
    /\ risk_score r == 3800
    /\ ~ risk_score r <= 100
    /\ in_range (extract_features_from_data ∅).
Proof.
  unfold predict_startup_success.
  change (is_trained new_predictor) with false. cbv iota.
  cbn [train_ensemble_model feature_scaler ensemble_model].
  destruct (categorise _) as [category recommendation].
  eexists. split; [reflexivity|]. cbn [risk_score].
  split; [vm_compute; reflexivity|].
  split; [vm_compute; intros H; apply H; reflexivity|].
  constructor; unfold unit; vm_compute; try split; intros H; discriminate H.
Qed.

(** ** Saving and loading *)

(** Loading what was saved gives a predictor that predicts what the
    saved one predicts. *)
Lemma load_saved L self path disk disk' data :
  save_model self path disk = Some disk' ->
  exists loaded,
    load_model new_predictor path disk' = Some loaded
    /\ snd (predict_startup_success L loaded data)
       = snd (predict_startup_success L self data).
Proof.
  unfold save_model, load_model. destruct (is_trained self) eqn:E; [|discriminate].
  intros H. injection H as <-. rewrite lookup_insert_eq.
  eexists. split; [reflexivity|].
  unfold predict_startup_success.
  cbn [is_trained feature_scaler ensemble_model models feature_columns model_version
       saved_ensemble_model saved_individual_models saved_feature_scaler
       saved_feature_columns saved_model_version].
  rewrite E.
  destruct (feature_scaler self); [|reflexivity].
  destruct (ensemble_model self); [|reflexivity].
  destruct (categorise _). reflexivity.
Qed.

End PredictorFacts.

(** ** The orchestrator *)

Module PipelineFacts.
Import PyDict Pipeline Wording.
Local Open Scope Q_scope.

Lemma set_other key k v (d : gmap string pyval) :
  key <> k -> set key v d !! k = d !! k.
Proof. intros H. unfold set. now apply lookup_insert_ne. Qed.

Lemma if_q_other x f (d : gmap string pyval) k :
  (forall q d', f q d' !! k = d' !! k) -> if_q x f d !! k = d !! k.
Proof. intros H. unfold if_q. destruct x; [destruct (Extractor.truthy_q _)|]; auto. Qed.

Lemma if_z_other x f (d : gmap string pyval) k :
  (forall z d', f z d' !! k = d' !! k) -> if_z x f d !! k = d !! k.
Proof. intros H. unfold if_z. destruct x; [destruct (Extractor.truthy_z _)|]; auto. Qed.

Ltac other_key :=
  repeat first
    [ rewrite set_other by discriminate
    | rewrite if_q_other by (intros; other_key; reflexivity)
    | rewrite if_z_other by (intros; other_key; reflexivity) ].

(** The features derived from a PDF never include the identity keys. *)
Lemma convert_identity_keys d k :
  In k ["company_name"; "industry"; "description"]%string ->
  convert_pdf_to_ml_features d !! k = None.
Proof.
  intros [<-|[<-|[<-|[]]]]; unfold convert_pdf_to_ml_features;
    other_key;
    (destruct (Extractor.business_model d) as [m|];
     [destruct (Extractor.truthy_s (Some m))|]);
    other_key; apply lookup_empty.
Qed.

Lemma basic_information_company_name inp :
  basic_information inp !! "company_name"%string = Some (VStr (company_name inp)).
Proof. unfold basic_information. other_key. apply lookup_insert_eq. Qed.

Lemma basic_information_industry inp :
  basic_information inp !! "industry"%string
  = Some (VStr (or_default (industry inp) "Technology")).
Proof. unfold basic_information. other_key. apply lookup_insert_eq. Qed.

Lemma basic_information_description inp :
  basic_information inp !! "description"%string
  = Some (VStr (or_default (description inp) "")).
Proof. unfold basic_information. apply lookup_insert_eq. Qed.

Lemma update_lookup_new (d other : gmap string pyval) k v :
  other !! k = Some v -> update d other !! k = Some v.
Proof. intros H. unfold update. now apply lookup_union_Some_l. Qed.

Lemma update_lookup_old (d other : gmap string pyval) k :
  other !! k = None -> update d other !! k = d !! k.
Proof. intros H. unfold update. now apply lookup_union_r. Qed.

Lemma deref_update_at h r other :
  deref (update_at h r other) r = update (deref h r) other.
Proof. unfold update_at, deref at 1. now rewrite lookup_insert_eq. Qed.

Lemma update_at_twice h r a b :
  update_at (update_at h r a) r b = <[r := update (update (deref h r) a) b]> h.
Proof.
  unfold update_at at 1. rewrite deref_update_at.
  unfold update_at. apply insert_insert_eq.
Qed.

(** A dict that is truthy is an object of the store. *)
Lemma truthy_dict_in_store h r :
  truthy_dict (deref h r) = true -> exists d, h !! r = Some d.
Proof.
  unfold truthy_dict, deref. destruct (h !! r) as [d|]; [eauto|].
  simpl. rewrite map_size_empty. discriminate.
Qed.

(** The store after [analyze_startup] is the store after its first part:
    steps 2 to 4 do not touch it. *)
Lemma analyze_startup_store W P h inp :
  snd (fst (analyze_startup W P h inp)) = snd (fst (fst (gather_features W h inp))).
Proof.
  unfold analyze_startup, StartupData.
  destruct (gather_features W h inp) as [[[r h'] pdf] used].
  destruct (use_ai_agents inp && agents_available W);
    destruct (use_ml_prediction inp);
    try destruct (run_ml_prediction W P (deref h' r));
    destruct (combine_analysis_results _ _ _); reflexivity.
Qed.

(** The features that step 1 merges: those of the PDF when it runs. *)
Lemma gather_features_store W h inp :
  let '(r, h1) := working_dict h (manual_data inp) in
  fst (fst (gather_features W h inp)) =
    (r,
     match pdf_step inp with
     | Some path =>
         update_at (update_at h1 r (basic_information inp)) r
           (snd (extract_features_from_pdf W path))
     | None => update_at h1 r (basic_information inp)
     end).
Proof.
  unfold gather_features. destruct (working_dict h (manual_data inp)) as [r h1].
  destruct (pdf_step inp) as [path|]; [|reflexivity].
  destruct (extract_features_from_pdf W path). reflexivity.
Qed.

(** Whatever the dict held before, after step 1 every key that the PDF
    features define carries the PDF's value. *)
Lemma pdf_features_win W h inp path k v :
  pdf_step inp = Some path ->
  snd (extract_features_from_pdf W path) !! k = Some v ->
  let '(r, h', _, _) := gather_features W h inp in
  deref h' r !! k = Some v.
Proof.
  intros Hstep Hk. pose proof (gather_features_store W h inp) as Hg.
  destruct (working_dict h (manual_data inp)) as [r h1].
  destruct (gather_features W h inp) as [[[r' h'] pdf] used]. simpl in Hg.
  rewrite Hstep in Hg. injection Hg as -> ->.
  rewrite deref_update_at. now apply update_lookup_new.
Qed.

(** ** The feature dict holds numbers *)

Lemma numeric_set_num k q d :
  numeric_outside_text_keys d -> numeric_outside_text_keys (set k (VNum q) d).
Proof.
  intros Hd k' s. unfold set. rewrite lookup_insert.
  destruct (decide (k = k')); [discriminate | apply Hd].
Qed.

Lemma numeric_set_text k s d :
  In k text_keys ->
  numeric_outside_text_keys d -> numeric_outside_text_keys (set k (VStr s) d).
Proof.
  intros Hk Hd k' s'. unfold set. rewrite lookup_insert.
  destruct (decide (k = k')) as [<-|]; [auto | apply Hd].
Qed.

Lemma numeric_if_q x f d :
  (forall q d', numeric_outside_text_keys d' -> numeric_outside_text_keys (f q d')) ->
  numeric_outside_text_keys d -> numeric_outside_text_keys (if_q x f d).
Proof. intros Hf Hd. unfold if_q. destruct x; [destruct (Extractor.truthy_q _)|]; auto. Qed.

Lemma numeric_if_z x f d :
  (forall z d', numeric_outside_text_keys d' -> numeric_outside_text_keys (f z d')) ->
  numeric_outside_text_keys d -> numeric_outside_text_keys (if_z x f d).
Proof. intros Hf Hd. unfold if_z. destruct x; [destruct (Extractor.truthy_z _)|]; auto. Qed.

Lemma numeric_empty : numeric_outside_text_keys ∅.
Proof. intros k s H. rewrite lookup_empty in H. discriminate. Qed.

Lemma numeric_update d other :
  numeric_outside_text_keys d -> numeric_outside_text_keys other ->
  numeric_outside_text_keys (update d other).
Proof.
  intros Hd Ho k s H. unfold update in H.
  apply lookup_union_Some_raw in H as [H|[_ H]]; eauto.
Qed.

Ltac numeric :=
  repeat first
    [ assumption
    | apply numeric_empty
    | apply numeric_set_num
    | apply numeric_set_text; [simpl; tauto|]
    | apply numeric_if_q; [intros; numeric|]
    | apply numeric_if_z; [intros; numeric|] ].

Lemma convert_numeric d : numeric_outside_text_keys (convert_pdf_to_ml_features d).
Proof.
  unfold convert_pdf_to_ml_features.
  do 3 apply numeric_set_num.
  destruct (Extractor.business_model d) as [m|];
    [destruct (Extractor.truthy_s (Some m))|]; numeric.
Qed.

Lemma basic_information_numeric input :
  numeric_outside_text_keys (basic_information input).
Proof. unfold basic_information. numeric. Qed.

(** When the caller's [manual_data] holds numbers only, the dict on which
    the prediction runs holds numbers under every key but the four text
    keys, none of which is read as a number. *)
Lemma gathered_features_numeric W h input :
  (forall r, manual_data input = Some r -> numeric_outside_text_keys (deref h r)) ->
  let '(ml_features, h', _, _) := gather_features W h input in
  numeric_outside_text_keys (deref h' ml_features).
Proof.
  intros Hmanual. pose proof (gather_features_store W h input) as Hg.
  assert (let '(r, h1) := working_dict h (manual_data input) in
          numeric_outside_text_keys (deref h1 r)) as Hw.
  { unfold working_dict, new_dict.
    destruct (manual_data input) as [r|];
      [destruct (truthy_dict (deref h r)); [now apply Hmanual|]|];
      unfold deref; rewrite lookup_insert_eq; apply numeric_empty. }
  destruct (working_dict h (manual_data input)) as [r h1].
  destruct (gather_features W h input) as [[[r' h'] pdf] used]. simpl in Hg.
  injection Hg as -> ->.
  destruct (pdf_step input) as [path|]; rewrite !deref_update_at.
  - apply numeric_update; [apply numeric_update|];
      [assumption | apply basic_information_numeric | apply convert_numeric].
  - apply numeric_update; [assumption | apply basic_information_numeric].
Qed.

(** ** C2 *)

(** When the prediction step is enabled, the prediction in the result is
    the one computed on the working dict as step 1 left it. *)
Lemma analyze_startup_predicts_on_gathered W P h input :
  use_ml_prediction input = true ->
  let '(ml_features, h', _, _) := gather_features W h input in
  ml_prediction (snd (analyze_startup W P h input))
  = snd (run_ml_prediction W P (deref h' ml_features)).
Proof.
  intros Hml. unfold analyze_startup, StartupData.
  destruct (gather_features W h input) as [[[ml_features h'] pdf] used].
  rewrite Hml.
  destruct (use_ai_agents input && agents_available W);
    destruct (run_ml_prediction W P (deref h' ml_features)) as [P' ml];
    destruct (combine_analysis_results _ _ _); reflexivity.
Qed.

(** C2 fails on the code.  The caller supplies [{'revenue': 500000}] and
    the PDF reads "Annual revenue: $2M. We are raising $5M."; the working
    dict is the caller's own dict, and the dict on which the prediction is
    run holds 2000000.0 under ['revenue'], the extracted value, not the
    manual one: [update] with the PDF features comes last and replaces
    what [manual_data] held. *)
Theorem extracted_revenue_replaces_manual :
  let input := Sample.request "Acme" (Some "deck.pdf"%string) (Some 0%nat) in
  let '(ml_features, h, _, used) :=
    gather_features Sample.world Sample.manual_revenue input in
  holds_number (deref Sample.manual_revenue 0 !! "revenue"%string) 500000
  /\ holds_number
       (snd (extract_features_from_pdf Sample.world "deck.pdf") !! "revenue"%string)
       2000000
  /\ ml_features = 0%nat
  /\ holds_number (deref h ml_features !! "revenue"%string) 2000000
  /\ ~ holds_number (deref h ml_features !! "revenue"%string) 500000
  /\ used = ["PDF_EXTRACTION"%string]
  /\ ml_prediction (snd (analyze_startup Sample.world new_pipeline
                           Sample.manual_revenue input))
     = snd (run_ml_prediction Sample.world new_pipeline (deref h ml_features)).
Proof.
  intros input.
  pose proof (analyze_startup_predicts_on_gathered Sample.world new_pipeline
                Sample.manual_revenue input eq_refl) as Hml.
  destruct (gather_features Sample.world Sample.manual_revenue input)
    as [[[ml_features h] pdf] used] eqn:E.
  split; [vm_compute; reflexivity|].
  split; [vm_compute; reflexivity|].
  assert (ml_features = 0%nat /\ used = ["PDF_EXTRACTION"%string]
          /\ holds_number (deref h ml_features !! "revenue"%string) 2000000
          /\ ~ holds_number (deref h ml_features !! "revenue"%string) 500000)
    as (H1 & H2 & H3 & H4).
  { replace ml_features
      with (fst (fst (fst (gather_features Sample.world Sample.manual_revenue input))))
      by now rewrite E.
    replace used
      with (snd (gather_features Sample.world Sample.manual_revenue input))
      by now rewrite E.
    replace h
      with (snd (fst (fst (gather_features Sample.world Sample.manual_revenue input))))
      by now rewrite E.
    clear. vm_compute.
    split; [reflexivity|]. split; [reflexivity|]. split; [reflexivity | discriminate]. }
  repeat (split; [assumption|]). exact Hml.
Qed.

(** ** C3 *)

Lemma agent_analysis_has_no_confidence W name industry description a :
  run_agent_analysis W name industry description = Some a ->
  a !! "confidence"%string = None.
Proof.
  unfold run_agent_analysis. destruct (agent_orchestrator W) as [analyze|]; [|discriminate].
  destruct (analyze name industry description); [|discriminate].
  intros H. injection H as <-. other_key. apply lookup_empty.
Qed.

(** With extracted data [d], whatever the agents answered, the overall
    confidence is the mean of the model's confidence and [d]'s, and the
    completeness is [d]'s. *)
Lemma combine_with_pdf W ml d name industry description :
  let '(overall, completeness) :=
    combine_analysis_results ml (Some d)
      (run_agent_analysis W name industry description) in
  overall == (Predictor.model_confidence ml + Extractor.extraction_confidence d) / 2
  /\ completeness == Extractor.completeness_score d.
Proof.
  unfold combine_analysis_results.
  destruct (run_agent_analysis W name industry description) as [a|] eqn:Ea.
  - apply agent_analysis_has_no_confidence in Ea. rewrite Ea.
    destruct (truthy_dict a); unfold Extractor.np_mean; simpl; split; field.
  - unfold Extractor.np_mean; simpl; split; field.
Qed.

Lemma combine_with_pdf_no_agents ml d :
  let '(overall, completeness) := combine_analysis_results ml (Some d) None in
  overall == (Predictor.model_confidence ml + Extractor.extraction_confidence d) / 2
  /\ completeness == Extractor.completeness_score d.
Proof. unfold combine_analysis_results, Extractor.np_mean; simpl; split; field. Qed.

(** A PDF without text gives the empty structure. *)
Lemma unreadable_pdf_data W path :
  Extractor.extract_text_from_pdf (readers W) path = ""%string ->
  fst (extract_features_from_pdf W path) = Extractor.empty_data.
Proof.
  intros H. unfold extract_features_from_pdf, Extractor.extract_financial_data.
  now rewrite H.
Qed.

(** C3, as stated, fails: for the request of the spec's example, on a
    path that no reader can open, the extraction step is recorded and the
    overall confidence is not the confidence of the model. *)
Lemma unreadable_pdf_not_resilient :
  let input := Sample.request "Acme" (Some "/does/not/exist"%string) None in
  let r := snd (analyze_startup Sample.world new_pipeline ∅ input) in
  ~ resilient r
  /\ In "PDF_EXTRACTION"%string (components_used r)
  /\ ~ overall_confidence r == Predictor.model_confidence (ml_prediction r).
Proof.
  vm_compute. split; [|split].
  - intros (_ & H & _). apply H. now left.
  - now left.
  - discriminate.
Qed.

(** C3, amended.  When step 1 runs on a path from which no text can be
    read (the file is missing, or both readers fail or find nothing),
    [analyze_startup] still returns a complete result, with the
    extractor's empty structure as [pdf_data]; "PDF_EXTRACTION" is
    recorded in [components_used]; the overall confidence is the mean of
    the model's confidence and the extraction confidence 0.0, that is
    half the model's confidence; and the data completeness is 0.0. *)
Theorem unreadable_pdf_is_recorded W P h input path :
  pdf_step input = Some path ->
  Extractor.extract_text_from_pdf (readers W) path = ""%string ->
  let r := snd (analyze_startup W P h input) in
  pdf_data r = Some Extractor.empty_data
  /\ In "PDF_EXTRACTION"%string (components_used r)
  /\ overall_confidence r == Predictor.model_confidence (ml_prediction r) / 2
  /\ data_completeness r == 0
  /\ result_company_name r = company_name input.
Proof.
  intros Hstep Htext. unfold analyze_startup, gather_features, StartupData.
  destruct (working_dict h (manual_data input)) as [ml_features h1].
  rewrite Hstep.
  pose proof (unreadable_pdf_data W path Htext) as Hdata.
  destruct (extract_features_from_pdf W path) as [data pdf_features].
  simpl in Hdata. subst data.
  set (h2 := update_at _ ml_features pdf_features).
  destruct (use_ai_agents input && agents_available W).
  - destruct (use_ml_prediction input).
    + destruct (run_ml_prediction W P (deref h2 ml_features)) as [P' ml].
      pose proof (combine_with_pdf_no_agents ml Extractor.empty_data) as Hc.
      destruct (combine_analysis_results _ _ _) as [overall completeness].
      destruct Hc as [Ho Hk]. simpl in *.
      split; [reflexivity|]. split; [now left|].
      split; [rewrite Ho; field|]. split; [exact Hk | reflexivity].
    + pose proof (combine_with_pdf_no_agents
                    (skipped_prediction P (clock_now W) (size (deref h2 ml_features)))
                    Extractor.empty_data) as Hc.
      destruct (combine_analysis_results _ _ _) as [overall completeness].
      destruct Hc as [Ho Hk]. simpl in *.
      split; [reflexivity|]. split; [now left|].
      split; [rewrite Ho; field|]. split; [exact Hk | reflexivity].
  - destruct (use_ml_prediction input).
    + destruct (run_ml_prediction W P (deref h2 ml_features)) as [P' ml].
      pose proof (combine_with_pdf_no_agents ml Extractor.empty_data) as Hc.
      destruct (combine_analysis_results _ _ _) as [overall completeness].
      destruct Hc as [Ho Hk]. simpl in *.
      split; [reflexivity|]. split; [now left|].
      split; [rewrite Ho; field|]. split; [exact Hk | reflexivity].
    + pose proof (combine_with_pdf_no_agents
                    (skipped_prediction P (clock_now W) (size (deref h2 ml_features)))
                    Extractor.empty_data) as Hc.
      destruct (combine_analysis_results _ _ _) as [overall completeness].
      destruct Hc as [Ho Hk]. simpl in *.
      split; [reflexivity|]. split; [now left|].
      split; [rewrite Ho; field|]. split; [exact Hk | reflexivity].
Qed.

(** The amended C3 on the request of the spec's example. *)
Lemma unreadable_pdf_is_recorded_witness :
  let input := Sample.request "Acme" (Some "/does/not/exist"%string) None in
  let r := snd (analyze_startup Sample.world new_pipeline ∅ input) in
  pdf_data r = Some Extractor.empty_data
  /\ In "PDF_EXTRACTION"%string (components_used r)
  /\ overall_confidence r == Predictor.model_confidence (ml_prediction r) / 2
  /\ data_completeness r == 0
  /\ result_company_name r = "Acme"%string.
Proof.
  apply (unreadable_pdf_is_recorded Sample.world new_pipeline ∅
           (Sample.request "Acme" (Some "/does/not/exist"%string) None)
           "/does/not/exist"); reflexivity.
Defined.

(** ** C4 *)

(** The identity fields are in the working dict after step 1, whatever the
    PDF contributed. *)
Lemma gather_features_identity W h input :
  let '(ml_features, h', _, _) := gather_features W h input in
  deref h' ml_features !! "company_name"%string = Some (VStr (company_name input))
  /\ deref h' ml_features !! "industry"%string
     = Some (VStr (or_default (industry input) "Technology"))
  /\ deref h' ml_features !! "description"%string
     = Some (VStr (or_default (description input) "")).
Proof.
  pose proof (gather_features_store W h input) as Hg.
  destruct (working_dict h (manual_data input)) as [r h1].
  destruct (gather_features W h input) as [[[r' h'] pdf] used]. simpl in Hg.
  injection Hg as -> ->.
  destruct (pdf_step input) as [path|].
  - rewrite !deref_update_at.
    repeat split;
      (rewrite (update_lookup_old (update _ _) (snd (extract_features_from_pdf W path)))
         by (apply convert_identity_keys; simpl; tauto));
      apply update_lookup_new;
      [ apply basic_information_company_name
      | apply basic_information_industry
      | apply basic_information_description ].
  - rewrite !deref_update_at.
    repeat split; apply update_lookup_new;
      [ apply basic_information_company_name
      | apply basic_information_industry
      | apply basic_information_description ].
Qed.

(** C4, as stated, fails: a request with the empty company name is
    analysed like any other.  The prediction runs on the defaults, the
    result carries the empty name, and the pipeline counts one more
    analysis. *)
Lemma empty_company_name_is_analysed :
  let input := Sample.request "" None None in
  let '(P, h, r) := analyze_startup Sample.world new_pipeline ∅ input in
  result_company_name r = ""%string
  /\ components_used r = ["ML_PREDICTION"%string]
  /\ Predictor.investment_recommendation (ml_prediction r) = "WATCH"%string
  /\ deref h 0 !! "company_name"%string = Some (VStr "")
  /\ analysis_count P = 1%nat.
Proof. vm_compute. repeat split; reflexivity. Qed.

(** C4, amended.  [analyze_startup] does not validate the company name:
    for a request whose [company_name] is empty it proceeds as for any
    other request and returns a result, with the empty name in the result
    and in the feature dict, the prediction step recorded when it is
    enabled, and the analysis counted. *)
Theorem empty_company_name_is_not_refused W P h input :
  company_name input = ""%string ->
  let '(P', h', r) := analyze_startup W P h input in
  let '(ml_features, hf, _, _) := gather_features W h input in
  result_company_name r = ""%string
  /\ h' = hf
  /\ deref h' ml_features !! "company_name"%string = Some (VStr "")
  /\ (use_ml_prediction input = true -> In "ML_PREDICTION"%string (components_used r))
  /\ analysis_count P' = S (analysis_count P).
Proof.
  intros Hname. pose proof (gather_features_identity W h input) as Hid.
  unfold analyze_startup, StartupData.
  destruct (gather_features W h input) as [[[ml_features hf] pdf] used].
  destruct Hid as (Hid & _). rewrite Hname in Hid.
  destruct (use_ai_agents input && agents_available W);
    destruct (use_ml_prediction input);
    try destruct (run_ml_prediction W P (deref hf ml_features)) as [P1 ml] eqn:Eml;
    destruct (combine_analysis_results _ _ _) as [overall completeness];
    cbn [result_company_name components_used analysis_count];
    (split; [exact Hname|]); (split; [reflexivity|]); (split; [exact Hid|]);
    (split; [|try reflexivity]);
    try (intros _; rewrite !in_app_iff; simpl; tauto);
    try discriminate.
  - unfold run_ml_prediction in Eml.
    destruct (Predictor.predict_startup_success _ _ _) as [p [o|]];
      injection Eml as <- _; reflexivity.
  - unfold run_ml_prediction in Eml.
    destruct (Predictor.predict_startup_success _ _ _) as [p [o|]];
      injection Eml as <- _; reflexivity.
Qed.

(** The amended C4 on the sample world. *)
Lemma empty_company_name_is_not_refused_witness :
  let '(P', h', r) :=
    analyze_startup Sample.world new_pipeline ∅ (Sample.request "" None None) in
  let '(ml_features, hf, _, _) :=
    gather_features Sample.world ∅ (Sample.request "" None None) in
  result_company_name r = ""%string
  /\ h' = hf
  /\ deref h' ml_features !! "company_name"%string = Some (VStr "")
  /\ (Pipeline.use_ml_prediction (Sample.request "" None None) = true ->
      In "ML_PREDICTION"%string (components_used r))
  /\ analysis_count P' = S (analysis_count new_pipeline).
Proof.
  apply (empty_company_name_is_not_refused Sample.world new_pipeline ∅
           (Sample.request "" None None)).
  reflexivity.
Defined.

(** ** C10 *)

(** C10, as stated, fails: a caller's dict that is empty is not [None],
    yet it is not the dict the pipeline works on.  After the call it is
    still empty; the identity fields and the PDF features went into a new
    dict. *)
Lemma empty_manual_data_is_not_mutated :
  let input := Sample.request "Acme" (Some "deck.pdf"%string) (Some 0%nat) in
  let h := snd (fst (analyze_startup Sample.world new_pipeline Sample.manual_empty input)) in
  Pipeline.manual_data input = Some 0%nat
  /\ Sample.manual_empty !! 0%nat = Some ∅
  /\ deref h 0 !! "company_name"%string = None
  /\ size (deref h 0) = 0%nat
  /\ deref h 1 !! "company_name"%string = Some (VStr "Acme").
Proof. vm_compute. repeat split; reflexivity. Qed.

(** C10, amended.  When [manual_data] is a dict that is not empty, the
    call works on that very object and no other: afterwards the store
    differs from the one before only at that object, which holds what it
    held, overwritten first by the three identity fields and then, when
    step 1 ran, by every feature derived from the PDF; no object was
    added to the store, so no copy was made. *)
Theorem nonempty_manual_data_is_mutated W P h input r :
  manual_data input = Some r ->
  truthy_dict (deref h r) = true ->
  let h' := snd (fst (analyze_startup W P h input)) in
  let pdf_features :=
    match pdf_step input with
    | Some path => snd (extract_features_from_pdf W path)
    | None => ∅
    end in
  fst (fst (fst (gather_features W h input))) = r
  /\ h' = <[r := update (update (deref h r) (basic_information input)) pdf_features]> h
  /\ dom h' = dom h
  /\ deref h' r !! "company_name"%string = Some (VStr (company_name input))
  /\ deref h' r !! "industry"%string
     = Some (VStr (or_default (industry input) "Technology"))
  /\ deref h' r !! "description"%string
     = Some (VStr (or_default (description input) ""))
  /\ (forall k v, pdf_features !! k = Some v -> deref h' r !! k = Some v).
Proof.
  intros Hmanual Htruthy. cbv zeta.
  rewrite analyze_startup_store.
  pose proof (gather_features_store W h input) as Hg.
  pose proof (gather_features_identity W h input) as Hid.
  unfold working_dict in Hg. rewrite Hmanual, Htruthy in Hg.
  destruct (gather_features W h input) as [[[r' h'] pdf] used]. simpl in Hg.
  injection Hg as -> Hh. cbn [fst snd].
  assert (h' = <[r := update (update (deref h r) (basic_information input))
                         match pdf_step input with
                         | Some path => snd (extract_features_from_pdf W path)
                         | None => ∅
                         end]> h) as Hstore.
  { rewrite Hh. destruct (pdf_step input) as [path|].
    - apply update_at_twice.
    - unfold update_at.
      replace (update (update (deref h r) (basic_information input)) ∅)
        with (update (deref h r) (basic_information input)); [reflexivity|].
      unfold update. apply map_eq. intros k.
      now rewrite (lookup_union_r ∅) by apply lookup_empty. }
  split; [reflexivity|]. split; [exact Hstore|].
  split.
  { rewrite Hstore. apply dom_insert_lookup_L.
    destruct (truthy_dict_in_store h r Htruthy) as [d ->]. eauto. }
  destruct Hid as (H1 & H2 & H3).
  repeat (split; [assumption|]).
  intros k v Hk. rewrite Hstore. unfold deref at 1. rewrite lookup_insert_eq.
  simpl. now apply update_lookup_new.
Qed.

(** The amended C10 on the caller's dict [{'revenue': 500000}]. *)
Lemma nonempty_manual_data_is_mutated_witness :
  let input := Sample.request "Acme" (Some "deck.pdf"%string) (Some 0%nat) in
  let h' := snd (fst (analyze_startup Sample.world new_pipeline Sample.manual_revenue input)) in
  dom h' = dom Sample.manual_revenue
  /\ deref h' 0 !! "company_name"%string = Some (VStr "Acme").
Proof.
  destruct (nonempty_manual_data_is_mutated Sample.world new_pipeline
              Sample.manual_revenue
              (Sample.request "Acme" (Some "deck.pdf"%string) (Some 0%nat)) 0%nat
              eq_refl eq_refl)
    as (_ & _ & Hdom & Hname & _).
  split; [exact Hdom | exact Hname].
Defined.

End PipelineFacts.

(** * Further properties *)

(** ** More on the numeric parser *)

Module ParserMore.
Import PyStr PyFloat Pattern Extractor Wording.

Lemma span_spec p l a b :
  span p l = (a, b) -> l = a ++ b /\ Forall (fun c => p c = true) a.
Proof.
  revert a b. induction l as [|c l IH]; simpl; intros a b H.
  - injection H as <- <-. split; [reflexivity | constructor].
  - destruct (p c) eqn:Hp.
    + destruct (span p l) as [a' b']. injection H as <- <-.
      destruct (IH a' b' eq_refl) as [-> Ha]. split; [reflexivity | now constructor].
    + injection H as <- <-. split; [reflexivity | constructor].
Qed.

(** The two matches on literal characters, as tests. *)
Lemma read_sign_eq l :
  read_sign l =
    match l with
    | x :: l' =>
        if Ascii.eqb x "-" then (true, l')
        else if Ascii.eqb x "+" then (false, l') else (false, l)
    | [] => (false, [])
    end.
Proof. destruct l as [|[[] [] [] [] [] [] [] []] l]; reflexivity. Qed.

Lemma drop_underscores_nil prev :
  drop_underscores prev [] =
    match prev with
    | Some p => if Ascii.eqb p "_" then None else Some []
    | None => Some []
    end.
Proof. destruct prev as [[[] [] [] [] [] [] [] []]|]; reflexivity. Qed.

Lemma drop_underscores_cons prev c l :
  drop_underscores prev (c :: l) =
    if Ascii.eqb c "_" then
      match prev with
      | Some p => if is_digit p then drop_underscores (Some c) l else None
      | None => None
      end
    else if match prev with Some p => Ascii.eqb p "_" | None => false end then
      if is_digit c then option_map (cons c) (drop_underscores (Some c) l) else None
    else option_map (cons c) (drop_underscores (Some c) l).
Proof.
  simpl. destruct (Ascii.eqb c "_"); [reflexivity|].
  destruct prev as [[[] [] [] [] [] [] [] []]|]; reflexivity.
Qed.

Lemma fraction_eq (A : Type) (r1 : list ascii) (f : list ascii -> A) (d : A) :
  match r1 with
  | "."%char :: r => f r
  | _ => d
  end =
  match r1 with
  | x :: r => if Ascii.eqb x "." then f r else d
  | [] => d
  end.
Proof. destruct r1 as [|[[] [] [] [] [] [] [] []] r]; reflexivity. Qed.

(** *** Dollar signs and commas *)

Lemma remove_char_idem c l : remove_char c (remove_char c l) = remove_char c l.
Proof.
  unfold remove_char. induction l as [|x l IH]; simpl; [reflexivity|].
  destruct (negb (Ascii.eqb x c)) eqn:E; simpl; [rewrite E|]; now rewrite ?IH.
Qed.

Lemma remove_char_comm c d l :
  remove_char c (remove_char d l) = remove_char d (remove_char c l).
Proof.
  unfold remove_char. induction l as [|x l IH]; simpl; [reflexivity|].
  destruct (negb (Ascii.eqb x d)) eqn:Ed, (negb (Ascii.eqb x c)) eqn:Ec; simpl;
    rewrite ?Ed, ?Ec, ?IH; reflexivity.
Qed.

Lemma str_empty l : String.eqb (str l) "" = true -> l = [].
Proof. destruct l; [reflexivity | discriminate]. Qed.

(** X1.  Dollar signs and commas, wherever they stand in the text, do not
    change what [parse_financial_value] answers. *)
Theorem separators_do_not_matter value_str :
  parse_financial_value value_str
  = parse_financial_value
      (str (remove_char "," (remove_char "$" (chars value_str)))).
Proof.
  unfold parse_financial_value.
  assert (clean (str (remove_char "," (remove_char "$" (chars value_str))))
          = clean value_str) as ->.
  { unfold clean. rewrite RegexFacts.chars_str.
    now rewrite (remove_char_comm "$" ","), !remove_char_idem. }
  destruct (String.eqb value_str "") eqn:E.
  - apply String.eqb_eq in E. subst. reflexivity.
  - destruct (String.eqb (str _) "") eqn:E'; [|reflexivity].
    apply str_empty in E'. unfold clean. rewrite E'. reflexivity.
Qed.

(** *** A suffix is never read as part of a plain number *)

Lemma last_error_char_app l c :
  last_error_char l = Some c <-> exists u, l = u ++ [c].
Proof.
  unfold last_error_char. split.
  - intros H. destruct (rev l) as [|x r] eqn:E; [discriminate|].
    injection H as ->. exists (rev r).
    rewrite <- (rev_involutive l), E. reflexivity.
  - intros [u ->]. now rewrite rev_app_distr.
Qed.

Lemma lstrip_by_keeps_last p u c :
  p c = false -> exists u', lstrip_by p (u ++ [c]) = u' ++ [c].
Proof.
  intros Hc. induction u as [|x u IH]; simpl.
  - rewrite Hc. now exists [].
  - destruct (p x); [exact IH | now exists (x :: u)].
Qed.

Lemma strip_by_keeps_last p u c :
  p c = false -> exists u', strip_by p (u ++ [c]) = u' ++ [c].
Proof.
  intros Hc. unfold strip_by.
  destruct (lstrip_by_keeps_last p u c Hc) as [u1 ->].
  rewrite rev_app_distr. simpl. rewrite Hc. exists u1.
  change (c :: rev u1) with ([c] ++ rev u1).
  now rewrite rev_app_distr, rev_involutive.
Qed.

Lemma drop_underscores_keeps_last prev u c l' :
  Ascii.eqb c "_" = false ->
  drop_underscores prev (u ++ [c]) = Some l' -> exists u', l' = u' ++ [c].
Proof.
  intros Hc. revert prev l'. induction u as [|x u IH]; intros prev l'.
  - simpl app. rewrite drop_underscores_cons, Hc, drop_underscores_nil, Hc. simpl.
    destruct (match prev with Some p => Ascii.eqb p "_" | None => false end);
      [destruct (is_digit c)|]; intros H; try discriminate;
      injection H as <-; now exists [].
  - change ((x :: u) ++ [c]) with (x :: (u ++ [c])). rewrite drop_underscores_cons.
    assert (forall o, option_map (cons x) o = Some l' ->
                      (forall t, o = Some t -> exists u', t = u' ++ [c]) ->
                      exists u', l' = u' ++ [c]) as Hcons.
    { intros [t|] Ho Ht; [|discriminate]. injection Ho as <-.
      destruct (Ht t eq_refl) as [u' ->]. now exists (x :: u'). }
    destruct (Ascii.eqb x "_").
    + destruct prev as [p|]; [|discriminate].
      destruct (is_digit p); [apply IH | discriminate].
    + destruct (match prev with Some p => Ascii.eqb p "_" | None => false end);
        [destruct (is_digit x); [|discriminate]|];
        intros H; apply (Hcons _ H); intros t; apply IH.
Qed.

Lemma read_sign_keeps_last u c :
  Ascii.eqb c "-" = false -> Ascii.eqb c "+" = false ->
  exists u', snd (read_sign (u ++ [c])) = u' ++ [c].
Proof.
  intros Hm Hp. rewrite read_sign_eq. destruct u as [|x u]; simpl.
  - rewrite Hm, Hp. now exists [].
  - destruct (Ascii.eqb x "-"); [now exists u|].
    destruct (Ascii.eqb x "+"); [now exists u | now exists (x :: u)].
Qed.

Lemma list_eqb_eq a b : list_eqb a b = true -> a = b.
Proof.
  revert b. induction a as [|x a IH]; intros [|y b]; simpl; try discriminate; auto.
  intros H. apply andb_prop in H as [Hx Hab]. apply Ascii.eqb_eq in Hx.
  now rewrite Hx, (IH b Hab).
Qed.

(** A word that ends in another letter is not spelled by a text ending
    in [c]. *)
Lemma is_word_last w x u c :
  is_word (str (w ++ [x])) (u ++ [c]) = true -> to_lower c = x.
Proof.
  unfold is_word, lower. intros H. apply list_eqb_eq in H.
  rewrite RegexFacts.chars_str, map_app in H. simpl in H.
  apply app_inj_tail in H as [_ H]. exact H.
Qed.

Lemma suffix_of_app (a b u : list ascii) c :
  a ++ b = u ++ [c] -> b <> [] -> exists u', b = u' ++ [c].
Proof.
  intros H Hb. destruct (exists_last Hb) as (b' & y & ->).
  rewrite app_assoc in H. apply app_inj_tail in H as [_ ->]. now exists b'.
Qed.

(** What is known of a character that stands for a multiplier. *)
Lemma suffix_letter c :
  suffix_multiplier c <> None ->
  is_digit c = false /\ is_c_space c = false
  /\ Ascii.eqb c "." = false /\ Ascii.eqb c "_" = false
  /\ Ascii.eqb c "-" = false /\ Ascii.eqb c "+" = false
  /\ to_lower c <> "f"%char /\ to_lower c <> "y"%char /\ to_lower c <> "n"%char.
Proof.
  assert (forallb
            (fun c =>
               implb (is_some (suffix_multiplier c))
                 (negb (is_digit c) && negb (is_c_space c)
                  && negb (Ascii.eqb c ".") && negb (Ascii.eqb c "_")
                  && negb (Ascii.eqb c "-") && negb (Ascii.eqb c "+")
                  && negb (Ascii.eqb (to_lower c) "f")
                  && negb (Ascii.eqb (to_lower c) "y")
                  && negb (Ascii.eqb (to_lower c) "n")))
            Regex.all_ascii = true) as H by (vm_compute; reflexivity).
  rewrite forallb_forall in H. intros Hc.
  specialize (H c (RegexFacts.all_ascii_complete c)).
  destruct (suffix_multiplier c); [|contradiction]. simpl in H.
  repeat (apply andb_prop in H as [H ?]).
  repeat match goal with
         | E : negb _ = true |- _ => apply negb_true_iff in E
         end.
  repeat split; try assumption; intros E; apply Ascii.eqb_neq in E; auto;
    match goal with
    | E' : Ascii.eqb _ _ = false |- _ => apply Ascii.eqb_neq in E'; contradiction
    end.
Qed.

Lemma read_exponent_ends u c :
  is_digit c = false -> Ascii.eqb c "-" = false -> Ascii.eqb c "+" = false ->
  read_exponent (u ++ [c]) = None.
Proof.
  intros Hd Hm Hp. unfold read_exponent.
  destruct u as [|y l']; simpl.
  - destruct (Ascii.eqb (to_lower c) "e"); reflexivity.
  - destruct (Ascii.eqb (to_lower y) "e"); [|reflexivity].
    destruct (read_sign_keeps_last l' c Hm Hp) as [l1 Hl1].
    destruct (read_sign (l' ++ [c])) as [neg body]. simpl in Hl1. subst body.
    destruct (span is_digit (l1 ++ [c])) as [ds rest] eqn:E.
    apply span_spec in E as [E Hds].
    destruct ds as [|d ds]; [reflexivity|].
    destruct rest as [|r rest]; [|reflexivity].
    rewrite app_nil_r in E. rewrite <- E in Hds.
    apply Forall_app in Hds as [_ Hc]. inversion Hc; congruence.
Qed.

Lemma read_decimal_ends u c :
  is_digit c = false -> Ascii.eqb c "." = false ->
  Ascii.eqb c "-" = false -> Ascii.eqb c "+" = false ->
  read_decimal (u ++ [c]) = None.
Proof.
  intros Hd Hdot Hm Hp. unfold read_decimal.
  destruct (span is_digit (u ++ [c])) as [ip r1] eqn:E.
  apply span_spec in E as [E Hip].
  assert (r1 <> []) as Hr1.
  { intros ->. rewrite app_nil_r in E. rewrite <- E in Hip.
    apply Forall_app in Hip as [_ Hc]. inversion Hc; congruence. }
  destruct (suffix_of_app _ _ _ _ (eq_sym E) Hr1) as [u1 ->].
  rewrite fraction_eq.
  assert (forall fp r2, (exists u2, r2 = u2 ++ [c]) ->
            match ip ++ fp with
            | [] => None
            | _ :: _ =>
                match read_exponent r2 with
                | Some e =>
                    Some (inject_Z (digits_val 0 (ip ++ fp))
                          * pow10 (e - Z.of_nat (List.length fp)))%Q
                | None => None
                end
            end = None) as Hend.
  { intros fp r2 [u2 ->]. rewrite (read_exponent_ends u2 c Hd Hm Hp).
    destruct (ip ++ fp); reflexivity. }
  destruct u1 as [|x r]; simpl.
  - rewrite Hdot. apply Hend. now exists [].
  - destruct (Ascii.eqb x ".").
    + destruct (span is_digit (r ++ [c])) as [fp r2] eqn:E2.
      apply span_spec in E2 as [E2 Hfp]. apply Hend.
      apply (suffix_of_app fp r2 r c (eq_sym E2)).
      intros ->. rewrite app_nil_r in E2. rewrite <- E2 in Hfp.
      apply Forall_app in Hfp as [_ Hc]. inversion Hc; congruence.
    + apply Hend. now exists (x :: r).
Qed.

(** [float] refuses every text that ends in a multiplier letter. *)
Lemma py_float_refuses_suffix u c :
  suffix_multiplier c <> None -> py_float (u ++ [c]) = None.
Proof.
  intros Hc.
  destruct (suffix_letter c Hc) as (Hd & Hs & Hdot & Hus & Hm & Hp & Hf & Hy & Hn).
  unfold py_float.
  destruct (strip_by_keeps_last is_c_space u c Hs) as [u1 ->].
  destruct (drop_underscores None (u1 ++ [c])) as [l|] eqn:E; [|reflexivity].
  apply drop_underscores_keeps_last in E as [u2 ->]; [|exact Hus].
  destruct (read_sign_keeps_last u2 c Hm Hp) as [u3 Hbody].
  destruct (read_sign (u2 ++ [c])) as [neg body]. simpl in Hbody. subst body.
  assert (is_word "inf" (u3 ++ [c]) = false) as ->.
  { destruct (is_word "inf" (u3 ++ [c])) eqn:Ew; [|reflexivity].
    apply (is_word_last (chars "in") "f") in Ew. contradiction. }
  assert (is_word "infinity" (u3 ++ [c]) = false) as ->.
  { destruct (is_word "infinity" (u3 ++ [c])) eqn:Ew; [|reflexivity].
    apply (is_word_last (chars "infinit") "y") in Ew. contradiction. }
  assert (is_word "nan" (u3 ++ [c]) = false) as ->.
  { destruct (is_word "nan" (u3 ++ [c])) eqn:Ew; [|reflexivity].
    apply (is_word_last (chars "na") "n") in Ew. contradiction. }
  simpl. now rewrite read_decimal_ends.
Qed.

(** X2.  When the cleaned text ends in K, M or B, in either case, the answer is
    the float of what stands before the letter times the multiplier, and
    there is no answer when [float] refuses what stands before: the text
    with its letter is never read as a plain number. *)
Theorem suffix_decides value_str c multiplier :
  last_error_char (clean value_str) = Some c ->
  suffix_multiplier c = Some multiplier ->
  parse_financial_value value_str
  = option_map (scale multiplier) (py_float (drop_last (clean value_str))).
Proof.
  intros Hlast Hmult. unfold parse_financial_value.
  destruct (String.eqb value_str "") eqn:E.
  { apply String.eqb_eq in E. subst. discriminate. }
  cbv zeta. apply last_error_char_app in Hlast as [u ->].
  rewrite (py_float_refuses_suffix u c) by congruence.
  unfold multipliers, try_suffixes, endswith, upper.
  rewrite <- map_rev, rev_app_distr. simpl rev. simpl map.
  unfold suffix_multiplier in Hmult.
  destruct (Ascii.eqb (to_upper c) "K") eqn:EK.
  { injection Hmult as <-. destruct (py_float (drop_last (u ++ [c]))) eqn:Ep.
    - reflexivity.
    - apply Ascii.eqb_eq in EK. rewrite EK. reflexivity. }
  destruct (Ascii.eqb (to_upper c) "M") eqn:EM.
  { injection Hmult as <-. destruct (py_float (drop_last (u ++ [c]))) eqn:Ep.
    - reflexivity.
    - apply Ascii.eqb_eq in EM. rewrite EM. reflexivity. }
  destruct (Ascii.eqb (to_upper c) "B") eqn:EB; [|discriminate].
  injection Hmult as <-. destruct (py_float (drop_last (u ++ [c]))); reflexivity.
Qed.

(** X2, an instance.  ["$2.5M"]: the suffix [M] decides. *)
Lemma suffix_decides_witness :
  parse_financial_value "$2.5M"
  = option_map (scale 1000000) (py_float (drop_last (clean "$2.5M"))).
Proof.
  apply (suffix_decides "$2.5M" "M"%char 1000000); reflexivity.
Defined.

End ParserMore.

(** ** More on the metric extraction *)

Module MetricsMore.
Import PyStr PyFloat Pattern Extractor Wording More MedianFacts.
Local Open Scope Q_scope.

(** *** The median lies between two of the values *)

Lemma ascending_nth l i :
  ascending l -> (S i < List.length l)%nat -> nth i l 0 <= nth (S i) l 0.
Proof.
  revert i. induction l as [|a [|b t] IH]; intros i Hl Hi; simpl in Hi; try lia.
  destruct Hl as [Hab Ht]. destruct i as [|i]; [exact Hab|].
  apply (IH i Ht). simpl. lia.
Qed.

Lemma half_ineq a b : a <= b -> a <= (a + b) / 2 <= b.
Proof.
  intros H. assert ((a + b) / 2 == (a + b) * (1 # 2)) as -> by field. lra.
Qed.

(** The median of a list that is not empty lies between two of its
    values. *)
Lemma np_median_between l :
  l <> [] -> exists a b, In a l /\ In b l /\ a <= np_median l <= b.
Proof.
  intros Hl. unfold np_median.
  pose proof (sort_is_Permutation l) as Hperm.
  pose proof (Permutation_length Hperm) as Hlen.
  assert (0 < List.length (sort l))%nat as Hpos.
  { rewrite Hlen. destruct l; [contradiction | simpl; lia]. }
  set (s := sort l) in *. set (n := List.length s) in *.
  assert (forall i, (i < n)%nat -> In (nth i s 0) l) as Hin.
  { intros i Hi. eapply Permutation_in; [exact Hperm|]. now apply nth_In. }
  destruct (Nat.even n) eqn:E.
  - apply Nat.even_spec in E as [k Hk].
    assert (n / 2 = k)%nat as Hhalf.
    { rewrite Hk, Nat.mul_comm. now apply Nat.div_mul. }
    rewrite Hhalf.
    assert (k - 1 < n /\ S (k - 1) = k /\ k < n)%nat as (H1 & H2 & H3) by lia.
    exists (nth (k - 1) s 0), (nth k s 0).
    split; [now apply Hin|]. split; [now apply Hin|].
    apply half_ineq. rewrite <- H2 at 2. apply ascending_nth.
    + apply sort_ascending.
    + fold n. lia.
  - assert (n / 2 < n)%nat as Hhalf by (apply Nat.div_lt; lia).
    exists (nth (n / 2) s 0), (nth (n / 2) s 0).
    split; [now apply Hin|]. split; [now apply Hin|]. split; apply Qle_refl.
Qed.

(** *** Every value that counts is positive *)

Lemma digit_val_nonneg c : is_digit c = true -> (0 <= digit_val c)%Z.
Proof.
  unfold is_digit, digit_val. intros H. apply andb_prop in H as [H _].
  apply Nat.leb_le in H. lia.
Qed.

Lemma digits_val_nonneg acc l :
  (0 <= acc)%Z -> Forall (fun c => is_digit c = true) l -> (0 <= digits_val acc l)%Z.
Proof.
  intros Hacc Hl. revert acc Hacc. induction Hl as [|c l Hc Hl IH]; intros acc Hacc; simpl.
  - exact Hacc.
  - apply IH. pose proof (digit_val_nonneg c Hc). lia.
Qed.

Lemma pow10_pos e : 0 < pow10 e.
Proof.
  unfold pow10. destruct (0 <=? e)%Z eqn:E.
  - apply Z.leb_le in E. change 0 with (inject_Z 0). rewrite <- Zlt_Qlt.
    now apply Z.pow_pos_nonneg.
  - reflexivity.
Qed.

Lemma read_decimal_nonneg l q : read_decimal l = Some q -> 0 <= q.
Proof.
  unfold read_decimal.
  destruct (span is_digit l) as [ip r1] eqn:E1.
  apply ParserMore.span_spec in E1 as [_ Hip].
  rewrite ParserMore.fraction_eq.
  assert (exists fp r2,
            Forall (fun c => is_digit c = true) fp
            /\ match r1 with
               | x :: r => if Ascii.eqb x "." then span is_digit r else ([], r1)
               | [] => ([], r1)
               end = (fp, r2)) as (fp & r2 & Hfp & ->).
  { destruct r1 as [|x r]; [exists [], []; split; [constructor | reflexivity]|].
    destruct (Ascii.eqb x ".").
    - destruct (span is_digit r) as [fp r2] eqn:E2.
      apply ParserMore.span_spec in E2 as [_ Hfp]. eauto.
    - exists [], (x :: r). split; [constructor | reflexivity]. }
  destruct (ip ++ fp) eqn:E; [discriminate|]. rewrite <- E.
  destruct (read_exponent r2) as [e|]; [|discriminate].
  intros H. injection H as <-.
  apply Qmult_le_0_compat.
  - change 0 with (inject_Z 0). rewrite <- Zle_Qle.
    apply digits_val_nonneg; [lia | now apply Forall_app].
  - apply Qlt_le_weak, pow10_pos.
Qed.

Lemma value_chars_no_sign x :
  value_chars x = true -> Ascii.eqb x "-" = false /\ Ascii.eqb x "+" = false.
Proof.
  intros H. split.
  - destruct (Ascii.eqb x "-") eqn:E; [|reflexivity].
    apply Ascii.eqb_eq in E. subst. discriminate.
  - destruct (Ascii.eqb x "+") eqn:E; [|reflexivity].
    apply Ascii.eqb_eq in E. subst. discriminate.
Qed.

Lemma py_float_nonneg l q :
  Forall (fun c => value_chars c = true) l -> py_float l = Some (Fin q) -> 0 <= q.
Proof.
  intros Hl. unfold py_float.
  destruct (drop_underscores None (strip_by is_c_space l)) as [l'|] eqn:E; [|discriminate].
  apply (ExtractorFacts.Forall_drop_underscores (fun c => value_chars c = true)) in E;
    [|now apply ExtractorFacts.Forall_strip_by].
  rewrite ParserMore.read_sign_eq.
  assert (forall body,
            (if is_word "inf" body || is_word "infinity" body
             then Some PosInf
             else if is_word "nan" body then Some NaN
                  else match read_decimal body with
                       | Some q0 => Some (Fin q0)
                       | None => None
                       end) = Some (Fin q) -> 0 <= q) as Hbody.
  { intros body. destruct (_ || _); [discriminate|].
    destruct (is_word "nan" body); [discriminate|].
    destruct (read_decimal body) as [q0|] eqn:Eq; [|discriminate].
    intros H. injection H as <-. eapply read_decimal_nonneg, Eq. }
  destruct l' as [|x l']; [apply Hbody|].
  inversion E as [|? ? Hx _]; subst.
  apply value_chars_no_sign in Hx as [-> ->]. apply Hbody.
Qed.

Lemma multipliers_positive : Forall (fun '(_, m) => 0 < m) multipliers.
Proof. repeat constructor. Qed.

Lemma try_suffixes_nonneg ms v q :
  Forall (fun '(_, m) => 0 < m) ms ->
  Forall (fun c => value_chars c = true) v ->
  try_suffixes ms v = Some (Fin q) -> 0 <= q.
Proof.
  intros Hms Hv. induction Hms as [|[suffix mult] ms Hm Hms IH]; simpl; [discriminate|].
  destruct (endswith suffix (upper v)); [|exact IH].
  destruct (py_float (drop_last v)) as [x|] eqn:E; [|exact IH].
  destruct x as [q0| | |]; simpl; try discriminate.
  intros H. injection H as <-.
  apply py_float_nonneg in E; [|now apply ExtractorFacts.Forall_drop_last].
  apply Qmult_le_0_compat; [exact E | now apply Qlt_le_weak].
Qed.

Lemma parse_nonneg m q :
  Forall (fun c => value_chars c = true) (chars m) ->
  parse_financial_value m = Some (Fin q) -> 0 <= q.
Proof.
  intros Hm. unfold parse_financial_value. destruct (String.eqb m ""); [discriminate|].
  assert (Forall (fun c => value_chars c = true) (clean m)) as Hv.
  { unfold clean, strip.
    now apply ExtractorFacts.Forall_strip_by, ExtractorFacts.Forall_remove_char,
      ExtractorFacts.Forall_remove_char. }
  destruct (try_suffixes multipliers (clean m)) as [x|] eqn:E.
  - intros H. injection H as ->.
    eapply try_suffixes_nonneg; [apply multipliers_positive | exact Hv | exact E].
  - now apply py_float_nonneg.
Qed.

Lemma matches_are_value_chars icase pattern text m :
  reports_value_chars icase pattern = true ->
  In m (re_findall icase pattern text) ->
  Forall (fun c => value_chars c = true) (chars m).
Proof.
  unfold reports_value_chars, re_findall.
  destruct (compile icase pattern) as [r|]; [|discriminate].
  intros Hr Hm. eapply RegexFacts.findall_within; eassumption.
Qed.

Lemma values_of_positive metric_type patterns text :
  In (metric_type, patterns) financial_patterns ->
  forall q, In q (values_of patterns text) -> 0 < q.
Proof.
  intros Hin q Hq.
  apply ExtractorFacts.values_of_spec in Hq as (pattern & m & Hp & Hm & Hparse & Hnz).
  destruct ExtractorFacts.financial_patterns_report_value_chars as [Hall _].
  rewrite forallb_forall in Hall. specialize (Hall _ Hin). simpl in Hall.
  rewrite forallb_forall in Hall. specialize (Hall _ Hp).
  pose proof (matches_are_value_chars _ _ _ _ Hall Hm) as Hchars.
  pose proof (parse_nonneg _ _ Hchars Hparse) as H0.
  apply Qle_lteq in H0 as [H0|H0]; [exact H0|]. exfalso. apply Hnz. now symmetry.
Qed.

Lemma metric_value_positive text metric_type q :
  extract_financial_metrics text !! metric_type = Some q -> 0 < q.
Proof.
  intros H.
  destruct (in_dec string_dec metric_type (map fst financial_patterns)) as [Hk|Hk].
  - apply in_map_iff in Hk as ([k patterns] & Hfst & Hin). simpl in Hfst. subst k.
    rewrite (ExtractorFacts.extract_financial_metrics_lookup _ _ _ Hin) in H.
    destruct (values_of patterns text) as [|v vs] eqn:E; [discriminate|].
    injection H as <-.
    destruct (np_median_between (v :: vs)) as (a & b & Ha & _ & Hle & _); [discriminate|].
    rewrite <- E in Ha. apply (values_of_positive _ _ _ Hin) in Ha. lra.
  - unfold extract_financial_metrics in H.
    rewrite ExtractorFacts.fold_step_other in H by exact Hk.
    rewrite lookup_empty in H. discriminate.
Qed.

(** X3.  Whatever the text, the metrics reported are among the seven metric
    types of the pattern table, and each reported value is strictly
    positive. *)
Theorem metrics_are_positive text metric_type q :
  extract_financial_metrics text !! metric_type = Some q ->
  In metric_type
    [ "revenue"; "funding"; "valuation"; "market_size"; "customers"; "team_size";
      "growth_rate" ]%string
  /\ 0 < q.
Proof.
  intros H. split; [|exact (metric_value_positive _ _ _ H)].
  destruct (in_dec string_dec metric_type (map fst financial_patterns)) as [Hk|Hk];
    [exact Hk|].
  unfold extract_financial_metrics in H.
  rewrite ExtractorFacts.fold_step_other in H by exact Hk.
  rewrite lookup_empty in H. discriminate.
Qed.

(** X3, an instance. *)
Lemma metrics_are_positive_witness :
  In "revenue"%string
    [ "revenue"; "funding"; "valuation"; "market_size"; "customers"; "team_size";
      "growth_rate" ]%string
  /\ 0 < 4000000.
Proof.
  apply (metrics_are_positive "revenue: $4M" "revenue" 4000000).
  vm_compute. reflexivity.
Defined.

(** X4.  The value reported for a metric lies between two of the values of
    its matches: it is never smaller than the smallest nor larger than
    the largest of them. *)
Theorem metric_between_matches text metric_type patterns q :
  In (metric_type, patterns) financial_patterns ->
  extract_financial_metrics text !! metric_type = Some q ->
  exists a b,
    In a (values_of patterns text) /\ In b (values_of patterns text) /\ a <= q <= b.
Proof.
  intros Hin H.
  rewrite (ExtractorFacts.extract_financial_metrics_lookup _ _ _ Hin) in H.
  destruct (values_of patterns text) as [|v vs] eqn:E; [discriminate|].
  injection H as <-. apply np_median_between. discriminate.
Qed.

(** X4, an instance.  The text "revenue: $1M; revenue: $3M": the reported 2000000 lies
    between two of the matched values. *)
Lemma metric_between_matches_witness :
  exists a b,
    In a (values_of (["revenue.*?(\$?[\d,]+\.?\d*[KMB]?)";
                      "sales.*?(\$?[\d,]+\.?\d*[KMB]?)";
                      "income.*?(\$?[\d,]+\.?\d*[KMB]?)";
                      "(\$?[\d,]+\.?\d*[KMB]?)\s*revenue";
                      "annual\s+revenue.*?(\$?[\d,]+\.?\d*[KMB]?)"]%string)
            "revenue: $1M; revenue: $3M")
    /\ In b (values_of (["revenue.*?(\$?[\d,]+\.?\d*[KMB]?)";
                         "sales.*?(\$?[\d,]+\.?\d*[KMB]?)";
                         "income.*?(\$?[\d,]+\.?\d*[KMB]?)";
                         "(\$?[\d,]+\.?\d*[KMB]?)\s*revenue";
                         "annual\s+revenue.*?(\$?[\d,]+\.?\d*[KMB]?)"]%string)
               "revenue: $1M; revenue: $3M")
    /\ a <= (4000000 # 2) <= b.
Proof.
  apply (metric_between_matches "revenue: $1M; revenue: $3M" "revenue").
  - left. reflexivity.
  - vm_compute. reflexivity.
Defined.

End MetricsMore.

(** ** More on the extracted data *)

Module DataMore.
Import PyStr PyFloat Pattern Extractor More.
Local Open Scope Q_scope.

Lemma count_true_le bs : (count_true bs <= List.length bs)%nat.
Proof.
  unfold count_true. induction bs as [|[] bs IH]; simpl; lia.
Qed.

Lemma count_true_mono bs bs' :
  Forall2 (fun a b => a = true -> b = true) bs bs' ->
  (count_true bs <= count_true bs')%nat.
Proof.
  unfold count_true. induction 1 as [|a b bs bs' Hab _ IH]; simpl; [lia|].
  destruct a; simpl.
  - rewrite (Hab eq_refl). simpl. lia.
  - destruct b; simpl; lia.
Qed.

Lemma sixth_le (m n : nat) :
  (m <= n)%nat ->
  inject_Z (Z.of_nat m) / inject_Z (Z.of_nat 6)
  <= inject_Z (Z.of_nat n) / inject_Z (Z.of_nat 6).
Proof.
  intros H. apply Qmult_le_compat_r.
  - rewrite <- Zle_Qle. lia.
  - vm_compute. discriminate.
Qed.

Lemma confidence_range d :
  0.3 <= fst (calculate_confidence_scores d) <= 0.9.
Proof.
  unfold calculate_confidence_scores. cbv zeta. cbn [fst].
  destruct (is_some (current_revenue d)), (is_some (market_size_tam d)),
    (is_some (funding_requested d)), (truthy_s (business_model d));
    vm_compute; split; discriminate.
Qed.

Lemma completeness_range d :
  0 <= snd (calculate_confidence_scores d) <= 1.
Proof.
  unfold calculate_confidence_scores. cbv zeta. cbn [snd].
  set (bs := [_; _; _; _; _; _]).
  pose proof (count_true_le bs) as Hle. change (List.length bs) with 6%nat in *.
  split.
  - eapply Qle_trans; [|apply (sixth_le 0 (count_true bs)); lia].
    vm_compute. discriminate.
  - eapply Qle_trans; [apply (sixth_le _ 6 Hle)|].
    vm_compute. discriminate.
Qed.

(** X5.  The two scores stay within their ranges whatever was extracted: the
    completeness lies between 0 and 1; the confidence is 0.3 when none of
    revenue, market size, funding and a non-empty business model was
    found, and lies between 0.7 and 0.9 as soon as one of them was. *)
Theorem confidence_scores_bounds d :
  let found :=
    is_some (current_revenue d) || is_some (market_size_tam d)
    || is_some (funding_requested d) || truthy_s (business_model d) in
  0 <= snd (calculate_confidence_scores d) <= 1
  /\ (found = false -> fst (calculate_confidence_scores d) = 0.3)
  /\ (found = true -> 0.7 <= fst (calculate_confidence_scores d) <= 0.9).
Proof.
  cbv zeta. split; [apply completeness_range|].
  unfold calculate_confidence_scores. cbv zeta. cbn [fst].
  destruct (is_some (current_revenue d)), (is_some (market_size_tam d)),
    (is_some (funding_requested d)), (truthy_s (business_model d));
    cbn [orb app];
    (split; [intros H; first [discriminate H | reflexivity]
            |intros H; first [discriminate H | vm_compute; split; discriminate]]).
Qed.

(** X6.  Completeness never goes down when more of the six checked fields are
    populated. *)
Theorem completeness_monotone d d' :
  (is_some (current_revenue d) = true -> is_some (current_revenue d') = true) ->
  (is_some (projected_revenue_y1 d) = true -> is_some (projected_revenue_y1 d') = true) ->
  (is_some (funding_requested d) = true -> is_some (funding_requested d') = true) ->
  (is_some (market_size_tam d) = true -> is_some (market_size_tam d') = true) ->
  (is_some (team_size d) = true -> is_some (team_size d') = true) ->
  (is_some (business_model d) = true -> is_some (business_model d') = true) ->
  snd (calculate_confidence_scores d) <= snd (calculate_confidence_scores d').
Proof.
  intros H1 H2 H3 H4 H5 H6. unfold calculate_confidence_scores. cbv zeta. cbn [snd].
  apply sixth_le, count_true_mono. repeat constructor; assumption.
Qed.

(** X6, an instance.  Monotonicity between the empty structure and what is extracted from
    the sample deck. *)
Lemma completeness_monotone_witness :
  snd (calculate_confidence_scores empty_data)
  <= snd (calculate_confidence_scores
            (extract_financial_data (Pipeline.readers Sample.world) "deck.pdf")).
Proof.
  apply completeness_monotone; intros H; discriminate H.
Defined.

Lemma with_scores_confidence d c k : extraction_confidence (with_scores d c k) = c.
Proof. reflexivity. Qed.

(** X7.  The extraction confidence of [extract_financial_data] is 0.0 exactly
    when no text could be read from the PDF; as soon as there is text it
    is at least 0.3, even if nothing was found in it. *)
Theorem zero_confidence_means_no_text R pdf_path :
  let d := extract_financial_data R pdf_path in
  (extract_text_from_pdf R pdf_path = ""%string -> d = empty_data)
  /\ (extract_text_from_pdf R pdf_path <> ""%string ->
      0.3 <= extraction_confidence d <= 0.9 /\ 0 <= completeness_score d <= 1)
  /\ (extraction_confidence d == 0 <-> extract_text_from_pdf R pdf_path = ""%string).
Proof.
  cbv zeta. unfold extract_financial_data.
  destruct (String.eqb (extract_text_from_pdf R pdf_path) "") eqn:E.
  - apply String.eqb_eq in E. rewrite E.
    split; [reflexivity|]. split; [intros H; now contradiction H|].
    split; [reflexivity | intros _; reflexivity].
  - apply String.eqb_neq in E. cbv zeta.
    match goal with
    | |- context [calculate_confidence_scores ?x] =>
        pose proof (confidence_range x) as Hc;
        pose proof (completeness_range x) as Hk;
        destruct (calculate_confidence_scores x) as [c k]
    end.
    cbn [fst snd] in Hc, Hk. cbn [with_scores extraction_confidence completeness_score].
    split; [intros H; contradiction|]. split; [auto|].
    split; [intros H; lra | intros H; contradiction].
Qed.

(** *** The business model found in the text *)

Lemma first_match_spec patterns text m :
  first_match patterns text = Some m ->
  exists pattern raw,
    In pattern patterns /\ In raw (re_findall true pattern text)
    /\ m = str (strip (chars raw)).
Proof.
  induction patterns as [|pattern rest IH]; [discriminate|].
  cbn [first_match]. destruct (re_findall true pattern text) as [|raw others] eqn:E.
  - intros H. destruct (IH H) as (p & r & Hp & Hr & Hm).
    exists p, r. split; [now right|]. split; assumption.
  - intros [= <-]. exists pattern, raw. split; [now left|].
    split; [rewrite E; now left|reflexivity].
Qed.

(** X8.  A business model that [_extract_business_model_from_text] finds holds
    no full stop: the description is cut before the first full stop
    after the heading, however the sentence goes on. *)
Theorem business_model_stops_at_full_stop text m :
  extract_business_model_from_text text = Some m ->
  Forall (fun c => c <> "."%char) (chars m).
Proof.
  intros H. apply first_match_spec in H as (pattern & raw & Hp & Hraw & ->).
  rewrite RegexFacts.chars_str.
  set (P := fun c => negb (Ascii.eqb c ".")).
  assert (Hall : forallb (fun pattern =>
                    match compile true pattern with
                    | Some r => Regex.reports_within P r
                    | None => false
                    end) business_model_patterns = true)
    by (vm_compute; reflexivity).
  rewrite forallb_forall in Hall. specialize (Hall _ Hp).
  unfold re_findall in Hraw. destruct (compile true pattern) as [r|]; [|contradiction].
  pose proof (RegexFacts.findall_within P r text raw Hall Hraw) as Hchars.
  apply (ExtractorFacts.Forall_strip_by _ is_space) in Hchars.
  eapply Forall_impl; [exact Hchars|].
  intros c Hc ->. discriminate Hc.
Qed.

(** X8, an instance. *)
Lemma business_model_stops_at_full_stop_witness :
  Forall (fun c => c <> "."%char) (chars "subscriptions for clinics").
Proof.
  apply (business_model_stops_at_full_stop
           "Business model: subscriptions for clinics. We sell to hospitals too.").
  vm_compute. reflexivity.
Defined.

End DataMore.

(** ** More on the predictor *)

Module PredictorMore.
Import PyDict Predictor More.
Local Open Scope Q_scope.

(** *** Keys that do not count *)

Lemma mem_In x l : mem x l = true <-> In x l.
Proof.
  unfold mem. rewrite existsb_exists. split.
  - intros (y & Hy & Heq). apply String.eqb_eq in Heq. now subst.
  - intros H. exists x. split; [exact H|apply String.eqb_refl].
Qed.

Lemma unread_is_not_read k : In k unread_pdf_keys -> In k read_keys -> False.
Proof.
  intros H1 H2.
  assert (H : forallb (fun k => negb (mem k read_keys)) unread_pdf_keys = true)
    by (vm_compute; reflexivity).
  rewrite forallb_forall in H. specialize (H k H1).
  apply mem_In in H2. rewrite H2 in H. discriminate H.
Qed.

(** The features depend on the dict only through the keys read. *)
Lemma extract_features_agree (d d' : gmap string pyval) :
  (forall k, In k read_keys -> d !! k = d' !! k) ->
  extract_features_from_data d = extract_features_from_data d'.
Proof.
  intros Hk. unfold extract_features_from_data. cbv zeta.
  assert (Hnum : forall k default, In k read_keys ->
            get_num d k default = get_num d' k default).
  { intros k default Hin. unfold get_num. now rewrite (Hk k Hin). }
  assert (Hval : forall k default, In k read_keys ->
            get_val d k default = get_val d' k default).
  { intros k default Hin. unfold get_val. now rewrite (Hk k Hin). }
  rewrite (Hnum "revenue"%string), (Hnum "market_size"%string)
    by (apply mem_In; reflexivity).
  f_equal; first [apply Hnum | apply Hval]; apply mem_In; reflexivity.
Qed.

Lemma predict_agree L self (d d' : gmap string pyval) :
  extract_features_from_data d = extract_features_from_data d' ->
  predict_startup_success L self d = predict_startup_success L self d'.
Proof. intros H. unfold predict_startup_success. now rewrite H. Qed.

(** X9.  Fourteen of the keys under which the pipeline stores what it derived
    from the PDF are not among the keys that [extract_features_from_data]
    reads: whatever stands under them, the features are the same.  So the
    extracted customers, the traction and readiness scores, the gross
    margin and the burn rate never reach the model, and neither does a
    market size given under ['market_size_billions'] instead of
    ['market_size']. *)
Theorem unread_keys_do_not_count startup_data key v :
  In key unread_pdf_keys ->
  extract_features_from_data (<[key := v]> startup_data)
  = extract_features_from_data startup_data.
Proof.
  intros Hk. apply extract_features_agree. intros k Hin.
  apply lookup_insert_ne. intros ->. exact (unread_is_not_read k Hk Hin).
Qed.

(** X9, an instance.  The market size under ['market_size_billions']. *)
Lemma unread_keys_do_not_count_witness :
  extract_features_from_data
    (<["market_size_billions"%string := VNum 5.0]> {[ "revenue"%string := VNum 1000000 ]})
  = extract_features_from_data {[ "revenue"%string := VNum 1000000 ]}.
Proof.
  apply unread_keys_do_not_count. simpl. tauto.
Defined.

(** *** Names *)

Lemma extract_with_names (d d' : gmap string pyval) :
  (forall k, In k read_keys -> k <> "company_name"%string -> k <> "industry"%string ->
             d !! k = d' !! k) ->
  extract_features_from_data d'
  = with_names (get_val d' "company_name" (VStr "")) (get_val d' "industry" (VStr "Technology"))
      (extract_features_from_data d).
Proof.
  intros Hk. unfold extract_features_from_data, with_names. cbv zeta.
  cbn [founded_year team_size location business_stage funding_total_usd funding_rounds
       current_revenue_usd projected_revenue_y1 projected_revenue_y3 burn_rate_monthly
       runway_months gross_margin_percent market_size_billions
       addressable_market_billions market_growth_rate competition_level
       competitive_advantage_score founder_experience_years team_technical_score
       team_business_score advisor_quality_score product_readiness_score
       tech_differentiation_score user_traction_score product_market_fit_score
       business_model_clarity revenue_model_strength scalability_score
       go_to_market_score market_risk_score technical_risk_score team_risk_score
       financial_risk_score regulatory_risk_score industry_trend_score
       economic_environment_score vc_funding_climate_score pitch_clarity_score
       financial_projections_realism presentation_quality_score].
  assert (Hnum : forall k default, Predictor.mem k read_keys = true ->
            k <> "company_name"%string -> k <> "industry"%string ->
            get_num d' k default = get_num d k default).
  { intros k default Hin H1 H2. unfold get_num.
    now rewrite (Hk k (proj1 (mem_In _ _) Hin) H1 H2). }
  assert (Hval : forall k default, Predictor.mem k read_keys = true ->
            k <> "company_name"%string -> k <> "industry"%string ->
            get_val d' k default = get_val d k default).
  { intros k default Hin H1 H2. unfold get_val.
    now rewrite (Hk k (proj1 (mem_In _ _) Hin) H1 H2). }
  rewrite (Hnum "revenue"%string), (Hnum "market_size"%string)
    by first [reflexivity | discriminate].
  f_equal; first [apply Hnum | apply Hval]; first [reflexivity | discriminate].
Qed.

(** A prediction does not look at the name and the industry when they
    are strings. *)
Lemma predict_with_names L self (d d' : gmap string pyval) f a b a' b' :
  extract_features_from_data d = with_names (VStr a) (VStr b) f ->
  extract_features_from_data d' = with_names (VStr a') (VStr b') f ->
  predict_startup_success L self d = predict_startup_success L self d'.
Proof.
  intros H H'. unfold predict_startup_success. rewrite H, H'.
  unfold feature_row, numeric_features, calculate_market_score, calculate_team_score,
    calculate_product_score, calculate_business_model_score,
    calculate_financial_score, calculate_risk_score, get_key_strengths,
    get_key_risks, get_improvement_areas.
  reflexivity.
Qed.

(** *** The row the model sees *)

(** Every training column is a numeric field of the feature record, so
    no column is filled with [0.0]. *)
Lemma feature_row_training_columns f : feature_row training_columns f = training_row f.
Proof.
  destruct f as [name ind ? ? loc stage].
  destruct name, ind, loc, stage; vm_compute; reflexivity.
Qed.

Lemma predict_untrained L self startup_data :
  is_trained self = false ->
  predict_startup_success L self startup_data
  = predict_startup_success L (train_ensemble_model L self) startup_data.
Proof. intros H. unfold predict_startup_success. now rewrite H. Qed.

Lemma predict_trained_state L self startup_data :
  is_trained self = true -> fst (predict_startup_success L self startup_data) = self.
Proof.
  intros H. unfold predict_startup_success. rewrite H.
  destruct (feature_scaler self), (ensemble_model self); try reflexivity.
  now destruct (categorise _).
Qed.

(** X10.  A predictor that was never trained trains itself on the first
    prediction; the probability it reports is the fitted ensemble's
    answer on the scaled row of the 38 numeric features, in the order of
    the training columns, and a second prediction on the same data with
    the predictor it left behind trains nothing and answers the same. *)
Theorem first_prediction_trains L self startup_data :
  is_trained self = false ->
  let trained := fst (predict_startup_success L self startup_data) in
  trained = train_ensemble_model L self
  /\ (exists r,
        snd (predict_startup_success L self startup_data) = Some r
        /\ success_probability r
           = fit_voting L (fit_scaler L (training_row (extract_features_from_data startup_data)))
        /\ feature_count r = 38%nat)
  /\ predict_startup_success L trained startup_data
     = (trained, snd (predict_startup_success L self startup_data)).
Proof.
  intros H. cbv zeta. rewrite (predict_untrained L self startup_data H).
  assert (Ht : is_trained (train_ensemble_model L self) = true) by reflexivity.
  pose proof (predict_trained_state L _ startup_data Ht) as Hs.
  rewrite Hs. split; [reflexivity|]. split.
  - unfold predict_startup_success. rewrite Ht.
    cbn [train_ensemble_model feature_scaler ensemble_model feature_columns models].
    rewrite feature_row_training_columns.
    destruct (categorise _) as [category recommendation].
    eexists. split; [reflexivity|]. split; reflexivity.
  - rewrite <- Hs at 2. now destruct (predict_startup_success _ _ _).
Qed.

(** X10, an instance. *)
Lemma first_prediction_trains_witness :
  let trained := fst (predict_startup_success Sample.library new_predictor ∅) in
  trained = train_ensemble_model Sample.library new_predictor
  /\ (exists r,
        snd (predict_startup_success Sample.library new_predictor ∅) = Some r
        /\ success_probability r
           = fit_voting Sample.library
               (fit_scaler Sample.library (training_row (extract_features_from_data ∅)))
        /\ feature_count r = 38%nat)
  /\ predict_startup_success Sample.library trained ∅
     = (trained, snd (predict_startup_success Sample.library new_predictor ∅)).
Proof.
  apply (first_prediction_trains Sample.library new_predictor ∅). reflexivity.
Defined.

(** *** The factor lists *)

Lemma gtb_true a b : gtb a b = true <-> b < a.
Proof.
  unfold gtb. rewrite negb_true_iff, <- not_true_iff_false, Qle_bool_iff.
  split; [apply Qnot_le_lt|apply Qlt_not_le].
Qed.

Lemma gtb_false a b : gtb a b = false <-> a <= b.
Proof. unfold gtb. now rewrite negb_false_iff, Qle_bool_iff. Qed.

Lemma ltb_true a b : ltb a b = true <-> a < b.
Proof.
  unfold ltb. rewrite negb_true_iff, <- not_true_iff_false, Qle_bool_iff.
  split; [apply Qnot_le_lt|apply Qlt_not_le].
Qed.

Lemma ltb_false a b : ltb a b = false <-> b <= a.
Proof. unfold ltb. now rewrite negb_false_iff, Qle_bool_iff. Qed.

Lemma In_firstn_3_of_4 {A : Type} (b1 b2 b3 b4 : bool) (x1 x2 x3 x4 y : A) :
  In y (firstn 3 (when b1 x1 ++ when b2 x2 ++ when b3 x3 ++ when b4 x4)) <->
  (b1 = true /\ y = x1) \/ (b2 = true /\ y = x2) \/ (b3 = true /\ y = x3)
  \/ (b4 = true /\ (b1 && b2 && b3 = false) /\ y = x4).
Proof.
  destruct b1, b2, b3, b4; cbn; intuition (try discriminate; auto).
Qed.

Lemma length_firstn_3 {A : Type} (l : list A) : (List.length (firstn 3 l) <= 3)%nat.
Proof. apply firstn_le_length. Qed.

(** X11.  [_get_key_strengths] reports at most three strengths.  A strength is
    reported only if its feature exceeds its threshold, with the value of
    that feature; each of the first three rules is reported whenever its
    threshold is exceeded, and user traction above 0.6 is reported unless
    the three rules before it all apply, in which case it is cut. *)
Theorem key_strengths_spec f :
  (List.length (get_key_strengths f) <= 3)%nat
  /\ (forall entry, In entry (get_key_strengths f) <->
        (5 < market_size_billions f
         /\ entry = ("Large market opportunity"%string, market_size_billions f))
        \/ (0.7 < team_technical_score f
            /\ entry = ("Strong technical team"%string, team_technical_score f))
        \/ (0.7 < competitive_advantage_score f
            /\ entry = ("Clear competitive advantage"%string, competitive_advantage_score f))
        \/ (0.6 < user_traction_score f
            /\ ~ (5 < market_size_billions f /\ 0.7 < team_technical_score f
                  /\ 0.7 < competitive_advantage_score f)
            /\ entry = ("Strong user traction"%string, user_traction_score f))).
Proof.
  split; [apply length_firstn_3|].
  intros entry. unfold get_key_strengths. rewrite In_firstn_3_of_4.
  rewrite !gtb_true.
  assert (Hcut : gtb (market_size_billions f) 5 && gtb (team_technical_score f) 0.7
                 && gtb (competitive_advantage_score f) 0.7 = false
                 <-> ~ (5 < market_size_billions f /\ 0.7 < team_technical_score f
                        /\ 0.7 < competitive_advantage_score f)).
  { rewrite <- not_true_iff_false, !andb_true_iff, !gtb_true. tauto. }
  rewrite Hcut. tauto.
Qed.

(** X12.  A runway that [_get_key_risks] reports as short (under 6 months) is
    never cut from that list, and [_get_improvement_areas] then always
    asks to extend the runway: both rules stand among the first three of
    their lists. *)
Theorem short_runway_is_reported f :
  runway_months f < 6 ->
  In ("Short runway"%string, runway_months f) (get_key_risks f)
  /\ In "Extend financial runway"%string (get_improvement_areas f).
Proof.
  intros H. split.
  - unfold get_key_risks. rewrite In_firstn_3_of_4. right. left.
    split; [|reflexivity]. now apply ltb_true.
  - unfold get_improvement_areas. rewrite In_firstn_3_of_4. right. right. left.
    split; [|reflexivity]. apply ltb_true. eapply Qlt_trans; [exact H|reflexivity].
Qed.

(** X12, an instance. *)
Lemma short_runway_is_reported_witness :
  let f := extract_features_from_data {[ "runway_months"%string := VNum 3 ]} in
  In ("Short runway"%string, runway_months f) (get_key_risks f)
  /\ In "Extend financial runway"%string (get_improvement_areas f).
Proof.
  apply (short_runway_is_reported
           (extract_features_from_data {[ "runway_months"%string := VNum 3 ]})).
  vm_compute. reflexivity.
Defined.

(** *** The scores *)



(** *** Saving and loading *)

(** X14.  What [save_model] wrote under a path, [load_model] reads back from
    that path into any predictor, whatever that predictor held: the
    loaded predictor is the saved one.  Saving touches no other path, and
    only a trained predictor is saved. *)
Theorem save_load_round_trip self other filepath disk disk' :
  save_model self filepath disk = Some disk' ->
  is_trained self = true
  /\ load_model other filepath disk' = Some self
  /\ (forall p, p <> filepath -> load_model other p disk' = load_model other p disk).
Proof.
  unfold save_model. destruct (is_trained self) eqn:Ht; [|discriminate].
  intros [= <-]. split; [reflexivity|]. split.
  - unfold load_model. rewrite lookup_insert_eq.
    destruct self; cbn in *. now subst.
  - intros p Hp. unfold load_model. now rewrite lookup_insert_ne.
Qed.

(** X14, an instance. *)
Lemma save_load_round_trip_witness :
  let self := train_ensemble_model Sample.library new_predictor in
  exists disk',
    save_model self "model.joblib" ∅ = Some disk'
    /\ load_model new_predictor "model.joblib" disk' = Some self
    /\ load_model new_predictor "other.joblib" disk' = None.
Proof.
  cbv zeta. eexists. split; [reflexivity|].
  destruct (save_load_round_trip (train_ensemble_model Sample.library new_predictor)
              new_predictor "model.joblib" ∅ _ eq_refl) as (_ & Hload & Hother).
  split; [exact Hload|]. rewrite Hother by discriminate. reflexivity.
Defined.

End PredictorMore.

(** ** More on the pipeline *)

Module PipelineMore.
Import PyDict Pipeline More PipelineFacts.
Local Open Scope Q_scope.

(** *** [analyze_startup] without pattern matching *)

Lemma run_ml_prediction_eq W P features :
  run_ml_prediction W P features =
  ({| version := version P;
      ml_predictor :=
        fst (Predictor.predict_startup_success (library W) (ml_predictor P) features);
      analysis_count := analysis_count P;
      total_processing_time := total_processing_time P |},
   default (failed_prediction W)
     (snd (Predictor.predict_startup_success (library W) (ml_predictor P) features))).
Proof.
  unfold run_ml_prediction.
  destruct (Predictor.predict_startup_success _ _ _) as [p [r|]]; reflexivity.
Qed.

Lemma analyze_startup_eq W P h input :
  analyze_startup W P h input =
  let g := gather_features W h input in
  let ml_features := fst (fst (fst g)) in
  let h' := snd (fst (fst g)) in
  let pdf := snd (fst g) in
  let step3 :=
    if use_ml_prediction input then run_ml_prediction W P (deref h' ml_features)
    else (P, skipped_prediction P (clock_now W) (size (deref h' ml_features))) in
  let scores := combine_analysis_results (snd step3) pdf None in
  ({| version := version (fst step3);
      ml_predictor := ml_predictor (fst step3);
      analysis_count := S (analysis_count (fst step3));
      total_processing_time := total_processing_time (fst step3) + elapsed W |},
   h',
   {| result_analysis_id := or_default (analysis_id input) (clock_id W);
      result_company_name := company_name input;
      result_timestamp := clock_now W;
      ml_prediction := snd step3;
      pdf_data := pdf;
      agent_analysis := None;
      processing_time_seconds := elapsed W;
      pipeline_version := version (fst step3);
      components_used :=
        snd g ++ (if use_ml_prediction input then ["ML_PREDICTION"%string] else []);
      overall_confidence := fst scores;
      data_completeness := snd scores |}).
Proof.
  unfold analyze_startup, StartupData. cbv zeta.
  destruct (gather_features W h input) as [[[ml_features h'] pdf] used].
  cbn [fst snd].
  destruct (use_ai_agents input && agents_available W);
    destruct (use_ml_prediction input);
    try destruct (run_ml_prediction W P (deref h' ml_features)) as [P1 ml];
    destruct (combine_analysis_results _ _ _) as [overall completeness];
    cbn [fst snd]; rewrite ?app_nil_r; reflexivity.
Qed.

Lemma gather_features_eq W h input :
  gather_features W h input =
  let w := working_dict h (manual_data input) in
  let h1 := update_at (snd w) (fst w) (basic_information input) in
  match pdf_step input with
  | Some path =>
      (fst w, update_at h1 (fst w) (snd (extract_features_from_pdf W path)),
       Some (fst (extract_features_from_pdf W path)), ["PDF_EXTRACTION"%string])
  | None => (fst w, h1, None, [])
  end.
Proof.
  unfold gather_features. cbv zeta.
  destruct (working_dict h (manual_data input)) as [r h1]. cbn [fst snd].
  destruct (pdf_step input) as [path|]; [|reflexivity].
  destruct (extract_features_from_pdf W path). reflexivity.
Qed.

Lemma deref_new_dict h : deref (snd (new_dict h)) (fst (new_dict h)) = ∅.
Proof. unfold new_dict, deref. cbn. now rewrite lookup_insert_eq. Qed.

Lemma not_truthy_empty (d : gmap string pyval) : truthy_dict d = false -> d = ∅.
Proof.
  unfold truthy_dict. rewrite negb_false_iff, Nat.eqb_eq. apply map_size_empty_iff.
Qed.

(** The working dict holds what the caller's dict held. *)
Lemma working_dict_deref h manual :
  deref (snd (working_dict h manual)) (fst (working_dict h manual))
  = match manual with
    | Some r => deref h r
    | None => ∅
    end.
Proof.
  unfold working_dict. destruct manual as [r|]; [|apply deref_new_dict].
  destruct (truthy_dict (deref h r)) eqn:Ht; [reflexivity|].
  rewrite deref_new_dict. symmetry. now apply not_truthy_empty.
Qed.

Lemma gathered_dict W h input :
  let g := gather_features W h input in
  deref (snd (fst (fst g))) (fst (fst (fst g))) = merged_features W h input.
Proof.
  cbv zeta. rewrite gather_features_eq. cbv zeta. unfold merged_features.
  rewrite <- working_dict_deref.
  destruct (pdf_step input); cbn [fst snd]; now rewrite !deref_update_at.
Qed.

Lemma gathered_pdf W h input :
  snd (fst (gather_features W h input))
  = option_map (fun path => fst (extract_features_from_pdf W path)) (pdf_step input)
  /\ snd (gather_features W h input)
     = match pdf_step input with
       | Some _ => ["PDF_EXTRACTION"%string]
       | None => []
       end.
Proof.
  rewrite gather_features_eq. cbv zeta. destruct (pdf_step input); split; reflexivity.
Qed.

(** *** The recommendation *)

Lemma predict_result_policy L self startup_data r :
  snd (Predictor.predict_startup_success L self startup_data) = Some r ->
  let p := Predictor.success_probability r in
  (Predictor.investment_recommendation r = "INVEST"%string /\ 0.7 <= p)
  \/ (Predictor.investment_recommendation r = "WATCH"%string /\ 0.4 <= p /\ p < 0.7)
  \/ (Predictor.investment_recommendation r = "PASS"%string /\ p < 0.4).
Proof.
  unfold Predictor.predict_startup_success.
  destruct (Predictor.feature_scaler _) as [transform|]; [|discriminate].
  destruct (Predictor.ensemble_model _) as [ensemble|]; [|discriminate].
  unfold Predictor.categorise.
  destruct (Predictor.geb _ 0.7) eqn:E1; [|destruct (Predictor.geb _ 0.4) eqn:E2];
    cbn [snd]; intros [= <-]; cbn [Predictor.success_probability
                                    Predictor.investment_recommendation].
  - left. split; [reflexivity|]. now apply PredictorFacts.geb_true.
  - right. left. split; [reflexivity|]. split.
    + now apply PredictorFacts.geb_true.
    + now apply PredictorFacts.geb_false.
  - right. right. split; [reflexivity|]. now apply PredictorFacts.geb_false.
Qed.

(** X15.  Whatever the request and whatever path the analysis takes (the
    model's prediction, the substitute for a prediction that raised, or
    the placeholder for a prediction switched off), the recommendation in
    the result is the one the thresholds 0.7 and 0.4 assign to the
    success probability in the result. *)
Theorem recommendation_matches_probability W P h input :
  let ml := ml_prediction (snd (analyze_startup W P h input)) in
  let p := Predictor.success_probability ml in
  (Predictor.investment_recommendation ml = "INVEST"%string /\ 0.7 <= p)
  \/ (Predictor.investment_recommendation ml = "WATCH"%string /\ 0.4 <= p /\ p < 0.7)
  \/ (Predictor.investment_recommendation ml = "PASS"%string /\ p < 0.4).
Proof.
  rewrite analyze_startup_eq. cbv zeta. cbn [snd ml_prediction].
  destruct (use_ml_prediction input).
  - rewrite run_ml_prediction_eq. cbn [snd].
    destruct (snd (Predictor.predict_startup_success _ _ _)) as [r|] eqn:E.
    + exact (predict_result_policy _ _ _ _ E).
    + right. left. cbn. split; [reflexivity|]. split; [discriminate|reflexivity].
  - right. left. cbn. split; [reflexivity|]. split; [discriminate|reflexivity].
Qed.

(** *** The agents *)

(** X16.  Switching the agents on changes nothing that is computed: the
    prediction, the overall confidence, the data completeness, the
    extracted data, the pipeline and the store are those of the same
    request with the agents off, in any world. *)
Theorem agents_never_change_the_numbers W P h input :
  let '(P1, h1, r1) := analyze_startup W P h input in
  let '(P0, h0, r0) := analyze_startup W P h (without_agents input) in
  P1 = P0 /\ h1 = h0
  /\ ml_prediction r1 = ml_prediction r0
  /\ pdf_data r1 = pdf_data r0
  /\ overall_confidence r1 = overall_confidence r0
  /\ data_completeness r1 = data_completeness r0
  /\ agent_analysis r0 = None.
Proof.
  rewrite !analyze_startup_eq. cbv zeta.
  change (gather_features W h (without_agents input)) with (gather_features W h input).
  cbn [without_agents use_ml_prediction company_name analysis_id].
  repeat split; reflexivity.
Qed.

(** *** The two aggregates *)

Lemma np_mean_one x : Extractor.np_mean [x] == x.
Proof. unfold Extractor.np_mean. cbn. field. Qed.

Lemma np_mean_two x y : Extractor.np_mean [x; y] == (x + y) / 2.
Proof. unfold Extractor.np_mean. cbn. field. Qed.

(** X17.  The overall confidence of a result is the model confidence of its
    prediction when no PDF step ran, and the mean of that and the
    extraction confidence when one ran; the data completeness is 0.5
    without a PDF step and the completeness of the extracted data with
    one.  A PDF step ran exactly when extraction is on and the path is
    not empty, whether or not the file could be read. *)
Theorem confidence_aggregation W P h input :
  let r := snd (analyze_startup W P h input) in
  let model := Predictor.model_confidence (ml_prediction r) in
  match pdf_step input with
  | Some path =>
      let d := Extractor.extract_financial_data (readers W) path in
      pdf_data r = Some d
      /\ overall_confidence r == (model + Extractor.extraction_confidence d) / 2
      /\ data_completeness r == Extractor.completeness_score d
  | None =>
      pdf_data r = None
      /\ overall_confidence r == model
      /\ data_completeness r == 0.5
  end.
Proof.
  rewrite analyze_startup_eq. cbv zeta.
  cbn [snd pdf_data overall_confidence data_completeness ml_prediction].
  destruct (gathered_pdf W h input) as [-> _].
  destruct (pdf_step input) as [path|]; cbn [option_map];
    unfold combine_analysis_results; cbn [app fst snd extract_features_from_pdf].
  - split; [reflexivity|]. split; [apply np_mean_two|apply np_mean_one].
  - split; [reflexivity|]. split; [apply np_mean_one|reflexivity].
Qed.

(** *** A prediction switched off *)

(** X18.  With [use_ml_prediction] off the predictor is left as it was (it is
    not trained), the result carries the neutral placeholder (0.5,
    "Analysis Skipped", WATCH, model confidence 0.5) whose feature count
    is the number of entries of the feature dict, and the step is not
    recorded. *)
Theorem skipped_prediction_is_neutral W P h input :
  use_ml_prediction input = false ->
  let '(P', _, r) := analyze_startup W P h input in
  ml_predictor P' = ml_predictor P
  /\ Predictor.success_probability (ml_prediction r) = 0.5
  /\ Predictor.success_category (ml_prediction r) = "Analysis Skipped"%string
  /\ Predictor.investment_recommendation (ml_prediction r) = "WATCH"%string
  /\ Predictor.model_confidence (ml_prediction r) = 0.5
  /\ Predictor.feature_count (ml_prediction r) = size (merged_features W h input)
  /\ ~ In "ML_PREDICTION"%string (components_used r).
Proof.
  intros Hoff. rewrite analyze_startup_eq. cbv zeta. rewrite Hoff.
  cbn [fst snd ml_predictor ml_prediction skipped_prediction components_used
       Predictor.success_probability Predictor.success_category
       Predictor.investment_recommendation Predictor.model_confidence
       Predictor.feature_count].
  pose proof (gathered_dict W h input) as Hd. cbv zeta in Hd. rewrite Hd.
  repeat (split; [reflexivity|]).
  destruct (gathered_pdf W h input) as [_ ->].
  rewrite !in_app_iff.
  destruct (pdf_step input); cbn; intuition discriminate.
Qed.

(** X18, an instance. *)
Lemma skipped_prediction_is_neutral_witness :
  let input := without_agents
    {| company_name := "Acme"; industry := None; description := None;
       pdf_path := None; audio_path := None; video_path := None;
       manual_data := None; use_pdf_extraction := true; use_ai_agents := true;
       use_ml_prediction := false; analysis_id := None; timestamp := None |} in
  let '(P', _, r) := analyze_startup Sample.world new_pipeline ∅ input in
  Predictor.is_trained (ml_predictor P') = false
  /\ Predictor.feature_count (ml_prediction r) = 3%nat
  /\ components_used r = [].
Proof.
  cbv zeta.
  pose proof (skipped_prediction_is_neutral Sample.world new_pipeline ∅
    (without_agents
      {| company_name := "Acme"; industry := None; description := None;
         pdf_path := None; audio_path := None; video_path := None;
         manual_data := None; use_pdf_extraction := true; use_ai_agents := true;
         use_ml_prediction := false; analysis_id := None; timestamp := None |})
    eq_refl) as H.
  destruct (analyze_startup _ _ _ _) as [[P' h'] r] eqn:E.
  destruct H as (Hp & _ & _ & _ & _ & Hn & _).
  split; [now rewrite Hp|]. split; [rewrite Hn; reflexivity|].
  assert (Hr : r = snd (analyze_startup Sample.world new_pipeline ∅
    (without_agents
      {| company_name := "Acme"; industry := None; description := None;
         pdf_path := None; audio_path := None; video_path := None;
         manual_data := None; use_pdf_extraction := true; use_ai_agents := true;
         use_ml_prediction := false; analysis_id := None; timestamp := None |})))
    by now rewrite E.
  rewrite Hr. reflexivity.
Defined.

(** *** The components *)

(** X19.  The agents step of [analyze_startup] never gets as far as the
    agents.  Its first statement, the call [StartupData(company_name=...,
    industry=..., description=...)], raises [TypeError], the handler of
    the step catches it, and neither [run_agent_analysis] nor the append
    of ["AI_AGENTS"] is reached.  So, whatever the request and the world,
    the result carries no agent analysis, and [components_used] lists PDF
    extraction when that step ran and the prediction when it was
    requested, in this order, and never the agents. *)
Theorem agents_step_records_nothing W P h input :
  let r := snd (analyze_startup W P h input) in
  agent_analysis r = None
  /\ components_used r
     = match pdf_step input with
       | Some _ => ["PDF_EXTRACTION"%string]
       | None => []
       end
       ++ (if use_ml_prediction input then ["ML_PREDICTION"%string] else [])
  /\ ~ In "AI_AGENTS"%string (components_used r).
Proof.
  rewrite analyze_startup_eq. cbv zeta. cbn [snd components_used agent_analysis].
  destruct (gathered_pdf W h input) as [_ ->].
  split; [reflexivity|]. split; [reflexivity|].
  rewrite in_app_iff.
  destruct (pdf_step input); destruct (use_ml_prediction input); cbn;
    intuition discriminate.
Qed.

(** *** The store *)

Lemma analyzed_store W P h input :
  snd (fst (analyze_startup W P h input))
  = <[fst (working_dict h (manual_data input)) := merged_features W h input]>
      (snd (working_dict h (manual_data input))).
Proof.
  rewrite analyze_startup_store. unfold merged_features.
  rewrite <- working_dict_deref, gather_features_eq. cbv zeta.
  destruct (pdf_step input); cbn [fst snd].
  - now rewrite update_at_twice.
  - reflexivity.
Qed.

Lemma working_dict_frame h manual r :
  r <> fst (working_dict h manual) -> snd (working_dict h manual) !! r = h !! r.
Proof.
  unfold working_dict, new_dict.
  destruct manual as [r0|]; [destruct (truthy_dict _)|]; cbn [fst snd]; intros Hr;
    try reflexivity; now rewrite lookup_insert_ne.
Qed.

Lemma new_dict_fresh h : h !! fst (new_dict h) = None.
Proof. unfold new_dict. cbn [fst]. apply not_elem_of_dom, is_fresh. Qed.

(** X20.  [analyze_startup] changes at most one dict: the one it works on.
    Every other object of the store is as before; when the caller passes
    no dict, or an empty one, the working dict is a new object and every
    object the caller had is as before. *)
Theorem only_the_working_dict_changes W P h input :
  let h' := snd (fst (analyze_startup W P h input)) in
  let working := fst (working_dict h (manual_data input)) in
  (forall r, r <> working -> h' !! r = h !! r)
  /\ h' !! working = Some (merged_features W h input)
  /\ ((forall r, manual_data input = Some r -> deref h r = ∅) ->
      h !! working = None
      /\ forall r d, h !! r = Some d -> h' !! r = Some d).
Proof.
  cbv zeta. rewrite analyzed_store.
  assert (Hframe : forall r, r <> fst (working_dict h (manual_data input)) ->
            <[fst (working_dict h (manual_data input)) := merged_features W h input]>
              (snd (working_dict h (manual_data input))) !! r = h !! r).
  { intros r Hr. rewrite lookup_insert_ne by congruence. now apply working_dict_frame. }
  split; [exact Hframe|]. split; [apply lookup_insert_eq|].
  intros Hempty.
  assert (Hnew : h !! fst (working_dict h (manual_data input)) = None).
  { unfold working_dict. destruct (manual_data input) as [r0|];
      [|apply new_dict_fresh].
    rewrite (Hempty r0 eq_refl). apply new_dict_fresh. }
  split; [exact Hnew|].
  intros r d Hr. rewrite Hframe; [exact Hr|]. intros ->. congruence.
Qed.

Lemma update_twice (d a b : gmap string pyval) :
  update (update (update (update d a) b) a) b = update (update d a) b.
Proof.
  unfold update. apply map_eq. intros k. rewrite !lookup_union.
  destruct (b !! k), (a !! k), (d !! k); reflexivity.
Qed.

Lemma update_nonempty (d other : gmap string pyval) k v :
  other !! k = Some v -> truthy_dict (update d other) = true.
Proof.
  intros Hk. unfold truthy_dict. rewrite negb_true_iff, Nat.eqb_neq.
  rewrite map_size_empty_iff. intros He.
  pose proof (update_lookup_new d other k v Hk) as H. rewrite He in H.
  rewrite lookup_empty in H. discriminate H.
Qed.

Lemma merged_features_nonempty W h input :
  truthy_dict (merged_features W h input) = true.
Proof.
  unfold merged_features.
  set (manual := match manual_data input with Some r => deref h r | None => ∅ end).
  pose proof (basic_information_company_name input) as Hname.
  destruct (pdf_step input) as [path|].
  - destruct (snd (extract_features_from_pdf W path) !! "company_name"%string)
      as [v|] eqn:E.
    + now apply update_nonempty with (k := "company_name"%string) (v := v).
    + unfold truthy_dict. rewrite negb_true_iff, Nat.eqb_neq.
      rewrite map_size_empty_iff. intros He.
      pose proof (update_lookup_old (update manual (basic_information input)) _ _ E)
        as H.
      rewrite He, lookup_empty in H.
      now rewrite (update_lookup_new manual _ _ _ Hname) in H.
  - now apply update_nonempty with (k := "company_name"%string)
                                   (v := VStr (company_name input)).
Qed.

(** X21.  Analysing the same request again, with the caller's dict as the
    first analysis left it, changes no dict: the second pass writes the
    values that are already there.  This holds whatever state the
    pipeline is in.  (With no dict or an empty dict from the caller,
    every analysis makes a new object.) *)
Theorem second_analysis_changes_no_dict W P P' h input r :
  manual_data input = Some r ->
  truthy_dict (deref h r) = true ->
  let h1 := snd (fst (analyze_startup W P h input)) in
  snd (fst (analyze_startup W P' h1 input)) = h1
  /\ merged_features W h1 input = merged_features W h input.
Proof.
  intros Hm Ht. cbv zeta.
  assert (Hw : working_dict h (manual_data input) = (r, h)).
  { unfold working_dict. now rewrite Hm, Ht. }
  assert (H1 : snd (fst (analyze_startup W P h input))
               = <[r := merged_features W h input]> h).
  { now rewrite analyzed_store, Hw. }
  rewrite H1.
  assert (Hd : deref (<[r := merged_features W h input]> h) r
               = merged_features W h input).
  { unfold deref. now rewrite lookup_insert_eq. }
  assert (Hsame : merged_features W (<[r := merged_features W h input]> h) input
                  = merged_features W h input).
  { unfold merged_features at 1. rewrite Hm, Hd. unfold merged_features. rewrite Hm.
    destruct (pdf_step input) as [path|].
    - apply update_twice.
    - unfold update. apply map_eq. intros k. rewrite !lookup_union.
      destruct (basic_information input !! k), (deref h r !! k); reflexivity. }
  split; [|exact Hsame].
  rewrite analyzed_store.
  assert (Hw1 : working_dict (<[r := merged_features W h input]> h) (manual_data input)
                = (r, <[r := merged_features W h input]> h)).
  { unfold working_dict. now rewrite Hm, Hd, merged_features_nonempty. }
  rewrite Hw1. cbn [fst snd]. rewrite Hsame. apply insert_insert_eq.
Qed.

(** X21, an instance. *)
Lemma second_analysis_changes_no_dict_witness :
  let input := Sample.request "Acme" (Some "deck.pdf"%string) (Some 0%nat) in
  let h1 := snd (fst (analyze_startup Sample.world new_pipeline Sample.manual_revenue
                        input)) in
  snd (fst (analyze_startup Sample.world new_pipeline h1 input)) = h1
  /\ merged_features Sample.world h1 input
     = merged_features Sample.world Sample.manual_revenue input.
Proof.
  apply (second_analysis_changes_no_dict Sample.world new_pipeline new_pipeline
           Sample.manual_revenue
           (Sample.request "Acme" (Some "deck.pdf"%string) (Some 0%nat)) 0%nat);
    reflexivity.
Defined.

(** *** Name, industry and description *)

Lemma basic_information_other input k :
  k <> "company_name"%string -> k <> "industry"%string -> k <> "description"%string ->
  basic_information input !! k = None.
Proof.
  intros H1 H2 H3. unfold basic_information, set.
  rewrite !lookup_insert_ne by congruence. apply lookup_empty.
Qed.

Lemma dom_basic_information input :
  dom (basic_information input)
  = ({["description"%string]} ∪ ({["industry"%string]} ∪ ({["company_name"%string]} ∪ ∅))
     : gset string).
Proof.
  unfold basic_information, set. now rewrite !dom_insert_L, dom_empty_L.
Qed.

Lemma merged_features_lookup W h input k :
  merged_features W h input !! k
  = match match pdf_step input with
          | Some path => snd (extract_features_from_pdf W path) !! k
          | None => None
          end with
    | Some v => Some v
    | None =>
        match basic_information input !! k with
        | Some v => Some v
        | None =>
            match manual_data input with
            | Some r => deref h r !! k
            | None => None
            end
        end
    end.
Proof.
  unfold merged_features, update. destruct (pdf_step input) as [path|];
    rewrite !lookup_union;
    destruct (manual_data input); rewrite ?lookup_empty;
    repeat match goal with |- context [?m !! k] => destruct (m !! k) end; reflexivity.
Qed.

Lemma dom_merged_features W h input name industry description :
  dom (merged_features W h (with_identity name industry description input))
  = dom (merged_features W h input).
Proof.
  unfold merged_features, update.
  change (pdf_step (with_identity name industry description input))
    with (pdf_step input).
  change (manual_data (with_identity name industry description input))
    with (manual_data input).
  destruct (pdf_step input); rewrite !dom_union_L, !dom_basic_information; reflexivity.
Qed.

Lemma size_merged_features W h input name industry description :
  size (merged_features W h (with_identity name industry description input))
  = size (merged_features W h input).
Proof.
  pose proof (dom_merged_features W h input name industry description) as H.
  apply (f_equal size) in H.
  now rewrite (size_dom (merged_features W h (with_identity name industry description input))),
    (size_dom (merged_features W h input)) in H.
Qed.

Lemma merged_features_names W h input :
  merged_features W h input !! "company_name"%string = Some (VStr (company_name input))
  /\ merged_features W h input !! "industry"%string
     = Some (VStr (or_default (industry input) "Technology")).
Proof.
  rewrite !merged_features_lookup.
  rewrite basic_information_company_name, basic_information_industry.
  destruct (pdf_step input) as [path|]; [|split; reflexivity].
  unfold extract_features_from_pdf. cbn [snd].
  rewrite !convert_identity_keys by (simpl; tauto). split; reflexivity.
Qed.

(** X22.  The company name, the industry and the description of a request
    never reach the model: the same request under another name, industry
    and description gets the same prediction (probability, scores,
    factors, confidence interval), the same extracted data, the same
    overall confidence and data completeness, and leaves the same
    pipeline. *)
Theorem identity_never_reaches_the_model W P h input name industry description :
  let '(P1, _, r1) :=
    analyze_startup W P h (with_identity name industry description input) in
  let '(P0, _, r0) := analyze_startup W P h input in
  P1 = P0
  /\ ml_prediction r1 = ml_prediction r0
  /\ pdf_data r1 = pdf_data r0
  /\ overall_confidence r1 = overall_confidence r0
  /\ data_completeness r1 = data_completeness r0.
Proof.
  set (input' := with_identity name industry description input).
  assert (Hpred : forall L self,
    Predictor.predict_startup_success L self (merged_features W h input')
    = Predictor.predict_startup_success L self (merged_features W h input)).
  { intros L self.
    destruct (merged_features_names W h input) as [Hn Hi].
    destruct (merged_features_names W h input') as [Hn' Hi'].
    apply PredictorMore.predict_with_names
      with (f := Predictor.extract_features_from_data (merged_features W h input))
           (a := company_name input')
           (b := or_default (Pipeline.industry input') "Technology")
           (a' := company_name input)
           (b' := or_default (Pipeline.industry input) "Technology").
    - rewrite (PredictorMore.extract_with_names (merged_features W h input)
                 (merged_features W h input')).
      + unfold get_val. now rewrite Hn', Hi'.
      + intros k Hin H1 H2.
        assert (H3 : k <> "description"%string).
        { intros ->. apply PredictorMore.mem_In in Hin. discriminate Hin. }
        rewrite !merged_features_lookup.
        change (pdf_step input') with (pdf_step input).
        change (manual_data input') with (manual_data input).
        now rewrite !basic_information_other by assumption.
    - rewrite (PredictorMore.extract_with_names (merged_features W h input)
                 (merged_features W h input)) by reflexivity.
      unfold get_val. now rewrite Hn, Hi. }
  rewrite !analyze_startup_eq. cbv zeta.
  pose proof (gathered_dict W h input) as G. cbv zeta in G. rewrite G.
  pose proof (gathered_dict W h input') as G'. cbv zeta in G'. rewrite G'.
  destruct (gathered_pdf W h input) as [-> _].
  destruct (gathered_pdf W h input') as [-> _].
  change (pdf_step input') with (pdf_step input).
  change (use_ml_prediction input') with (use_ml_prediction input).
  cbn [fst snd ml_prediction pdf_data overall_confidence data_completeness].
  destruct (use_ml_prediction input).
  - rewrite !run_ml_prediction_eq, Hpred. repeat split; reflexivity.
  - unfold input'. rewrite size_merged_features. repeat split; reflexivity.
Qed.

(** *** What a PDF can change *)

Lemma keys_within_empty keys : keys_within keys ∅.
Proof. intros k v H. rewrite lookup_empty in H. discriminate H. Qed.

Lemma keys_within_set keys key v d :
  Predictor.mem key keys = true -> keys_within keys d -> keys_within keys (set key v d).
Proof.
  intros Hkey Hd k v'. unfold set. rewrite lookup_insert.
  destruct (decide (key = k)) as [<-|]; [|apply Hd].
  intros _. now apply PredictorMore.mem_In.
Qed.

Lemma keys_within_if_q keys x f d :
  (forall q d', keys_within keys d' -> keys_within keys (f q d')) ->
  keys_within keys d -> keys_within keys (if_q x f d).
Proof. intros Hf Hd. unfold if_q. destruct x; [destruct (Extractor.truthy_q _)|]; auto. Qed.

Lemma keys_within_if_z keys x f d :
  (forall z d', keys_within keys d' -> keys_within keys (f z d')) ->
  keys_within keys d -> keys_within keys (if_z x f d).
Proof. intros Hf Hd. unfold if_z. destruct x; [destruct (Extractor.truthy_z _)|]; auto. Qed.

Ltac written :=
  repeat first
    [ apply keys_within_empty
    | assumption
    | apply keys_within_set; [reflexivity|]
    | apply keys_within_if_q; [intros|]
    | apply keys_within_if_z; [intros|] ].

(** The keys of the features derived from a PDF are among the
    twenty-three that [_convert_pdf_to_ml_features] assigns. *)
Lemma convert_keys d :
  keys_within (unread_pdf_keys ++ read_pdf_keys) (convert_pdf_to_ml_features d).
Proof.
  unfold convert_pdf_to_ml_features. cbv zeta.
  do 3 (apply keys_within_set; [reflexivity|]).
  destruct (Extractor.business_model d) as [m|];
    [destruct (Extractor.truthy_s (Some m))|]; written.
Qed.

Lemma convert_lookup_none d k :
  Predictor.mem k (unread_pdf_keys ++ read_pdf_keys) = false ->
  convert_pdf_to_ml_features d !! k = None.
Proof.
  intros Hk. destruct (convert_pdf_to_ml_features d !! k) as [v|] eqn:E; [|reflexivity].
  apply convert_keys, PredictorMore.mem_In in E. congruence.
Qed.

Lemma get_num_update_none (d other : gmap string pyval) k default :
  other !! k = None -> get_num (update d other) k default = get_num d k default.
Proof. intros H. unfold get_num. now rewrite update_lookup_old. Qed.

(** X23.  Whatever a PDF yields, merging its features into a feature dict
    leaves the team score, the product score and the risk score of the
    dict as they were: none of the keys those scores are computed from is
    written by [_convert_pdf_to_ml_features].  In particular the product
    readiness and the user traction that the pipeline derives from the
    PDF do not enter the product score. *)
Theorem pdf_never_changes_team_product_risk startup_data pdf_data :
  let merged := update startup_data (convert_pdf_to_ml_features pdf_data) in
  let f := Predictor.extract_features_from_data merged in
  let f0 := Predictor.extract_features_from_data startup_data in
  Predictor.calculate_team_score f = Predictor.calculate_team_score f0
  /\ Predictor.calculate_product_score f = Predictor.calculate_product_score f0
  /\ Predictor.calculate_risk_score f = Predictor.calculate_risk_score f0.
Proof.
  cbv zeta.
  unfold Predictor.calculate_team_score, Predictor.calculate_product_score,
    Predictor.calculate_risk_score, Predictor.extract_features_from_data.
  cbn [Predictor.founder_experience_years Predictor.team_technical_score
       Predictor.team_business_score Predictor.advisor_quality_score
       Predictor.product_readiness_score Predictor.tech_differentiation_score
       Predictor.user_traction_score Predictor.product_market_fit_score
       Predictor.market_risk_score Predictor.technical_risk_score
       Predictor.team_risk_score Predictor.financial_risk_score
       Predictor.regulatory_risk_score].
  rewrite !get_num_update_none by (apply convert_lookup_none; reflexivity).
  repeat split; reflexivity.
Qed.

(** *** The statistics *)

Lemma analyze_startup_counts W P h input :
  let P' := fst (fst (analyze_startup W P h input)) in
  analysis_count P' = S (analysis_count P)
  /\ total_processing_time P' = total_processing_time P + elapsed W.
Proof.
  rewrite analyze_startup_eq. cbv zeta. cbn [fst analysis_count total_processing_time].
  destruct (use_ml_prediction input); [rewrite run_ml_prediction_eq|];
    split; reflexivity.
Qed.

Lemma analyze_all_counts calls :
  forall global_pipeline h,
  calls <> [] ->
  exists P,
    fst (analyze_all calls global_pipeline h) = Some P
    /\ analysis_count P
       = (analysis_count (get_production_pipeline global_pipeline)
          + List.length calls)%nat
    /\ total_processing_time P
       == total_processing_time (get_production_pipeline global_pipeline)
          + Extractor.q_sum (map (fun c => elapsed (call_world c)) calls).
Proof.
  induction calls as [|c rest IH]; intros global_pipeline h Hne; [congruence|].
  cbn [analyze_all]. unfold analyze_startup_production.
  set (input := {| company_name := call_company_name c; manual_data := _ |}).
  destruct (analyze_startup_counts (call_world c)
              (get_production_pipeline global_pipeline) h input) as [Hc Ht].
  cbv zeta in Hc, Ht.
  destruct (analyze_startup _ _ h input) as [[P1 h1] r]. cbn [fst] in Hc, Ht.
  destruct rest as [|c' rest'].
  - exists P1. cbn [analyze_all fst List.length map Extractor.q_sum fold_right].
    split; [reflexivity|]. split; [lia|]. rewrite Ht. ring.
  - destruct (IH (Some P1) h1) as (P & HP & HcP & HtP); [discriminate|].
    exists P. split; [exact HP|].
    cbn [get_production_pipeline] in HcP, HtP. split.
    + rewrite HcP, Hc. cbn [List.length]. lia.
    + rewrite HtP, Ht. cbn [map Extractor.q_sum fold_right]. ring.
Qed.

(** X24.  Starting without a pipeline, after any number of calls of
    [analyze_startup_production] the statistics of the global pipeline
    show that number as [total_analyses], the sum of the processing times
    as the total and their mean as the average; a pipeline that has
    analysed nothing reports the average 0 (nothing is divided by zero). *)
Theorem statistics_count_the_analyses W calls h :
  average_processing_time (get_pipeline_stats W (get_production_pipeline None)) = 0
  /\ match calls with
     | [] => fst (analyze_all calls None h) = None
     | _ :: _ =>
         exists P,
           fst (analyze_all calls None h) = Some P
           /\ total_analyses (get_pipeline_stats W P) = List.length calls
           /\ stats_total_processing_time (get_pipeline_stats W P)
              == Extractor.q_sum (map (fun c => elapsed (call_world c)) calls)
           /\ average_processing_time (get_pipeline_stats W P)
              == Extractor.np_mean (map (fun c => elapsed (call_world c)) calls)
     end.
Proof.
  split; [reflexivity|].
  destruct calls as [|c rest]; [reflexivity|].
  destruct (analyze_all_counts (c :: rest) None h) as (P & HP & Hc & Ht);
    [discriminate|].
  exists P. split; [exact HP|].
  cbn [get_production_pipeline new_pipeline analysis_count total_processing_time] in Hc, Ht.
  unfold get_pipeline_stats.
  cbn [total_analyses stats_total_processing_time average_processing_time].
  split; [exact Hc|]. split; [rewrite Ht; ring|].
  rewrite Hc. cbn [List.length].
  destruct (Nat.ltb_spec 0 (0 + S (List.length rest))) as [_|]; [|lia].
  unfold Extractor.np_mean, q_of_nat. rewrite length_map, Ht.
  cbn [List.length Nat.add].
  assert (Hz : ~ inject_Z (Z.of_nat (S (List.length rest))) == 0).
  { change 0 with (inject_Z 0). rewrite inject_Z_injective. lia. }
  field. exact Hz.
Qed.

End PipelineMore.

(** ** The analysis endpoint *)

Module BackendMore.
Import PyDict More PipelineMore.
Local Open Scope Q_scope.

Lemma item_lookup_ne key v (d : gmap string pyval) k :
  key <> k -> Backend.item key v d !! k = d !! k.
Proof. intros H. unfold Backend.item. destruct v; [now apply lookup_insert_ne|reflexivity]. Qed.

Lemma item_agree key v (d d' : gmap string pyval) k :
  d !! k = d' !! k -> Backend.item key v d !! k = Backend.item key v d' !! k.
Proof.
  intros H. unfold Backend.item. destruct v; [|exact H].
  rewrite !lookup_insert. now destruct (decide (key = k)).
Qed.

Lemma read_key_is_not_money k :
  In k read_keys -> "current_revenue"%string <> k /\ "funding_requested"%string <> k.
Proof.
  intros Hin.
  assert (H : forallb (fun k => negb (Predictor.mem k read_keys))
                ["current_revenue"; "funding_requested"]%string = true)
    by (vm_compute; reflexivity).
  rewrite forallb_forall in H.
  split; intros <-.
  - specialize (H "current_revenue"%string (or_introl eq_refl)).
    apply PredictorMore.mem_In in Hin. rewrite Hin in H. discriminate H.
  - specialize (H "funding_requested"%string (or_intror (or_introl eq_refl))).
    apply PredictorMore.mem_In in Hin. rewrite Hin in H. discriminate H.
Qed.

Lemma update_agree (d d' other : gmap string pyval) k :
  d !! k = d' !! k -> update d other !! k = update d' other !! k.
Proof. intros H. unfold update. now rewrite !lookup_union, H. Qed.

Lemma sync_features W h input m d :
  Pipeline.manual_data input = Some m ->
  merged_features W (<[m := d]> h) input
  = match Pipeline.pdf_step input with
    | Some path =>
        update (update d (Pipeline.basic_information input))
          (snd (Pipeline.extract_features_from_pdf W path))
    | None => update d (Pipeline.basic_information input)
    end.
Proof.
  intros Hm. unfold merged_features. rewrite Hm. unfold Pipeline.deref.
  now rewrite lookup_insert_eq.
Qed.

(** X25.  The response of [analyze_sync], and the pipeline it leaves behind,
    do not depend on the [current_revenue] and the [funding_requested] of
    the request: the endpoint stores them under ['current_revenue'] and
    ['funding_requested'], and the predictor reads ['revenue'] and
    ['funding_total']. *)
Theorem request_revenue_and_funding_are_ignored
    W production_pipeline h name industry description revenue revenue'
    funding funding' market team year pdf agents ml pdf_path :
  let request r f := {|
    Backend.company_name := name;
    Backend.industry := industry;
    Backend.description := description;
    Backend.current_revenue := r;
    Backend.funding_requested := f;
    Backend.market_size := market;
    Backend.team_size := team;
    Backend.founded_year := year;
    Backend.use_pdf_extraction := pdf;
    Backend.use_ai_agents := agents;
    Backend.use_ml_prediction := ml |} in
  option_map (fun x => (fst (fst x), snd x))
    (Backend.analyze_sync W production_pipeline h (request revenue funding) pdf_path)
  = option_map (fun x => (fst (fst x), snd x))
      (Backend.analyze_sync W production_pipeline h (request revenue' funding') pdf_path).
Proof.
  cbv zeta. destruct production_pipeline as [P|]; [|reflexivity].
  unfold Backend.analyze_sync.
  cbn [Backend.company_name Backend.industry Backend.description
       Backend.use_pdf_extraction Backend.use_ai_agents Backend.use_ml_prediction].
  set (input := {| Pipeline.company_name := name; Pipeline.manual_data := _ |}).
  set (d := Backend.manual_data _). set (d' := Backend.manual_data _).
  set (m := fresh (dom h)).
  assert (Hext : Predictor.extract_features_from_data (merged_features W (<[m := d]> h) input)
                 = Predictor.extract_features_from_data
                     (merged_features W (<[m := d']> h) input)).
  { apply PredictorMore.extract_features_agree. intros k Hin.
    destruct (read_key_is_not_money k Hin) as [Hr Hf].
    rewrite !(sync_features W h input m) by reflexivity.
    assert (Hd : d !! k = d' !! k).
    { unfold d, d', Backend.manual_data.
      cbn [Backend.founded_year Backend.team_size Backend.market_size
           Backend.funding_requested Backend.current_revenue].
      do 3 apply item_agree. now rewrite !item_lookup_ne. }
    destruct (Pipeline.pdf_step input); repeat apply update_agree; exact Hd. }
  rewrite !analyze_startup_eq. cbv zeta.
  pose proof (gathered_dict W (<[m := d]> h) input) as G. cbv zeta in G. rewrite G.
  pose proof (gathered_dict W (<[m := d']> h) input) as G'. cbv zeta in G'. rewrite G'.
  destruct (gathered_pdf W (<[m := d]> h) input) as [-> ->].
  destruct (gathered_pdf W (<[m := d']> h) input) as [-> ->].
  cbn [Pipeline.use_ml_prediction input].
  destruct ml.
  - rewrite !run_ml_prediction_eq.
    rewrite (PredictorMore.predict_agree _ _ _ _ Hext). reflexivity.
  - reflexivity.
Qed.

End BackendMore.

(** ** From the deck to the features *)

Module ConvertMore.
Import PyDict Pattern Extractor More PipelineFacts PipelineMore.
Local Open Scope Q_scope.

(** An optional number that is not zero when present *)
Lemma truthy_q_some r : truthy_q (Some r) = true <-> ~ r == 0.
Proof.
  unfold truthy_q. rewrite negb_true_iff, <- not_true_iff_false, Qeq_bool_iff.
  reflexivity.
Qed.

Lemma or_q_nonzero a b r :
  (forall x, b = Some x -> ~ x == 0) -> or_q a b = Some r -> ~ r == 0.
Proof.
  intros Hb. unfold or_q. destruct (truthy_q a) eqn:E; [|apply Hb].
  intros ->. now apply truthy_q_some.
Qed.

Lemma parse_ai_nonzero answer r : parse_ai_financial_value answer = Some r -> ~ r == 0.
Proof.
  unfold parse_ai_financial_value. destruct (truthy_s answer); [|discriminate].
  destruct answer as [a|]; [|discriminate].
  intros H. apply head_Some_elem_of, list_elem_of_In, in_flat_map in H.
  destruct H as (m & _ & Hm). now apply ExtractorFacts.kept_spec in Hm.
Qed.

(** The revenue and the growth rate that the extraction reports *)
Lemma extracted_revenue_and_growth R pdf_path r g :
  let d := extract_financial_data R pdf_path in
  current_revenue d = Some r ->
  revenue_growth_rate d = Some g ->
  ~ r == 0 /\ 0 < g
  /\ projected_revenue_y1 d = Some (r * (1 + g))
  /\ projected_revenue_y3 d = Some (r * ((1 + g) * (1 + g) * (1 + g))).
Proof.
  cbv zeta. unfold extract_financial_data.
  destruct (String.eqb (extract_text_from_pdf R pdf_path) ""); [discriminate|].
  cbv zeta.
  destruct (calculate_confidence_scores _) as [confidence completeness].
  cbn [with_scores current_revenue revenue_growth_rate projected_revenue_y1
       projected_revenue_y3].
  set (regex := extract_financial_metrics _).
  intros Hr Hg.
  assert (Hr0 : ~ r == 0).
  { revert Hr. apply or_q_nonzero. intros x. apply or_q_nonzero.
    intros y. apply parse_ai_nonzero. }
  assert (Hg0 : 0 < g).
  { destruct (truthy_q (regex !! "growth_rate"%string)); [|discriminate].
    destruct (regex !! "growth_rate"%string) as [g0|] eqn:E; [|discriminate].
    injection Hg as <-.
    pose proof (MetricsMore.metric_value_positive _ _ _ E) as Hpos.
    apply Qlt_shift_div_l; [reflexivity|]. lra. }
  split; [exact Hr0|]. split; [exact Hg0|].
  rewrite Hr, Hg. cbn [andb].
  assert (Htr : truthy_q (Some r) = true) by now apply truthy_q_some.
  assert (Htg : truthy_q (Some g) = true) by (apply truthy_q_some; lra).
  rewrite Htr, Htg. split; reflexivity.
Qed.

(** X26.  When the extraction reports a revenue [r] and a growth rate [g], the
    year-1 projection is [r * (1 + g)], and what
    [_convert_pdf_to_ml_features] stores under ['growth_rate'] and
    ['revenue_growth_rate'] is not read from the extracted growth rate:
    it is computed back from the projection, as
    [projected_revenue_y1 / current_revenue - 1], that is
    [r * (1 + g) / r - 1] in this order of operations.  The projection
    itself is stored under ['projected_revenue_y1']. *)
Theorem growth_rate_is_recomputed R pdf_path r g :
  let d := extract_financial_data R pdf_path in
  current_revenue d = Some r ->
  revenue_growth_rate d = Some g ->
  projected_revenue_y1 d = Some (r * (1 + g))
  /\ Pipeline.convert_pdf_to_ml_features d !! "projected_revenue_y1"%string
     = Some (VNum (r * (1 + g)))
  /\ Pipeline.convert_pdf_to_ml_features d !! "growth_rate"%string
     = Some (VNum (r * (1 + g) / r - 1))
  /\ Pipeline.convert_pdf_to_ml_features d !! "revenue_growth_rate"%string
     = Some (VNum (r * (1 + g) / r - 1)).
Proof.
  cbv zeta. intros Hr Hg.
  destruct (extracted_revenue_and_growth R pdf_path r g Hr Hg) as (Hr0 & Hg0 & Hy1 & Hy3).
  split; [exact Hy1|].
  assert (Htr : truthy_q (Some r) = true) by now apply truthy_q_some.
  assert (Hty : truthy_q (Some (r * (1 + g))) = true).
  { apply truthy_q_some. intros H. apply Qmult_integral in H as [H|H]; [tauto|lra]. }
  unfold Pipeline.convert_pdf_to_ml_features. cbv zeta.
  split; [|split].
  - other_key.
    destruct (business_model _) as [m|]; [destruct (truthy_s (Some m))|];
      other_key;
      rewrite Hy1; unfold Pipeline.if_q at 1; rewrite Hty;
      apply lookup_insert_eq.
  - other_key.
    destruct (business_model _) as [m|]; [destruct (truthy_s (Some m))|];
      other_key;
      rewrite Hr, Hy1; unfold Pipeline.if_q at 1; rewrite Htr;
      unfold Pipeline.if_q at 1; rewrite Hty;
      other_key; apply lookup_insert_eq.
  - other_key.
    destruct (business_model _) as [m|]; [destruct (truthy_s (Some m))|];
      other_key;
      rewrite Hr, Hy1; unfold Pipeline.if_q at 1; rewrite Htr;
      unfold Pipeline.if_q at 1; rewrite Hty;
      apply lookup_insert_eq.
Qed.

(** X26, an instance. *)
Lemma growth_rate_is_recomputed_witness :
  let d := extract_financial_data growing "growth.pdf" in
  Pipeline.convert_pdf_to_ml_features d !! "growth_rate"%string
  = Some (VNum ((4000000 # 2) * (1 + (50 # 100)) / (4000000 # 2) - 1)).
Proof.
  cbv zeta.
  destruct (growth_rate_is_recomputed growing "growth.pdf" (4000000 # 2) (50 # 100))
    as (_ & _ & Hgrowth & _).
  - vm_compute. reflexivity.
  - vm_compute. reflexivity.
  - exact Hgrowth.
Defined.

(** *** Amounts *)

Lemma or_q_all (P : Q -> Prop) a b x :
  (forall y, a = Some y -> P y) -> (forall y, b = Some y -> P y) ->
  or_q a b = Some x -> P x.
Proof. intros Ha Hb. unfold or_q. destruct (truthy_q a); auto. Qed.

Lemma parse_ai_positive answer x : parse_ai_financial_value answer = Some x -> 0 < x.
Proof.
  unfold parse_ai_financial_value. destruct (truthy_s answer); [|discriminate].
  destruct answer as [a|]; [|discriminate].
  intros H. apply head_Some_elem_of, list_elem_of_In, in_flat_map in H.
  destruct H as (m & Hm & Hk). apply ExtractorFacts.kept_spec in Hk as [Hparse Hnz].
  destruct ExtractorFacts.financial_patterns_report_value_chars as [_ Hai].
  pose proof (MetricsMore.matches_are_value_chars _ _ _ _ Hai Hm) as Hchars.
  pose proof (MetricsMore.parse_nonneg _ _ Hchars Hparse) as H0.
  apply Qle_lteq in H0 as [H0|H0]; [exact H0|]. exfalso. apply Hnz. now symmetry.
Qed.

Lemma table_median_lower (bound : Q) values x :
  Forall (fun v => bound <= v) values ->
  extract_from_table_data values = Some x -> bound <= x.
Proof.
  intros Hall. unfold extract_from_table_data.
  destruct values as [|v vs]; [discriminate|]. intros [= <-].
  destruct (MetricsMore.np_median_between (v :: vs)) as (a & b & Ha & _ & Hle & _);
    [discriminate|].
  rewrite Forall_forall in Hall. apply list_elem_of_In, Hall in Ha. lra.
Qed.

Lemma regex_positive text metric_type x :
  extract_financial_metrics text !! metric_type = Some x -> 0 < x.
Proof. apply MetricsMore.metric_value_positive. Qed.

Lemma py_int_nonneg q : 0 <= q -> (0 <= py_int q)%Z.
Proof.
  intros H. unfold py_int. apply Z.quot_pos; [|lia].
  unfold Qle in H. simpl in H. lia.
Qed.

Lemma extracted_revenue_lower R pdf_path x :
  Forall (fun v => 0 <= v) (tables_revenue R pdf_path) ->
  current_revenue (extract_financial_data R pdf_path) = Some x -> 0 < x.
Proof.
  intros Htable. unfold extract_financial_data.
  destruct (String.eqb (extract_text_from_pdf R pdf_path) ""); [discriminate|].
  cbv zeta. destruct (calculate_confidence_scores _) as [confidence completeness].
  cbn [with_scores current_revenue]. intros H.
  assert (Hnz : ~ x == 0).
  { revert H. apply or_q_nonzero. intros y. apply or_q_nonzero.
    intros z. apply parse_ai_nonzero. }
  assert (H0 : 0 <= x).
  { revert H. apply or_q_all.
    - intros y Hy. apply Qlt_le_weak. exact (regex_positive _ _ _ Hy).
    - intros y. apply or_q_all.
      + intros z. now apply table_median_lower.
      + intros z Hz. apply Qlt_le_weak. exact (parse_ai_positive _ _ Hz). }
  apply Qle_lteq in H0 as [H0|H0]; [exact H0|]. exfalso. apply Hnz. now symmetry.
Qed.

Lemma extracted_market_size R pdf_path x :
  market_size_tam (extract_financial_data R pdf_path) = Some x -> 0 < x.
Proof.
  unfold extract_financial_data.
  destruct (String.eqb (extract_text_from_pdf R pdf_path) ""); [discriminate|].
  cbv zeta. destruct (calculate_confidence_scores _) as [confidence completeness].
  cbn [with_scores market_size_tam].
  apply or_q_all; [apply regex_positive|apply parse_ai_positive].
Qed.

Lemma extracted_growth R pdf_path x :
  revenue_growth_rate (extract_financial_data R pdf_path) = Some x -> 0 < x.
Proof.
  unfold extract_financial_data.
  destruct (String.eqb (extract_text_from_pdf R pdf_path) ""); [discriminate|].
  cbv zeta. destruct (calculate_confidence_scores _) as [confidence completeness].
  cbn [with_scores revenue_growth_rate].
  set (regex := extract_financial_metrics _).
  destruct (truthy_q _); [|discriminate].
  destruct (regex !! "growth_rate"%string) as [g|] eqn:E; [|discriminate].
  intros [= <-]. apply regex_positive in E.
  apply Qlt_shift_div_l; [reflexivity|]. lra.
Qed.

(** X27.  The amounts that [extract_financial_data] reports are never zero or
    negative: the funding requested, the market size, the valuation and
    the growth rate are positive whenever they are present, and so is the
    revenue unless a table of the PDF holds a negative revenue; the team
    size and the number of customers are never negative. *)
Theorem extracted_amounts_are_positive R pdf_path :
  let d := extract_financial_data R pdf_path in
  (forall x, funding_requested d = Some x -> 0 < x)
  /\ (forall x, market_size_tam d = Some x -> 0 < x)
  /\ (forall x, valuation d = Some x -> 0 < x)
  /\ (forall x, revenue_growth_rate d = Some x -> 0 < x)
  /\ (forall n, team_size d = Some n -> (0 <= n)%Z)
  /\ (forall n, customers d = Some n -> (0 <= n)%Z)
  /\ (Forall (fun v => 0 <= v) (tables_revenue R pdf_path) ->
      forall x, current_revenue d = Some x -> 0 < x).
Proof.
  cbv zeta.
  split; [|split; [apply extracted_market_size
                  |split; [|split; [apply extracted_growth|split; [|split]]]]];
    try (intros Htable x; now apply extracted_revenue_lower);
    unfold extract_financial_data;
    (destruct (String.eqb (extract_text_from_pdf R pdf_path) ""); [discriminate|]);
    cbv zeta; destruct (calculate_confidence_scores _) as [confidence completeness];
    cbn [with_scores funding_requested valuation team_size customers];
    set (regex := extract_financial_metrics _).
  - intros x. apply or_q_all; [apply regex_positive|apply parse_ai_positive].
  - apply regex_positive.
  - intros n. destruct (truthy_q _); [|discriminate].
    destruct (regex !! "team_size"%string) as [g|] eqn:E; [|discriminate].
    intros [= <-]. apply regex_positive in E. apply py_int_nonneg. lra.
  - intros n. destruct (truthy_q _); [|discriminate].
    destruct (regex !! "customers"%string) as [g|] eqn:E; [|discriminate].
    intros [= <-]. apply regex_positive in E. apply py_int_nonneg. lra.
Qed.

(** *** Sources *)

Lemma or_q_first a b x : 0 < x -> a = Some x -> or_q a b = Some x.
Proof.
  intros Hx ->. unfold or_q.
  assert (H : truthy_q (Some x) = true) by (apply truthy_q_some; lra).
  now rewrite H.
Qed.

(** X28.  A revenue, a funding amount or a market size that the patterns find
    in the text of the PDF is what [extract_financial_data] reports: the
    tables and the answers of the question-answering model are consulted
    only for a metric that the patterns did not find.  The valuation
    comes from the patterns alone. *)
Theorem pattern_values_take_precedence R pdf_path :
  let d := extract_financial_data R pdf_path in
  let regex := extract_financial_metrics (extract_text_from_pdf R pdf_path) in
  (forall x, regex !! "revenue"%string = Some x -> current_revenue d = Some x)
  /\ (forall x, regex !! "funding"%string = Some x -> funding_requested d = Some x)
  /\ (forall x, regex !! "market_size"%string = Some x -> market_size_tam d = Some x)
  /\ valuation d = regex !! "valuation"%string.
Proof.
  cbv zeta. unfold extract_financial_data.
  destruct (String.eqb (extract_text_from_pdf R pdf_path) "") eqn:E.
  - apply String.eqb_eq in E. rewrite E.
    repeat split; try (intros x H; vm_compute in H; discriminate H).
  - cbv zeta. destruct (calculate_confidence_scores _) as [confidence completeness].
    cbn [with_scores current_revenue funding_requested market_size_tam valuation].
    repeat split; intros x H; apply or_q_first; try exact H;
      exact (regex_positive _ _ _ H).
Qed.

(** *** Ranges *)












End ConvertMore.
